(** * filebrowser: the resource handlers and the share-link handlers

    A shallow embedding of the HTTP handlers of package [http]
    ([resource.go], [share.go]) and of the user model of package [types]
    ([user.go]).  A handler is a function from the state of the world
    (response writer, scoped filesystem, share store, call log) to the
    state it leaves behind.  Collaborators that the handlers reach through
    Go interfaces ([afero.Fs], the share store) are type classes; the Go
    library functions the handlers call are written out below. *)

From Stdlib Require Import ZArith String Ascii List Bool Lia.
From stdpp Require Import base strings gmap list.

Local Open Scope string_scope.
Local Open Scope Z_scope.

(** ** Go library functions used by the handlers *)

Module GoStrings.

(** [strings.HasPrefix]. *)
Fixpoint HasPrefix (s prefix : string) : bool :=
  match prefix, s with
  | EmptyString, _ => true
  | String p prefix', String c s' => Ascii.eqb p c && HasPrefix s' prefix'
  | String _ _, EmptyString => false
  end.

(** [strings.TrimPrefix]: [s] without the leading [prefix], or [s]
    itself when it does not start with [prefix]. *)
Definition TrimPrefix (s prefix : string) : string :=
  if HasPrefix s prefix
  then String.substring (String.length prefix)
                        (String.length s - String.length prefix) s
  else s.

(** [strings.HasSuffix]. *)
Definition HasSuffix (s suffix : string) : bool :=
  let n := String.length s in
  let k := String.length suffix in
  (k <=? n)%nat && String.eqb (String.substring (n - k) k s) suffix.

(** [strings.TrimSuffix]. *)
Definition TrimSuffix (s suffix : string) : string :=
  if HasSuffix s suffix
  then String.substring 0 (String.length s - String.length suffix) s
  else s.

End GoStrings.

Module GoInt.

(** Go's [int], [int64] and [time.Duration] are 64-bit two's complement:
    arithmetic wraps around silently. *)
Definition min_int64 : Z := - 2 ^ 63.
Definition max_int64 : Z := 2 ^ 63 - 1.

Definition wrap64 (z : Z) : Z := (z + 2 ^ 63) mod 2 ^ 64 - 2 ^ 63.

Definition in_int64 (z : Z) : Prop := min_int64 <= z <= max_int64.

Definition in_int64b (z : Z) : bool := (min_int64 <=? z) && (z <=? max_int64).

(** Multiplication of two [int64] values. *)
Definition mul64 (a b : Z) : Z := wrap64 (a * b).

End GoInt.

(** Go's [error] interface.  The constructors are the error values the
    handlers can tell apart, by identity ([types.ErrNotExist],
    [types.ErrInvalidOption]) or through the [os.Is...] predicates. *)
Inductive Err : Type :=
  | ErrNotExist                   (* types.ErrNotExist *)
  | ErrInvalidOption              (* types.ErrInvalidOption *)
  | OsErrPermission               (* os.IsPermission holds *)
  | OsErrNotExist                 (* os.IsNotExist holds *)
  | OsErrExist                    (* os.IsExist holds *)
  | NumErrSyntax                  (* strconv.NumError, strconv.ErrSyntax *)
  | NumErrRange                   (* strconv.NumError, strconv.ErrRange *)
  | EscapeError (s : string)      (* url.EscapeError *)
  | ErrOther (msg : string).      (* anything else: storage, hooks, random source *)

(** [nil] is [None]. *)
Definition error : Type := option Err.

Module GoStrconv.
Import GoInt.

Definition digit_of (c : ascii) : option Z :=
  let n := Z.of_N (N_of_ascii c) in
  if (48 <=? n) && (n <=? 57) then Some (n - 48) else None.

(** The loop of [strconv.ParseUint] in base 10 on 64 bits: a character
    that is not a digit is a syntax error, a value above [2^64 - 1] a
    range error, whichever comes first. *)
Fixpoint parseUint (s : string) (acc : Z) : Z + Err :=
  match s with
  | EmptyString => inl acc
  | String c s' =>
      match digit_of c with
      | None => inr NumErrSyntax
      | Some d =>
          if 2 ^ 64 - 1 <? 10 * acc + d then inr NumErrRange
          else parseUint s' (10 * acc + d)
      end
  end.

(** [strconv.Atoi]: an optional sign, then at least one decimal digit;
    the value has to fit in [int]. *)
Definition Atoi (s : string) : Z + Err :=
  let '(neg, digits) :=
    match s with
    | String "-" r => (true, r)
    | String "+" r => (false, r)
    | _ => (false, s)
    end in
  match digits with
  | EmptyString => inr NumErrSyntax
  | _ =>
      match parseUint digits 0 with
      | inr e => inr e
      | inl un =>
          if negb neg && (2 ^ 63 <=? un) then inr NumErrRange
          else if neg && (2 ^ 63 <? un) then inr NumErrRange
          else inl (if neg then - un else un)
      end
  end.

End GoStrconv.

Module GoUrl.

Definition ishex (c : ascii) : bool :=
  let n := N_of_ascii c in
  ((48 <=? n) && (n <=? 57) || (97 <=? n) && (n <=? 102)
   || (65 <=? n) && (n <=? 70))%N.

Definition unhex (c : ascii) : N :=
  let n := N_of_ascii c in
  (if (48 <=? n) && (n <=? 57) then n - 48
   else if (97 <=? n) && (n <=? 102) then n - 97 + 10
   else if (65 <=? n) && (n <=? 70) then n - 65 + 10
   else 0)%N.

(** [url.QueryUnescape]: [%XY] becomes the byte with hexadecimal code
    [XY], [+] becomes a space; a [%] that is not followed by two
    hexadecimal digits is an [EscapeError] carrying the offending
    (at most three) characters. *)
Fixpoint QueryUnescape (s : string) : string + Err :=
  match s with
  | EmptyString => inl EmptyString
  | String "%" (String a (String b rest)) =>
      if ishex a && ishex b then
        match QueryUnescape rest with
        | inl r => inl (String (ascii_of_N (16 * unhex a + unhex b)) r)
        | inr e => inr e
        end
      else inr (EscapeError (String "%" (String a (String b EmptyString))))
  | String "%" rest => inr (EscapeError (String "%" rest))
  | String "+" rest =>
      match QueryUnescape rest with
      | inl r => inl (String " " r)
      | inr e => inr e
      end
  | String c rest =>
      match QueryUnescape rest with
      | inl r => inl (String c r)
      | inr e => inr e
      end
  end.

(** [url.Values] is [map[string][]string]; [Get] is the first value
    stored under the key, or the empty string. *)
Definition Values_Get (v : gmap string (list string)) (key : string) : string :=
  match v !! key with
  | Some (x :: _) => x
  | _ => EmptyString
  end.

End GoUrl.

Module GoBase64.

Definition encodeURL : string :=
  "ABCDEFGHIJKLMNOPQRSTUVWXYZabcdefghijklmnopqrstuvwxyz0123456789-_".

Definition enc (n : N) : ascii :=
  match String.get (N.to_nat n) encodeURL with
  | Some c => c
  | None => "="%char
  end.

(** [base64.URLEncoding.EncodeToString]: three bytes become four
    characters of the URL-safe alphabet; a last group of one or two
    bytes is padded with [=]. *)
Fixpoint EncodeToString (src : string) : string :=
  match src with
  | EmptyString => EmptyString
  | String a EmptyString =>
      let v := (N_of_ascii a * 65536)%N in
      String (enc (v / 262144 mod 64)) (String (enc (v / 4096 mod 64)) "==")
  | String a (String b EmptyString) =>
      let v := (N_of_ascii a * 65536 + N_of_ascii b * 256)%N in
      String (enc (v / 262144 mod 64)) (String (enc (v / 4096 mod 64))
        (String (enc (v / 64 mod 64)) "="))
  | String a (String b (String c rest)) =>
      let v := (N_of_ascii a * 65536 + N_of_ascii b * 256 + N_of_ascii c)%N in
      String (enc (v / 262144 mod 64)) (String (enc (v / 4096 mod 64))
        (String (enc (v / 64 mod 64)) (String (enc (v mod 64))
          (EncodeToString rest))))
  end.

End GoBase64.

Module GoFmt.

Definition hexdigit (d : Z) : ascii :=
  match String.get (Z.to_nat d) "0123456789abcdef" with
  | Some c => c
  | None => "?"%char
  end.

(** The digits of a non-negative number in base 16, most significant
    first, in front of [acc]. *)
Fixpoint hex_digits (fuel : nat) (n : Z) (acc : string) : string :=
  match fuel with
  | O => acc
  | S fuel' =>
      if n <? 16 then String (hexdigit n) acc
      else hex_digits fuel' (n / 16) (String (hexdigit (n mod 16)) acc)
  end.

(** The verb [%x] on an [int64]: lower-case hexadecimal, a minus sign
    in front of the magnitude of a negative number. *)
Definition fmt_x (n : Z) : string :=
  if n <? 0 then String "-" (hex_digits 16 (- n) EmptyString)
  else hex_digits 16 n EmptyString.

End GoFmt.

Module GoFilepath.
Import GoStrings.

(** The elements of a path between its separators. *)
Fixpoint path_elements (s : string) : list string :=
  match s with
  | EmptyString => [EmptyString]
  | String c r =>
      if Ascii.eqb c "/" then EmptyString :: path_elements r
      else match path_elements r with
           | x :: xs => String c x :: xs
           | [] => [String c EmptyString]
           end
  end.

(** One element in front of the elements kept so far (last one first). *)
Definition clean_step (rooted : bool) (out : list string) (c : string) : list string :=
  if String.eqb c EmptyString || String.eqb c "." then out
  else if String.eqb c ".." then
    match out with
    | top :: out' => if String.eqb top ".." then c :: out else out'
    | [] => if rooted then [] else [c]
    end
  else c :: out.

(** [filepath.Clean] on a Unix path: no empty and no [.] element, a
    [..] cancels the element before it, a rooted path never climbs
    above the root, the empty path is [.]. *)
Definition Clean (path : string) : string :=
  let rooted := HasPrefix path "/" in
  let out := fold_left (clean_step rooted) (path_elements path) [] in
  let body := String.concat "/" (rev out) in
  if rooted then String "/" body
  else if String.eqb body EmptyString then "." else body.

(** [filepath.Join] of two elements: empty elements are dropped, the
    rest is joined by the separator and cleaned. *)
Definition Join (a b : string) : string :=
  if String.eqb a EmptyString && String.eqb b EmptyString then EmptyString
  else if String.eqb a EmptyString then Clean b
  else if String.eqb b EmptyString then Clean a
  else Clean (a +:+ "/" +:+ b).

End GoFilepath.


(** ** Package [types]: users, permissions, share links, files *)

Module types.

(** [type Permissions struct]. *)
Record Permissions : Type := {
  Admin : bool;
  Execute : bool;
  Create : bool;
  Rename : bool;
  Modify : bool;
  Delete : bool;
  Share : bool;
  Download : bool;
  Commands : list string
}.

(** Modelled from the spec: [type Rule struct] is declared in a file of
    package [types] that is not among the sources, "a path-matching
    predicate plus an allow/deny verdict".  Only [isAllowed] looks
    inside. *)
Record Rule : Type := {
  Regex : bool;
  Allow : bool;
  RulePath : string
}.

(** Modelled from the spec: [type Sorting struct] is declared in a file
    of package [types] that is not among the sources, the user's "Sorting
    preference": a key and a direction. *)
Record Sorting : Type := {
  By : string;
  Asc : bool
}.

(** [type ViewMode string] and its two constants. *)
Definition ListViewMode : string := "list".
Definition MosaicViewMode : string := "mosaic".

(** [type User struct].  The field [Fs afero.Fs] is an interface value:
    its methods are those of the class [AferoFs] below and its state is
    the filesystem of the world, so the record has no field for it.  The
    field [Sorting] is [UserSorting] here, the name of its type being
    taken. *)
Record User : Type := {
  ID : Z;
  Username : string;
  Password : string;
  Scope : string;
  Locale : string;
  LockPassword : bool;
  ViewMode : string;
  Perm : Permissions;
  UserSorting : Sorting;
  Rules : list Rule
}.

(** Modelled from the spec: [type ShareLink struct] is declared in a file
    of package [types] that is not among the sources, "absolute scoped
    path, unique hash (token), expires flag, expireDate timestamp
    (meaningful only if expires)"; the handlers name the fields.
    [ExpireDate] is an instant in nanoseconds. *)
Record ShareLink : Type := {
  Path : string;
  Hash : string;
  Expires : bool;
  ExpireDate : Z
}.

(** Modelled from the spec: [type Listing struct] is declared in a file
    of package [types] that is not among the sources, an "ordered
    sequence of child FileInfo plus the active sort key and order"; the
    children are kept by name. *)
Record Listing : Type := {
  Items : list string;
  Sort : string;
  Order : string
}.

(** Modelled from the spec: [type File struct] is declared in a file of
    package [types] that is not among the sources, "a transient,
    request-scoped view: path, name, size, modification time, type
    classification, optional embedded content, and for directories a
    Listing".  The handlers read and write [IsDir], [Type] ([Type_] here),
    [Content] and [Listing] ([FileListing] here); [Checksums] and
    [Subtitles] are what [Checksum] and [DetectSubtitles] fill in. *)
Record File : Type := {
  FilePath : string;
  IsDir : bool;
  Type_ : string;
  Content : string;
  Checksums : list (string * string);
  Subtitles : list string;
  FileListing : Listing
}.

Definition set_Type (f : File) (t : string) : File :=
  {| FilePath := FilePath f; IsDir := IsDir f; Type_ := t;
     Content := Content f; Checksums := Checksums f;
     Subtitles := Subtitles f; FileListing := FileListing f |}.

Definition set_Content (f : File) (c : string) : File :=
  {| FilePath := FilePath f; IsDir := IsDir f; Type_ := Type_ f;
     Content := c; Checksums := Checksums f;
     Subtitles := Subtitles f; FileListing := FileListing f |}.

Definition set_Listing (f : File) (l : Listing) : File :=
  {| FilePath := FilePath f; IsDir := IsDir f; Type_ := Type_ f;
     Content := Content f; Checksums := Checksums f;
     Subtitles := Subtitles f; FileListing := l |}.

Definition set_Sort_Order (l : Listing) (sort order : string) : Listing :=
  {| Items := Items l; Sort := sort; Order := order |}.

Definition set_ExpireDate (s : ShareLink) (t : Z) : ShareLink :=
  {| Path := Path s; Hash := Hash s; Expires := Expires s; ExpireDate := t |}.

End types.

Import types.

(** [os.FileInfo], as far as the handlers read it. *)
Record os_FileInfo : Type := {
  ModTime : Z;      (* an instant in nanoseconds *)
  Size : Z
}.

(** The calls a handler makes on the user's filesystem. *)
Inductive FsCall : Type :=
  | CallRemoveAll (path : string)
  | CallMkdirAll (path : string) (perm : Z)
  | CallStat (path : string)
  | CallOpenFile (path : string) (flag perm : Z)
  | CallCopy (path : string) (body : string)
  | CallFileStat (path : string)
  | CallClose (path : string)
  | CallRename (src dst : string)
  | CallNewFileInfo (path : string)
  | CallChecksum (path : string) (algo : string).

(** The calls a handler makes on the share store. *)
Inductive StoreCall : Type :=
  | CallGetByPath (path : string)
  | CallGetPermanent (path : string)
  | CallSave (s : ShareLink)
  | CallDelete (hash : string).

(** What a handler asks of its collaborators, in order. *)
Inductive Event : Type :=
  | EvRun (event path dst : string)
  | EvHook (stage event path dst : string)
  | EvFs (c : FsCall)
  | EvStore (c : StoreCall).

(** [afero.Fs], the interface behind [user.Fs], over a filesystem state
    [FS]; an open file is named by its path. *)
Class AferoFs (FS : Type) : Type := {
  Fs_RemoveAll : string -> FS -> FS * error;
  Fs_MkdirAll : string -> Z -> FS -> FS * error;
  Fs_Stat : string -> FS -> os_FileInfo + Err;
  Fs_OpenFile : string -> Z -> Z -> FS -> FS * error;
  Fs_Rename : string -> string -> FS -> FS * error;
  (* [io.Copy(file, body)] on a file opened by [OpenFile] *)
  File_Copy : string -> string -> FS -> FS * error;
  File_Stat : string -> FS -> os_FileInfo + Err;
  File_Close : string -> FS -> FS
}.

(** The share store, the interface behind [e.Store.Share], over a store
    state [ST]: "a ShareLink store (get-by-path, get-permanent-by-path,
    save, delete-by-hash)".  Its implementations are not among the
    sources; the handlers are stated for any of them. *)
Class ShareStore (ST : Type) : Type := {
  Share_GetByPath : string -> ST -> list ShareLink + Err;
  Share_GetPermanent : string -> ST -> ShareLink + Err;
  Share_Save : ShareLink -> ST -> ST * error;
  Share_Delete : string -> ST -> ST * error
}.

(** The functions of package [types] that the handlers call and whose
    bodies are in files of the package that are not among the sources;
    the handlers are stated for any of them. *)
Class TypesPkg (FS : Type) : Type := {
  isAllowed : string -> list Rule -> bool;
  NewFileInfo : User -> string -> FS -> File + Err;
  File_Checksum : File -> string -> FS -> File * error;
  File_DetectSubtitles : File -> FS -> File;
  Listing_ApplySort : Listing -> Listing
}.

(** [func (u User) IsAllowed(url string) bool]. *)
Definition IsAllowed {FS} `{!TypesPkg FS} (u : User) (url : string) : bool :=
  isAllowed url (Rules u).

(** ** Package [http]: requests, responses and the world of a handler *)

Definition StatusOK : Z := 200.
Definition StatusBadRequest : Z := 400.
Definition StatusForbidden : Z := 403.
Definition StatusNotFound : Z := 404.
Definition StatusMethodNotAllowed : Z := 405.
Definition StatusConflict : Z := 409.
Definition StatusInternalServerError : Z := 500.

Definition MethodPost : string := "POST".
Definition MethodPut : string := "PUT".

Definition apiResourcePrefix : string := "/api/resources".
Definition apiSharePrefix : string := "/api/share".

(** [os.O_RDWR], [os.O_CREATE], [os.O_TRUNC] (Linux). *)
Definition O_RDWR : Z := 2.
Definition O_CREATE : Z := 64.
Definition O_TRUNC : Z := 512.

(** The permission bits [0775]. *)
Definition perm_0775 : Z := 7 * 64 + 7 * 8 + 5.

(** [time.Duration] constants, in nanoseconds. *)
Definition Second : Z := 1000000000.
Definition Minute : Z := 60 * Second.
Definition Hour : Z := 60 * Minute.

(** The zero [time.Time] (January 1, year 1, UTC), in nanoseconds from
    the Unix epoch. *)
Definition zeroTime : Z := - 62135596800 * Second.

(** [http.Cookie], the fields [handleSortOrder] sets. *)
Record Cookie : Type := {
  CookieName : string;
  CookieValue : string;
  MaxAge : Z;
  CookiePath : string;
  Secure : bool
}.

(** [*http.Request], the parts the handlers read: [URL_Query] is what
    [r.URL.Query()] returns, [Cookies] the cookies of the request in
    header order, [TLS] whether [r.TLS != nil], [UserID] the identity the
    router stored in the request context. *)
Record Request : Type := {
  Method : string;
  URL_Path : string;
  URL_Query : gmap string (list string);
  Cookies : list (string * string);
  TLS : bool;
  Body : string;
  UserID : Z
}.

(** [r.Cookie(name)]: the value of the first cookie of that name. *)
Definition Request_Cookie (r : Request) (name : string) : option string :=
  snd <$> List.find (fun c => String.eqb (fst c) name) (Cookies r).

(** What is written to the body of a response. *)
Inductive Chunk : Type :=
  | Text (s : string)
  | StatusLine (status : Z)
  | JSONLinks (l : list ShareLink)
  | JSONLink (s : ShareLink)
  | JSONFile (f : File).

(** [http.ResponseWriter]: the header map, the cookies added by
    [http.SetCookie], the status code once written, the body. *)
Record ResponseWriter : Type := {
  Header : gmap string (list string);
  SetCookies : list Cookie;
  Status : option Z;
  Written : list Chunk
}.

Definition emptyResponse : ResponseWriter :=
  {| Header := ∅; SetCookies := []; Status := None; Written := [] |}.

(** Modelled from the spec: [type Env struct] is declared in a file of
    package [http] that is not among the sources; the handlers read
    [e.Settings.BaseURL], [e.Store] and [e.Runner].  With it come the
    surroundings of the process: the user store behind [getUser], the
    outcome of the hooks the [Runner] fires (by stage, operation name,
    source, destination, user and result of the operation), the
    successive readings of [time.Now()] and the successive outcomes of
    [rand.Read] on six bytes. *)
Record Env : Type := {
  BaseURL : string;
  Users_Get : Z -> User + Z;
  Runner_hook : string -> string -> string -> string -> User -> error -> error;
  clock : nat -> Z;
  entropy : nat -> string + Err
}.

(** The state a handler runs in. *)
Record World (FS ST : Type) : Type := {
  resp : ResponseWriter;
  fs : FS;
  store : ST;
  log : list Event;
  ticks : nat;     (* readings of the clock so far *)
  draws : nat      (* reads of the random source so far *)
}.

Arguments resp {FS ST} _.
Arguments fs {FS ST} _.
Arguments store {FS ST} _.
Arguments log {FS ST} _.
Arguments ticks {FS ST} _.
Arguments draws {FS ST} _.

(** A handler returns, or panics on the way (the server recovers the
    panic and drops the connection; what was done before stays done). *)
Inductive Outcome (W : Type) : Type :=
  | Returned (w : W)
  | Panicked (w : W).

Arguments Returned {W} _.
Arguments Panicked {W} _.

Section Primitives.
Context {FS ST : Type}.
Local Abbreviation World := (World FS ST).

Definition set_resp (w : World) (r : ResponseWriter) : World :=
  {| resp := r; fs := fs w; store := store w; log := log w;
     ticks := ticks w; draws := draws w |}.

Definition set_fs (w : World) (f : FS) : World :=
  {| resp := resp w; fs := f; store := store w; log := log w;
     ticks := ticks w; draws := draws w |}.

Definition set_store (w : World) (s : ST) : World :=
  {| resp := resp w; fs := fs w; store := s; log := log w;
     ticks := ticks w; draws := draws w |}.

Definition emit (ev : Event) (w : World) : World :=
  {| resp := resp w; fs := fs w; store := store w; log := log w ++ [ev];
     ticks := ticks w; draws := draws w |}.

(** [w.WriteHeader(code)]: the first status written stands. *)
Definition WriteHeader (code : Z) (w : World) : World :=
  match Status (resp w) with
  | Some _ => w
  | None =>
      set_resp w {| Header := Header (resp w); SetCookies := SetCookies (resp w);
                    Status := Some code; Written := Written (resp w) |}
  end.

(** [w.Write(data)]: writes the status 200 first when none was written. *)
Definition Write (c : Chunk) (w : World) : World :=
  let w1 := WriteHeader StatusOK w in
  set_resp w1 {| Header := Header (resp w1); SetCookies := SetCookies (resp w1);
                 Status := Status (resp w1); Written := Written (resp w1) ++ [c] |}.

(** [w.Header().Set(key, value)]. *)
Definition Header_Set (key value : string) (w : World) : World :=
  set_resp w {| Header := <[key := [value]]> (Header (resp w));
                SetCookies := SetCookies (resp w);
                Status := Status (resp w); Written := Written (resp w) |}.

(** [http.SetCookie(w, cookie)]. *)
Definition SetCookie (c : Cookie) (w : World) : World :=
  set_resp w {| Header := Header (resp w);
                SetCookies := SetCookies (resp w) ++ [c];
                Status := Status (resp w); Written := Written (resp w) |}.

(** Modelled from the spec: [httpErr] is defined in a file of package
    [http] that is not among the sources.  It surfaces the signal: it
    writes the status code and the status line as the body. *)
Definition httpErr (status : Z) (err : error) (w : World) : World :=
  Write (StatusLine status) (WriteHeader status w).

(** Modelled from the spec: [renderJSON] is defined in a file of package
    [http] that is not among the sources.  It writes the encoded value
    as the body of the response. *)
Definition renderJSON (c : Chunk) (w : World) : World :=
  Write c w.

(** [func httpFsErr(err error) int]. *)
Definition httpFsErr (err : error) : Z :=
  match err with
  | None => StatusOK
  | Some OsErrPermission => StatusForbidden
  | Some OsErrNotExist => StatusNotFound
  | Some OsErrExist => StatusConflict
  | Some _ => StatusInternalServerError
  end.

End Primitives.

(** ** Go slices

    A slice is a window of [len] elements on a backing array, here from
    its first cell; the capacity is the size of the array.  Slices cut
    from one another share the array. *)

Module GoSlice.

Record slice (A : Type) : Type := {
  array : list A;
  len : nat
}.

Arguments array {A} _.
Arguments len {A} _.

Definition cap {A} (s : slice A) : nat := length (array s).

(** The slice [make]s or a call returns: exactly its elements. *)
Definition of_list {A} (l : list A) : slice A :=
  {| array := l; len := length l |}.

(** The elements of a slice. *)
Definition to_list {A} (s : slice A) : list A := take (len s) (array s).

(** [s[:hi]]: the bound may reach the capacity; above it the
    expression panics. *)
Definition upto {A} (s : slice A) (hi : nat) : option (slice A) :=
  if (hi <=? cap s)%nat then Some {| array := array s; len := hi |}
  else None.

(** The elements of [s[lo:]]: the upper bound is [len(s)], and the
    expression panics when [lo] is above it. *)
Definition from {A} (s : slice A) (lo : nat) : option (list A) :=
  if (lo <=? len s)%nat then Some (take (len s - lo) (drop lo (array s)))
  else None.

(** [append(s, xs...)]: when the capacity suffices the elements are
    written into the backing array behind [s] and the array is shared
    with every slice cut from it ([true]); otherwise the result lives in
    a new array ([false]). *)
Definition append {A} (s : slice A) (xs : list A) : slice A * bool :=
  if (len s + length xs <=? cap s)%nat then
    ({| array := take (len s) (array s) ++ xs
                 ++ drop (len s + length xs) (array s);
        len := (len s + length xs)%nat |}, true)
  else
    ({| array := take (len s) (array s) ++ xs;
        len := (len s + length xs)%nat |}, false).

End GoSlice.

(** ** The collaborators as seen from a handler *)

Section Handlers.
Context {FS ST : Type} `{!AferoFs FS} `{!ShareStore ST} `{!TypesPkg FS}.
Variable e : Env.
Local Abbreviation World := (World FS ST).

Import GoStrings GoInt GoStrconv GoUrl GoBase64 GoFmt GoFilepath.

(** [time.Now()]. *)
Definition time_Now (w : World) : World * Z :=
  ({| resp := resp w; fs := fs w; store := store w; log := log w;
      ticks := S (ticks w); draws := draws w |},
   clock e (ticks w)).

(** [rand.Read(bytes)] on a slice of six bytes. *)
Definition rand_Read (w : World) : World * (string + Err) :=
  ({| resp := resp w; fs := fs w; store := store w; log := log w;
      ticks := ticks w; draws := S (draws w) |},
   entropy e (draws w)).

(** The methods of [user.Fs]: each call is logged and runs on the
    filesystem of the world. *)
Definition user_Fs_RemoveAll (path : string) (w : World) : World * error :=
  let '(f, err) := Fs_RemoveAll path (fs w) in
  (set_fs (emit (EvFs (CallRemoveAll path)) w) f, err).

Definition user_Fs_MkdirAll (path : string) (perm : Z) (w : World) : World * error :=
  let '(f, err) := Fs_MkdirAll path perm (fs w) in
  (set_fs (emit (EvFs (CallMkdirAll path perm)) w) f, err).

Definition user_Fs_Stat (path : string) (w : World) : World * (os_FileInfo + Err) :=
  (emit (EvFs (CallStat path)) w, Fs_Stat path (fs w)).

Definition user_Fs_OpenFile (path : string) (flag perm : Z) (w : World) : World * error :=
  let '(f, err) := Fs_OpenFile path flag perm (fs w) in
  (set_fs (emit (EvFs (CallOpenFile path flag perm)) w) f, err).

Definition user_Fs_Rename (src dst : string) (w : World) : World * error :=
  let '(f, err) := Fs_Rename src dst (fs w) in
  (set_fs (emit (EvFs (CallRename src dst)) w) f, err).

Definition file_Copy (path body : string) (w : World) : World * error :=
  let '(f, err) := File_Copy path body (fs w) in
  (set_fs (emit (EvFs (CallCopy path body)) w) f, err).

Definition file_Stat (path : string) (w : World) : World * (os_FileInfo + Err) :=
  (emit (EvFs (CallFileStat path)) w, File_Stat path (fs w)).

Definition file_Close (path : string) (w : World) : World :=
  set_fs (emit (EvFs (CallClose path)) w) (File_Close path (fs w)).

Definition types_NewFileInfo (user : User) (path : string) (w : World)
  : World * (File + Err) :=
  (emit (EvFs (CallNewFileInfo path)) w, NewFileInfo user path (fs w)).

Definition file_Checksum (file : File) (algo : string) (w : World) : World * (File * error) :=
  (emit (EvFs (CallChecksum (FilePath file) algo)) w, File_Checksum file algo (fs w)).

(** The methods of [e.Store.Share]. *)
Definition Store_Share_GetByPath (path : string) (w : World)
  : World * (list ShareLink + Err) :=
  (emit (EvStore (CallGetByPath path)) w, Share_GetByPath path (store w)).

Definition Store_Share_GetPermanent (path : string) (w : World)
  : World * (ShareLink + Err) :=
  (emit (EvStore (CallGetPermanent path)) w, Share_GetPermanent path (store w)).

Definition Store_Share_Save (s : ShareLink) (w : World) : World * error :=
  let '(st, err) := Share_Save s (store w) in
  (set_store (emit (EvStore (CallSave s)) w) st, err).

Definition Store_Share_Delete (hash : string) (w : World) : World * error :=
  let '(st, err) := Share_Delete hash (store w) in
  (set_store (emit (EvStore (CallDelete hash)) w) st, err).

(** Modelled from the spec: [Runner.Run] is defined in a file that is
    not among the sources.  The spec: the wrapper "receives the
    operation name, source path, destination path (empty if not
    applicable), and the acting user"; "the wrapped operation runs
    exactly once; any configured pre/post hook associated with that
    operation name fires around it; if the operation itself fails,
    post-hooks must not be treated as having observed success"; "the
    caller receives the operation's true result augmented with any hook
    error".  Here the hook after the operation is told its result, and
    the caller gets the error of the operation when it failed, else the
    error of the first hook that failed, else [nil].  A hook reports an
    error or none; what a hook command does outside is not part of the
    world. *)
Definition Runner_Run (fn : World -> World * error) (event path dst : string)
    (user : User) (w : World) : World * error :=
  let w0 := emit (EvRun event path dst) w in
  let pre := Runner_hook e "before" event path dst user None in
  let w1 := emit (EvHook "before" event path dst) w0 in
  let '(w2, err) := fn w1 in
  let post := Runner_hook e "after" event path dst user err in
  let w3 := emit (EvHook "after" event path dst) w2 in
  (w3, match err with
       | Some _ => err
       | None => match pre with Some _ => pre | None => post end
       end).

(** Modelled from the spec: [getUser] is defined in a file of package
    [http] that is not among the sources.  "An inbound request carries
    a user identity (resolved by an external collaborator)": the user
    store resolves the identity, or the failure is written as the
    response. *)
Definition getUser (r : Request) (w : World) : World * option User :=
  match Users_Get e (UserID r) with
  | inl user => (w, Some user)
  | inr status => (httpErr status None w, None)
  end.

(** ** [resource.go] *)

(** [func (e *Env) getResourceData]. *)
Definition getResourceData (r : Request) (prefix : string) (w : World)
  : World * option (string * User) :=
  match getUser r w with
  | (w, None) => (w, None)
  | (w, Some user) =>
      let path := TrimPrefix (URL_Path r) prefix in
      let path := TrimSuffix path "/" in
      let path := if String.eqb path EmptyString then "/" else path in
      if negb (IsAllowed user path) then
        (httpErr StatusForbidden None w, None)
      else (w, Some (path, user))
  end.

(** [func handleSortOrder]: the sort key, the order and the error (always
    [nil]); the cookies are set on the response of the world. *)
Definition handleSortOrder (r : Request) (scope : string) (w : World)
  : World * (string * string * error) :=
  let sort := Values_Get (URL_Query r) "sort" in
  let order := Values_Get (URL_Query r) "order" in
  let '(w, sort) :=
    if String.eqb sort EmptyString then
      (w, match Request_Cookie r "sort" with
          | Some v => v
          | None => "name"
          end)
    else if String.eqb sort "name" || String.eqb sort "size" then
      (SetCookie {| CookieName := "sort"; CookieValue := sort;
                    MaxAge := 31536000; CookiePath := scope;
                    Secure := TLS r |} w, sort)
    else (w, sort) in
  let '(w, order) :=
    if String.eqb order EmptyString then
      (w, match Request_Cookie r "order" with
          | Some v => v
          | None => "asc"
          end)
    else if String.eqb order "asc" || String.eqb order "desc" then
      (SetCookie {| CookieName := "order"; CookieValue := order;
                    MaxAge := 31536000; CookiePath := scope;
                    Secure := TLS r |} w, order)
    else (w, order) in
  (w, (sort, order, None)).

(** [func (e *Env) resourceGetHandler]. *)
Definition resourceGetHandler (r : Request) (w : World) : World :=
  match getResourceData r apiResourcePrefix w with
  | (w, None) => w
  | (w, Some (path, user)) =>
      match types_NewFileInfo user path w with
      | (w, inr err) => httpErr (httpFsErr (Some err)) (Some err) w
      | (w, inl file) =>
          if IsDir file then
            let scope := "/" in
            match handleSortOrder r scope w with
            | (w, (sort, order, None)) =>
                let file :=
                  set_Listing file (set_Sort_Order (FileListing file) sort order) in
                let file :=
                  set_Listing file (Listing_ApplySort (FileListing file)) in
                renderJSON (JSONFile file) w
            | (w, (_, _, Some err)) => httpErr StatusBadRequest (Some err) w
            end
          else
            let file :=
              if String.eqb (Type_ file) "video"
              then File_DetectSubtitles file (fs w) else file in
            let file :=
              if negb (Modify (Perm user)) && String.eqb (Type_ file) "text"
              then set_Type file "textImmutable" else file in
            let checksum := Values_Get (URL_Query r) "checksum" in
            if negb (String.eqb checksum EmptyString) then
              match file_Checksum file checksum w with
              | (w, (_, Some ErrInvalidOption)) => httpErr StatusBadRequest None w
              | (w, (_, Some err)) => httpErr StatusInternalServerError (Some err) w
              | (w, (file, None)) =>
                  (* do not waste bandwidth if we just want the checksum *)
                  let file := set_Content file EmptyString in
                  renderJSON (JSONFile file) w
              end
            else renderJSON (JSONFile file) w
      end
  end.

(** [func (e *Env) resourceDeleteHandler]. *)
Definition resourceDeleteHandler (r : Request) (w : World) : World :=
  match getResourceData r apiResourcePrefix w with
  | (w, None) => w
  | (w, Some (path, user)) =>
      if String.eqb path "/" || negb (Delete (Perm user)) then
        httpErr StatusForbidden None w
      else
        let '(w, err) :=
          Runner_Run (fun w => user_Fs_RemoveAll path w)
                     "delete" path EmptyString user w in
        match err with
        | Some _ => httpErr (httpFsErr err) err w
        | None => WriteHeader StatusOK w
        end
  end.

(** The quotation mark around an entity tag. *)
Definition quote : ascii := ascii_of_nat 34.

(** [info.ModTime().UnixNano()], an [int64]. *)
Definition UnixNano (t : Z) : Z := wrap64 t.

(** The tag [fmt.Sprintf] builds from the verbs [%x%x] between
    quotation marks. *)
Definition etag_of (info : os_FileInfo) : string :=
  String quote (fmt_x (UnixNano (ModTime info)) +:+ fmt_x (Size info)
                +:+ String quote EmptyString).

(** The function [resourcePostPutHandler] hands to the [Runner]; the
    deferred [file.Close()] runs on every way out once the file is
    open. *)
Definition upload (r : Request) (path : string) (w : World) : World * error :=
  match user_Fs_OpenFile path (Z.lor (Z.lor O_RDWR O_CREATE) O_TRUNC) perm_0775 w with
  | (w, Some err) => (w, Some err)
  | (w, None) =>
      match file_Copy path (Body r) w with
      | (w, Some err) => (file_Close path w, Some err)
      | (w, None) =>
          (* Gets the info about the file. *)
          match file_Stat path w with
          | (w, inr err) => (file_Close path w, Some err)
          | (w, inl info) =>
              let etag := etag_of info in
              (file_Close path (Header_Set "ETag" etag w), None)
          end
      end
  end.

(** [func (e *Env) resourcePostPutHandler].  The deferred draining of
    the request body leaves the world as it is. *)
Definition resourcePostPutHandler (r : Request) (w : World) : World :=
  match getResourceData r apiResourcePrefix w with
  | (w, None) => w
  | (w, Some (path, user)) =>
      if negb (Create (Perm user)) && String.eqb (Method r) MethodPost then
        httpErr StatusForbidden None w
      else if negb (Modify (Perm user)) && String.eqb (Method r) MethodPut then
        httpErr StatusForbidden None w
      else if HasSuffix (URL_Path r) "/" then
        (* For directories, only allow POST for creation. *)
        if String.eqb (Method r) MethodPut then
          httpErr StatusMethodNotAllowed None w
        else
          let '(w, err) := user_Fs_MkdirAll path perm_0775 w in
          httpErr (httpFsErr err) err w
      else
        let '(w, exists_) :=
          if String.eqb (Method r) MethodPost
             && negb (String.eqb (Values_Get (URL_Query r) "override") "true")
          then
            match user_Fs_Stat path w with
            | (w, inl _) => (w, true)
            | (w, inr _) => (w, false)
            end
          else (w, false) in
        if exists_ then httpErr StatusConflict None w
        else
          let '(w, err) := Runner_Run (upload r path) "upload" path EmptyString user w in
          match err with
          | Some _ => httpErr (httpFsErr err) err w
          | None => httpErr StatusOK None w
          end
  end.

(** The function [resourcePatchHandler] hands to the [Runner]. *)
Definition patch_action (action src dst : string) (w : World) : World * error :=
  if String.eqb action "copy" then
    (* TODO: err = user.FileSystem.Copy(src, dst) *)
    (w, None)
  else user_Fs_Rename src dst w.

(** [func (e *Env) resourcePatchHandler].  The [switch] yields the
    action to run, or nothing when the case returned Forbidden. *)
Definition resourcePatchHandler (r : Request) (w : World) : World :=
  match getResourceData r apiResourcePrefix w with
  | (w, None) => w
  | (w, Some (src, user)) =>
      let dst := Values_Get (URL_Query r) "destination" in
      let action := Values_Get (URL_Query r) "action" in
      match QueryUnescape dst with
      | inr err => httpErr (httpFsErr (Some err)) (Some err) w
      | inl dst =>
          if String.eqb dst "/" || String.eqb src "/" then
            httpErr StatusForbidden None w
          else
            let selected : option string :=
              if String.eqb action "copy" then
                if negb (Create (Perm user)) then None else Some action
              else if String.eqb action "rename" then
                Some action
              else
                let action := "rename" in
                if negb (Rename (Perm user)) then None else Some action in
            match selected with
            | None => httpErr StatusForbidden None w
            | Some action =>
                let '(w, err) :=
                  Runner_Run (patch_action action src dst) "action" src dst user w in
                httpErr (httpFsErr err) err w
            end
      end
  end.

(** ** [share.go] *)

(** [func (e *Env) getShareData]. *)
Definition getShareData (r : Request) (prefix : string) (w : World)
  : World * option string :=
  match getResourceData r apiSharePrefix w with
  | (w, None) => (w, None)
  | (w, Some (relPath, user)) =>
      if negb (Share (Perm user)) then
        (httpErr StatusForbidden None w, None)
      else (w, Some (Join (Scope user) relPath))
  end.

(** The loop of [shareGetHandler],
    [for i, link := range s { ... s = append(s[:i], s[i+1:]...) }].
    The range expression is evaluated once: the indices are those of the
    slice as it was, and [link] is read at each turn from the backing
    array [backing] of that slice.  As long as [s] still lives in that
    array ([aliased]), an [append] in place writes into it. *)
Fixpoint sweep (indices : list nat) (backing : list ShareLink) (aliased : bool)
    (s : GoSlice.slice ShareLink) (w : World)
  : Outcome (World * GoSlice.slice ShareLink) :=
  match indices with
  | [] => Returned (w, s)
  | i :: indices =>
      match backing !! i with
      | None => Panicked (w, s)
      | Some link =>
          let '(w, expired) :=
            if Expires link then
              let '(w, now) := time_Now w in
              (w, ExpireDate link <? now)
            else (w, false) in
          if expired then
            let '(w, _) := Store_Share_Delete (Hash link) w in
            match GoSlice.upto s i, GoSlice.from s (i + 1) with
            | Some front, Some back =>
                let '(s, in_place) := GoSlice.append front back in
                sweep indices
                      (if aliased && in_place then GoSlice.array s else backing)
                      (aliased && in_place) s w
            | _, _ => Panicked (w, s)
            end
          else sweep indices backing aliased s w
      end
  end.

(** [func (e *Env) shareGetHandler]. *)
Definition shareGetHandler (r : Request) (w : World) : Outcome World :=
  match getShareData r apiSharePrefix w with
  | (w, None) => Returned w
  | (w, Some path) =>
      match Store_Share_GetByPath path w with
      | (w, inr ErrNotExist) => Returned (renderJSON (JSONLinks []) w)
      | (w, inr err) => Returned (httpErr StatusInternalServerError (Some err) w)
      | (w, inl links) =>
          let s := GoSlice.of_list links in
          match sweep (seq 0 (GoSlice.len s)) (GoSlice.array s) true s w with
          | Panicked (w, _) => Panicked w
          | Returned (w, s) =>
              Returned (renderJSON (JSONLinks (GoSlice.to_list s)) w)
          end
      end
  end.

(** [func (e *Env) shareDeleteHandler]. *)
Definition shareDeleteHandler (r : Request) (w : World) : World :=
  match getUser r w with
  | (w, None) => w
  | (w, Some user) =>
      if negb (Share (Perm user)) then httpErr StatusForbidden None w
      else
        let hash := TrimPrefix (URL_Path r) apiSharePrefix in
        let hash := TrimSuffix hash "/" in
        let hash := TrimPrefix hash "/" in
        if String.eqb hash EmptyString then w
        else
          match Store_Share_Delete hash w with
          | (w, Some err) => httpErr StatusInternalServerError (Some err) w
          | (w, None) => w
          end
  end.

(** The [switch unit] of [sharePostHandler]: the duration to add, an
    [int64] product. *)
Definition expiry_duration (unit : string) (num : Z) : Z :=
  if String.eqb unit "seconds" then mul64 Second num
  else if String.eqb unit "minutes" then mul64 Minute num
  else if String.eqb unit "days" then mul64 (Hour * 24) num
  else mul64 Hour num.

(** [t.Add(d)] on instants in nanoseconds. *)
Definition Time_Add (t d : Z) : Z := t + d.

(** [func (e *Env) sharePostHandler]. *)
Definition sharePostHandler (r : Request) (w : World) : World :=
  match getShareData r apiSharePrefix w with
  | (w, None) => w
  | (w, Some path) =>
      let expire := Values_Get (URL_Query r) "expires" in
      let unit := Values_Get (URL_Query r) "unit" in
      let '(w, reused) :=
        if String.eqb expire EmptyString then
          match Store_Share_GetPermanent path w with
          | (w, inl s) =>
              (Write (Text (BaseURL e +:+ "/share/" +:+ Hash s)) w, true)
          | (w, inr _) => (w, false)
          end
        else (w, false) in
      if reused then w
      else
        match rand_Read w with
        | (w, inr err) => httpErr StatusInternalServerError (Some err) w
        | (w, inl bytes) =>
            let str := EncodeToString bytes in
            let s := {| Path := path; Hash := str;
                        Expires := negb (String.eqb expire EmptyString);
                        ExpireDate := zeroTime |} in
            let dated : World * (ShareLink + Err) :=
              if negb (String.eqb expire EmptyString) then
                match Atoi expire with
                | inr err => (w, inr err)
                | inl num =>
                    let add := expiry_duration unit num in
                    let '(w, now) := time_Now w in
                    (w, inl (set_ExpireDate s (Time_Add now add)))
                end
              else (w, inl s) in
            match dated with
            | (w, inr err) => httpErr StatusInternalServerError (Some err) w
            | (w, inl s) =>
                match Store_Share_Save s w with
                | (w, Some err) => httpErr StatusInternalServerError (Some err) w
                | (w, None) => renderJSON (JSONLink s) w
                end
            end
        end
  end.

End Handlers.

Arguments time_Now {FS ST} e w.
Arguments rand_Read {FS ST} e w.

(** ** In-memory collaborators

    Instances of the interfaces above on which the handlers run to the
    end: a flat in-memory filesystem, a share store kept as a list of
    records, and a package [types] reading from that filesystem. *)

Module Mem.
Import GoStrings.

(** *** Filesystem *)

Record Node : Type := {
  isDir : bool;
  data : string;
  mtime : Z
}.

(** The entries by path, and the time stamp the next write gets. *)
Record MemFs : Type := {
  nodes : gmap string Node;
  stamp : Z
}.

Definition info_of (n : Node) : os_FileInfo :=
  {| ModTime := mtime n; Size := Z.of_nat (String.length (data n)) |}.

Definition stat (path : string) (m : MemFs) : os_FileInfo + Err :=
  match nodes m !! path with
  | Some n => inl (info_of n)
  | None => inr OsErrNotExist
  end.

(** [path] itself or an entry below it. *)
Definition below (path entry : string) : bool :=
  String.eqb entry path || HasPrefix entry (path +:+ "/").

Definition removeAll (path : string) (m : MemFs) : MemFs * error :=
  ({| nodes := filter (fun kv => below path kv.1 = false) (nodes m);
      stamp := stamp m |}, None).

Definition mkdirAll (path : string) (perm : Z) (m : MemFs) : MemFs * error :=
  match nodes m !! path with
  | Some n => if isDir n then (m, None) else (m, Some (ErrOther "not a directory"))
  | None =>
      ({| nodes := <[path := {| isDir := true; data := EmptyString; mtime := stamp m |}]>
                     (nodes m);
          stamp := stamp m + 1 |}, None)
  end.

(** Opening with [O_CREATE] and [O_TRUNC]: the file is there and empty
    afterwards. *)
Definition openFile (path : string) (flag perm : Z) (m : MemFs) : MemFs * error :=
  match nodes m !! path with
  | Some n =>
      if isDir n then (m, Some (ErrOther "is a directory"))
      else if Z.testbit flag 9 then
        ({| nodes := <[path := {| isDir := false; data := EmptyString; mtime := stamp m |}]>
                       (nodes m);
            stamp := stamp m + 1 |}, None)
      else (m, None)
  | None =>
      if Z.testbit flag 6 then
        ({| nodes := <[path := {| isDir := false; data := EmptyString; mtime := stamp m |}]>
                       (nodes m);
            stamp := stamp m + 1 |}, None)
      else (m, Some OsErrNotExist)
  end.

Definition copy (path body : string) (m : MemFs) : MemFs * error :=
  match nodes m !! path with
  | Some n =>
      ({| nodes := <[path := {| isDir := false; data := data n +:+ body;
                                mtime := stamp m |}]> (nodes m);
          stamp := stamp m + 1 |}, None)
  | None => (m, Some OsErrNotExist)
  end.

Definition rename (src dst : string) (m : MemFs) : MemFs * error :=
  match nodes m !! src with
  | Some n => ({| nodes := <[dst := n]> (delete src (nodes m)); stamp := stamp m |}, None)
  | None => (m, Some OsErrNotExist)
  end.

#[export] Instance MemFs_AferoFs : AferoFs MemFs := {|
  Fs_RemoveAll := removeAll;
  Fs_MkdirAll := mkdirAll;
  Fs_Stat := stat;
  Fs_OpenFile := openFile;
  Fs_Rename := rename;
  File_Copy := copy;
  File_Stat := stat;
  File_Close := fun _ m => m
|}.

(** *** Share store *)

Inductive StoreOp : Type := OpGetByPath | OpGetPermanent | OpSave | OpDelete.

(** Modelled from the spec: the share store is an interface whose
    implementation is not among the sources, "a ShareLink store
    (get-by-path, get-permanent-by-path, save, delete-by-hash)" of
    records with a "unique hash (token)", where "deletion of a
    non-existent token is not an error" and a "storage failure" is an
    error of its own.  The records are kept in insertion order; [faults]
    tells which operations currently fail, and with what. *)
Record MemStore : Type := {
  links : list ShareLink;
  faults : StoreOp -> error
}.

Definition healthy : StoreOp -> error := fun _ => None.

Definition getByPath (path : string) (st : MemStore) : list ShareLink + Err :=
  match faults st OpGetByPath with
  | Some err => inr err
  | None =>
      match List.filter (fun l => String.eqb (Path l) path) (links st) with
      | [] => inr ErrNotExist
      | found => inl found
      end
  end.

Definition getPermanent (path : string) (st : MemStore) : ShareLink + Err :=
  match faults st OpGetPermanent with
  | Some err => inr err
  | None =>
      match List.find (fun l => String.eqb (Path l) path && negb (Expires l)) (links st) with
      | Some l => inl l
      | None => inr ErrNotExist
      end
  end.

(** A record replaces the one with its hash, or comes last. *)
Fixpoint upsert (s : ShareLink) (l : list ShareLink) : list ShareLink :=
  match l with
  | [] => [s]
  | x :: l' => if String.eqb (Hash x) (Hash s) then s :: l' else x :: upsert s l'
  end.

Definition save (s : ShareLink) (st : MemStore) : MemStore * error :=
  match faults st OpSave with
  | Some err => (st, Some err)
  | None => ({| links := upsert s (links st); faults := faults st |}, None)
  end.

Definition delete_ (hash : string) (st : MemStore) : MemStore * error :=
  match faults st OpDelete with
  | Some err => (st, Some err)
  | None =>
      ({| links := List.filter (fun l => negb (String.eqb (Hash l) hash)) (links st);
          faults := faults st |}, None)
  end.

#[export] Instance MemStore_ShareStore : ShareStore MemStore := {|
  Share_GetByPath := getByPath;
  Share_GetPermanent := getPermanent;
  Share_Save := save;
  Share_Delete := delete_
|}.

(** The permanent links a store holds for a path. *)
Definition permanent_links (path : string) (st : MemStore) : list ShareLink :=
  List.filter (fun l => String.eqb (Path l) path && negb (Expires l)) (links st).

(** *** Package [types] *)

(** The verdict of the last rule whose path is a prefix of the URL;
    allowed when no rule matches. *)
Definition allowed (url : string) (rules : list Rule) : bool :=
  match List.find (fun r => negb (Regex r) && HasPrefix url (RulePath r)) (rev rules) with
  | Some r => Allow r
  | None => true
  end.

Definition newFileInfo (user : User) (path : string) (m : MemFs) : File + Err :=
  match nodes m !! path with
  | None => inr OsErrNotExist
  | Some n =>
      inl {| FilePath := path; IsDir := isDir n;
             Type_ := if isDir n then EmptyString else "text";
             Content := data n; Checksums := []; Subtitles := [];
             FileListing := {| Items := []; Sort := EmptyString; Order := EmptyString |} |}
  end.

(** A stand-in for the digests: the name of the algorithm and the length
    of the input. *)
Definition digest (algo content : string) : option string :=
  if existsb (String.eqb algo) ["md5"; "sha1"; "sha256"; "sha512"]
  then Some (algo +:+ ":" +:+ GoFmt.fmt_x (Z.of_nat (String.length content)))
  else None.

(** Modelled from the spec: [File.Checksum] is defined in a file of
    package [types] that is not among the sources.  "If a checksum
    algorithm is requested, compute it; unsupported algorithm names fail
    with an 'invalid option' signal." *)
Definition checksum (file : File) (algo : string) (m : MemFs) : File * error :=
  match digest algo (Content file) with
  | None => (file, Some ErrInvalidOption)
  | Some d =>
      ({| FilePath := FilePath file; IsDir := IsDir file; Type_ := Type_ file;
          Content := Content file; Checksums := (algo, d) :: Checksums file;
          Subtitles := Subtitles file; FileListing := FileListing file |}, None)
  end.

#[export] Instance Mem_TypesPkg : TypesPkg MemFs := {|
  isAllowed := allowed;
  NewFileInfo := newFileInfo;
  File_Checksum := checksum;
  File_DetectSubtitles := fun f _ => f;
  Listing_ApplySort := fun l => l
|}.

(** *** A process and its users *)

Definition perms (create rename modify delete share : bool) : Permissions :=
  {| Admin := false; Execute := false; Create := create; Rename := rename;
     Modify := modify; Delete := delete; Share := share; Download := true;
     Commands := [] |}.

Definition user_with (id : Z) (p : Permissions) : User :=
  {| ID := id; Username := "u"; Password := EmptyString; Scope := "/srv";
     Locale := "en"; LockPassword := false; ViewMode := "list"; Perm := p;
     UserSorting := {| By := "name"; Asc := true |}; Rules := [] |}.

(** User 1 may do everything, user 2 nothing, user 3 everything but
    rename; no other identity resolves. *)
Definition users (id : Z) : User + Z :=
  if id =? 1 then inl (user_with 1 (perms true true true true true))
  else if id =? 2 then inl (user_with 2 (perms false false false false false))
  else if id =? 3 then inl (user_with 3 (perms true false true true true))
  else inr StatusForbidden.

(** No hook fails; the clock stands at [now]; the random source yields
    the six bytes [0, draw, 1, 2, 3, 4]. *)
Definition env (now : Z) : Env :=
  {| BaseURL := "http://host";
     Users_Get := users;
     Runner_hook := fun _ _ _ _ _ _ => None;
     clock := fun _ => now;
     entropy := fun k =>
       inl (String (ascii_of_nat 0) (String (ascii_of_nat k) (String (ascii_of_nat 1)
             (String (ascii_of_nat 2) (String (ascii_of_nat 3)
               (String (ascii_of_nat 4) EmptyString)))))) |}.

Definition world (m : MemFs) (st : MemStore) : World MemFs MemStore :=
  {| resp := emptyResponse; fs := m; store := st; log := []; ticks := O; draws := O |}.

Definition request (method path : string) (query : list (string * list string))
    (body : string) (user : Z) : Request :=
  {| Method := method; URL_Path := path; URL_Query := list_to_map query;
     Cookies := []; TLS := false; Body := body; UserID := user |}.

End Mem.

(** ** Vocabulary of the properties *)

(** What a response and the world look like after a handler that refused
    with [status] before reaching any collaborator. *)
Definition refused_untouched {FS ST} (status : Z) (w w' : World FS ST) : Prop :=
  Status (resp w') = Some status /\
  Written (resp w') = (Written (resp w) ++ [StatusLine status])%list /\
  fs w' = fs w /\ store w' = store w /\ log w' = log w.

(** The flags [upload] opens the file with: create it when missing,
    empty it when present. *)
Definition upload_flags : Z := Z.lor (Z.lor O_RDWR O_CREATE) O_TRUNC.

(** The file as [resourceGetHandler] has it when it reaches the
    checksum: subtitles detected on a video, a text marked immutable for
    a user who may not modify. *)
Definition classified {FS} `{!TypesPkg FS} (user : User) (file : File) (f : FS) : File :=
  let file :=
    if String.eqb (Type_ file) "video" then File_DetectSubtitles file f else file in
  if negb (Modify (Perm user)) && String.eqb (Type_ file) "text"
  then set_Type file "textImmutable" else file.

(** The cookie [handleSortOrder] sets for a valid value. *)
Definition preference (name value scope : string) (r : Request) : Cookie :=
  {| CookieName := name; CookieValue := value; MaxAge := 31536000;
     CookiePath := scope; Secure := TLS r |}.

Definition valid_sort (s : string) : bool :=
  String.eqb s "name" || String.eqb s "size".

Definition valid_order (s : string) : bool :=
  String.eqb s "asc" || String.eqb s "desc".

(** The value [handleSortOrder] returns for a parameter: the stored
    token or the default when the parameter is empty, else the
    parameter as it came. *)
Definition chosen (param : string) (stored : option string) (default : string)
  : string :=
  if String.eqb param EmptyString then
    match stored with Some v => v | None => default end
  else param.

(** The length of the unit of an expiry, in nanoseconds: a second for
    [seconds], a minute for [minutes], twenty-four hours for [days], an
    hour for anything else. *)
Definition unit_of (unit : string) : Z :=
  if String.eqb unit "seconds" then Second
  else if String.eqb unit "minutes" then Minute
  else if String.eqb unit "days" then 24 * Hour
  else Hour.

(** No path has two permanent links. *)
Definition one_permanent_per_path (st : Mem.MemStore) : Prop :=
  forall path : string, (length (Mem.permanent_links path st) <= 1)%nat.

(** The world a handler left behind, and whether it returned. *)
Definition world_of {W} (o : Outcome W) : W :=
  match o with Returned w | Panicked w => w end.

Definition returned {W} (o : Outcome W) : bool :=
  match o with Returned _ => true | Panicked _ => false end.

(** ** Requests, files and links of the examples *)

Module Inputs.
Import Mem.

(** The file [/a] holding ["old"] and the directory [/d]. *)
Definition files : MemFs :=
  {| nodes := {[ "/a" := {| isDir := false; data := "old"; mtime := 7 |};
                 "/d" := {| isDir := true; data := EmptyString; mtime := 3 |} ]};
     stamp := 8 |}.

Definition no_links : MemStore := {| links := []; faults := healthy |}.

Definition start : World MemFs MemStore := world files no_links.

Definition everything : User := user_with 1 (perms true true true true true).
Definition no_rename : User := user_with 3 (perms true false true true true).

Definition delete_root : Request :=
  request "DELETE" "/api/resources/" [] EmptyString 1.

Definition move_to_root : Request :=
  request "PATCH" "/api/resources/a" [("destination", ["%2F"])] EmptyString 1.

Definition rename_explicitly : Request :=
  request "PATCH" "/api/resources/a"
          [("destination", ["/b"]); ("action", ["rename"])] EmptyString 3.

Definition rename_by_default : Request :=
  request "PATCH" "/api/resources/a" [("destination", ["/b"])] EmptyString 1.

Definition copy_a_to_b : Request :=
  request "PATCH" "/api/resources/a"
          [("destination", ["/b"]); ("action", ["copy"])] EmptyString 1.

Definition post_a : Request := request "POST" "/api/resources/a" [] "fresh" 1.

Definition post_a_override : Request :=
  request "POST" "/api/resources/a" [("override", ["true"])] "fresh" 1.

Definition put_a : Request := request "PUT" "/api/resources/a" [] "fresh" 1.

Definition sha1_of_a : Request :=
  request "GET" "/api/resources/a" [("checksum", ["sha1"])] EmptyString 1.

Definition unsupported_of_a : Request :=
  request "GET" "/api/resources/a" [("checksum", ["unsupported"])] EmptyString 1.

Definition list_d_by_foo : Request :=
  request "GET" "/api/resources/d" [("sort", ["foo"])] EmptyString 1.

Definition list_links_of_a : Request :=
  request "GET" "/api/share/a" [] EmptyString 1.

Definition share_a : Request := request "POST" "/api/share/a" [] EmptyString 1.

Definition share_a_abc : Request :=
  request "POST" "/api/share/a" [("expires", ["abc"])] EmptyString 1.

Definition share_a_10_minutes : Request :=
  request "POST" "/api/share/a" [("expires", ["10"]); ("unit", ["minutes"])]
          EmptyString 1.

Definition share_a_max_hours : Request :=
  request "POST" "/api/share/a" [("expires", ["9223372036854775807"])]
          EmptyString 1.

(** Links of [/srv/a]: two that expired before the instant 100, one
    that expires after it, and a permanent one. *)
Definition stale1 : ShareLink :=
  {| Path := "/srv/a"; Hash := "h1"; Expires := true; ExpireDate := 5 |}.
Definition stale2 : ShareLink :=
  {| Path := "/srv/a"; Hash := "h2"; Expires := true; ExpireDate := 6 |}.
Definition fresh : ShareLink :=
  {| Path := "/srv/a"; Hash := "h3"; Expires := true; ExpireDate := 500 |}.
Definition permanent : ShareLink :=
  {| Path := "/srv/a"; Hash := "h0"; Expires := false; ExpireDate := zeroTime |}.

Definition holding (l : list ShareLink) : MemStore :=
  {| links := l; faults := healthy |}.

(** A store whose permanent-link lookup fails while the rest works. *)
Definition lookup_down (l : list ShareLink) : MemStore :=
  {| links := l;
     faults := fun op => match op with
                         | OpGetPermanent => Some (ErrOther "storage failure")
                         | _ => None
                         end |}.

(** The view [NewFileInfo] builds of the file [/a], with the checksums
    computed so far. *)
Definition file_a (sums : list (string * string)) : File :=
  {| FilePath := "/a"; IsDir := false; Type_ := "text"; Content := "old";
     Checksums := sums; Subtitles := [];
     FileListing := {| Items := []; Sort := EmptyString; Order := EmptyString |} |}.

(** The link the first draw of the random source of [env] names. *)
Definition issued (expires : bool) (date : Z) : ShareLink :=
  {| Path := "/srv/a"; Hash := "AAABAgME"; Expires := expires; ExpireDate := date |}.

End Inputs.

(** ** Vocabulary of the further properties *)

(** The path [getResourceData] resolves a request to: the URL path
    without the prefix and without one trailing separator, the root when
    nothing is left. *)
Definition resolved_path (r : Request) (prefix : string) : string :=
  let path := GoStrings.TrimSuffix (GoStrings.TrimPrefix (URL_Path r) prefix) "/" in
  if String.eqb path EmptyString then "/" else path.

(** The token [shareDeleteHandler] reads from the URL path. *)
Definition token_of (r : Request) : string :=
  GoStrings.TrimPrefix
    (GoStrings.TrimSuffix (GoStrings.TrimPrefix (URL_Path r) apiSharePrefix) "/") "/".

(** A link that has expired at every reading of the clock, and one that
    has expired at none. *)
Definition expired_link (e : Env) (l : ShareLink) : Prop :=
  Expires l = true /\ forall k : nat, ExpireDate l < clock e k.

Definition fresh_link (e : Env) (l : ShareLink) : Prop :=
  Expires l = false \/ forall k : nat, clock e k <= ExpireDate l.

(** The event is the deletion of a stored link that has expired at some
    reading of the clock. *)
Definition deletes_expired (e : Env) (stored : list ShareLink) (ev : Event) : Prop :=
  exists l : ShareLink,
    In l stored /\ ev = EvStore (CallDelete (Hash l)) /\
    Expires l = true /\ exists k : nat, ExpireDate l < clock e k.

(** A character of the URL-safe alphabet of base64. *)
Definition url_safe (c : ascii) : bool :=
  existsb (Ascii.eqb c) (list_ascii_of_string GoBase64.encodeURL).

(** The name and value of the cookies a response sets, as a browser sends
    them back. *)
Definition sent_back (cookies : list Cookie) : list (string * string) :=
  List.map (fun c => (CookieName c, CookieValue c)) cookies.

(** ** Further requests and surroundings of the examples *)

Module MoreInputs.
Import Mem Inputs.

(** A user holding every capability whose rules deny [/secret]. *)
Definition ruled : User :=
  {| ID := 4; Username := "r"; Password := EmptyString; Scope := "/srv";
     Locale := "en"; LockPassword := false; ViewMode := "list";
     Perm := perms true true true true true;
     UserSorting := {| By := "name"; Asc := true |};
     Rules := [{| Regex := false; Allow := false; RulePath := "/secret" |}] |}.

Definition nothing : User := user_with 2 (perms false false false false false).

(** The surroundings of [env] with the user [ruled] added as user 4, and
    a random source that fails when [broken]. *)
Definition env_with (now : Z) (broken : bool) : Env :=
  {| BaseURL := "http://host";
     Users_Get := fun id => if id =? 4 then inl ruled else users id;
     Runner_hook := fun _ _ _ _ _ _ => None;
     clock := fun _ => now;
     entropy := fun k => if broken then inr (ErrOther "no entropy")
                         else entropy (env now) k |}.

Definition get_secret : Request :=
  request "GET" "/api/resources/secret/plan" [] EmptyString 4.

Definition share_secret : Request :=
  request "POST" "/api/share/secret/plan" [] EmptyString 4.

Definition get_a : Request := request "GET" "/api/resources/a" [] EmptyString 1.
Definition get_a_slash : Request := request "GET" "/api/resources/a/" [] EmptyString 1.
Definition get_missing : Request := request "GET" "/api/resources/nope" [] EmptyString 1.

Definition delete_a : Request := request "DELETE" "/api/resources/a" [] EmptyString 1.
Definition delete_a_denied : Request :=
  request "DELETE" "/api/resources/a" [] EmptyString 2.

Definition post_a_denied : Request := request "POST" "/api/resources/a" [] "x" 2.
Definition put_a_denied : Request := request "PUT" "/api/resources/a" [] "x" 2.

Definition post_dir : Request := request "POST" "/api/resources/new/" [] EmptyString 1.
Definition put_dir : Request := request "PUT" "/api/resources/new/" [] EmptyString 1.
Definition post_new : Request := request "POST" "/api/resources/new" [] "hello" 1.

Definition move_badly : Request :=
  request "PATCH" "/api/resources/a" [("destination", ["%zz"])] EmptyString 1.

Definition copy_denied : Request :=
  request "PATCH" "/api/resources/a"
          [("destination", ["/b"]); ("action", ["copy"])] EmptyString 2.

Definition move_denied : Request :=
  request "PATCH" "/api/resources/a" [("destination", ["/b"])] EmptyString 2.

Definition list_by_size_desc : Request :=
  request "GET" "/api/resources/d" [("sort", ["size"]); ("order", ["desc"])]
          EmptyString 1.

(** The next request of the same browser: no parameter, and the cookies
    the response to [list_by_size_desc] set. *)
Definition list_again : Request :=
  {| Method := "GET"; URL_Path := "/api/resources/d"; URL_Query := ∅;
     Cookies := [("sort", "size"); ("order", "desc")]; TLS := false;
     Body := EmptyString; UserID := 1 |}.

Definition list_links_denied : Request :=
  request "GET" "/api/share/a" [] EmptyString 2.

Definition unshare_h1 : Request :=
  request "DELETE" "/api/share/h1/" [] EmptyString 1.

Definition unshare_nothing : Request :=
  request "DELETE" "/api/share/" [] EmptyString 1.

(** A store on which every operation fails. *)
Definition all_down (l : list ShareLink) : MemStore :=
  {| links := l; faults := fun _ => Some (ErrOther "storage failure") |}.

(** A store that cannot save. *)
Definition save_down (l : list ShareLink) : MemStore :=
  {| links := l;
     faults := fun op => match op with
                         | OpSave => Some (ErrOther "storage failure")
                         | _ => None
                         end |}.

Definition fresh2 : ShareLink :=
  {| Path := "/srv/a"; Hash := "h4"; Expires := false; ExpireDate := zeroTime |}.

End MoreInputs.

(** * Properties *)

Module GoLibTests.
Import GoStrings GoStrconv GoUrl GoBase64 GoFmt GoFilepath GoInt.

Example TrimPrefix_api : TrimPrefix "/api/resources/a/b/" "/api/resources" = "/a/b/".
Proof. reflexivity. Qed.
Example TrimSuffix_slash : TrimSuffix "/a/b/" "/" = "/a/b".
Proof. reflexivity. Qed.
Example TrimSuffix_none : TrimSuffix "/a/b" "/" = "/a/b".
Proof. reflexivity. Qed.
Example Atoi_10 : Atoi "10" = inl 10.
Proof. reflexivity. Qed.
Example Atoi_neg : Atoi "-7" = inl (-7).
Proof. reflexivity. Qed.
Example Atoi_abc : Atoi "abc" = inr NumErrSyntax.
Proof. reflexivity. Qed.
Example Atoi_max : Atoi "9223372036854775807" = inl max_int64.
Proof. reflexivity. Qed.
Example Atoi_over : Atoi "9223372036854775808" = inr NumErrRange.
Proof. reflexivity. Qed.
Example Atoi_min : Atoi "-9223372036854775808" = inl min_int64.
Proof. reflexivity. Qed.
Example Atoi_sign : Atoi "+" = inr NumErrSyntax.
Proof. reflexivity. Qed.
Example QueryUnescape_slash : QueryUnescape "%2F" = inl "/".
Proof. reflexivity. Qed.
Example QueryUnescape_plus : QueryUnescape "a+b%20c" = inl "a b c".
Proof. reflexivity. Qed.
Example QueryUnescape_bad : QueryUnescape "a%2" = inr (EscapeError "%2").
Proof. reflexivity. Qed.
Example EncodeToString_6 : EncodeToString "foobar" = "Zm9vYmFy".
Proof. reflexivity. Qed.
Example EncodeToString_pad : EncodeToString "fo" = "Zm8=".
Proof. reflexivity. Qed.
Example fmt_x_255 : fmt_x 255 = "ff".
Proof. reflexivity. Qed.
Example fmt_x_0 : fmt_x 0 = "0".
Proof. reflexivity. Qed.
Example fmt_x_neg : fmt_x (-26) = "-1a".
Proof. reflexivity. Qed.
Example fmt_x_max : fmt_x max_int64 = "7fffffffffffffff".
Proof. reflexivity. Qed.
Example fmt_x_min : fmt_x min_int64 = "-8000000000000000".
Proof. reflexivity. Qed.
Example Join_scope : Join "/srv/data" "/a/b" = "/srv/data/a/b".
Proof. reflexivity. Qed.
Example Join_dots : Join "/srv" "/a/../../b/./c/" = "/b/c".
Proof. reflexivity. Qed.
Example Join_root : Join "/srv" "/" = "/srv".
Proof. reflexivity. Qed.
Example Clean_rel : Clean "../a//b/.." = "../a".
Proof. reflexivity. Qed.

End GoLibTests.

Section Basics.
Context {FS ST : Type} `{!AferoFs FS} `{!ShareStore ST} `{!TypesPkg FS}.
Variable e : Env.
Local Abbreviation World := (World FS ST).

(** Writing to the response leaves the filesystem, the store and the
    log alone. *)
Lemma WriteHeader_frame (code : Z) (w : World) :
  fs (WriteHeader code w) = fs w /\ store (WriteHeader code w) = store w /\
  log (WriteHeader code w) = log w.
Proof. unfold WriteHeader. destruct (Status (resp w)); simpl; auto. Qed.

Lemma fs_WriteHeader (code : Z) (w : World) : fs (WriteHeader code w) = fs w.
Proof. apply WriteHeader_frame. Qed.

Lemma store_WriteHeader (code : Z) (w : World) : store (WriteHeader code w) = store w.
Proof. apply WriteHeader_frame. Qed.

Lemma log_WriteHeader (code : Z) (w : World) : log (WriteHeader code w) = log w.
Proof. apply WriteHeader_frame. Qed.

Lemma fs_Write (c : Chunk) (w : World) : fs (Write c w) = fs w.
Proof. unfold Write. simpl. apply fs_WriteHeader. Qed.

Lemma store_Write (c : Chunk) (w : World) : store (Write c w) = store w.
Proof. unfold Write. simpl. apply store_WriteHeader. Qed.

Lemma log_Write (c : Chunk) (w : World) : log (Write c w) = log w.
Proof. unfold Write. simpl. apply log_WriteHeader. Qed.

Lemma fs_httpErr (status : Z) (err : error) (w : World) :
  fs (httpErr status err w) = fs w.
Proof. unfold httpErr. now rewrite fs_Write, fs_WriteHeader. Qed.

Lemma store_httpErr (status : Z) (err : error) (w : World) :
  store (httpErr status err w) = store w.
Proof. unfold httpErr. now rewrite store_Write, store_WriteHeader. Qed.

Lemma log_httpErr (status : Z) (err : error) (w : World) :
  log (httpErr status err w) = log w.
Proof. unfold httpErr. now rewrite log_Write, log_WriteHeader. Qed.

Lemma Written_WriteHeader (code : Z) (w : World) :
  Written (resp (WriteHeader code w)) = Written (resp w).
Proof. unfold WriteHeader. destruct (Status (resp w)); reflexivity. Qed.

Lemma Header_WriteHeader (code : Z) (w : World) :
  Header (resp (WriteHeader code w)) = Header (resp w).
Proof. unfold WriteHeader. destruct (Status (resp w)); reflexivity. Qed.

Lemma Written_Write (c : Chunk) (w : World) :
  Written (resp (Write c w)) = (Written (resp w) ++ [c])%list.
Proof. unfold Write. simpl. now rewrite Written_WriteHeader. Qed.

Lemma Header_Write (c : Chunk) (w : World) :
  Header (resp (Write c w)) = Header (resp w).
Proof. unfold Write. simpl. apply Header_WriteHeader. Qed.

Lemma Written_httpErr (status : Z) (err : error) (w : World) :
  Written (resp (httpErr status err w))
  = (Written (resp w) ++ [StatusLine status])%list.
Proof. unfold httpErr. now rewrite Written_Write, Written_WriteHeader. Qed.

Lemma Header_httpErr (status : Z) (err : error) (w : World) :
  Header (resp (httpErr status err w)) = Header (resp w).
Proof. unfold httpErr. now rewrite Header_Write, Header_WriteHeader. Qed.

(** The first status written stands. *)
Lemma Status_WriteHeader (code : Z) (w : World) :
  Status (resp (WriteHeader code w))
  = Some (match Status (resp w) with Some c => c | None => code end).
Proof. unfold WriteHeader. destruct (Status (resp w)) eqn:Heq; simpl; auto. Qed.

Lemma Status_Write (c : Chunk) (w : World) :
  Status (resp (Write c w))
  = Some (match Status (resp w) with Some s => s | None => StatusOK end).
Proof. unfold Write. simpl. apply Status_WriteHeader. Qed.

Lemma Status_httpErr (status : Z) (err : error) (w : World) :
  Status (resp (httpErr status err w))
  = Some (match Status (resp w) with Some s => s | None => status end).
Proof.
  unfold httpErr. rewrite Status_Write, Status_WriteHeader. reflexivity.
Qed.

Lemma httpErr_fresh (status : Z) (err : error) (w : World) :
  Status (resp w) = None ->
  refused_untouched status w (httpErr status err w).
Proof.
  intros Hfresh. unfold refused_untouched, httpErr, Write, WriteHeader.
  rewrite Hfresh. simpl. auto.
Qed.

Lemma getUser_Some (r : Request) (w w1 : World) (user : User) :
  getUser e r w = (w1, Some user) ->
  w1 = w /\ Users_Get e (UserID r) = inl user.
Proof.
  unfold getUser. destruct (Users_Get e (UserID r)); intros Heq; inversion Heq; auto.
Qed.

(** A request that resolves leaves the world as it was. *)
Lemma getResourceData_Some (r : Request) (prefix : string) (w w1 : World)
    (path : string) (user : User) :
  getResourceData e r prefix w = (w1, Some (path, user)) ->
  w1 = w /\ Users_Get e (UserID r) = inl user /\ IsAllowed user path = true.
Proof.
  unfold getResourceData.
  destruct (getUser e r w) as [w0 [u|]] eqn:Hu; [|discriminate].
  apply getUser_Some in Hu as [-> Hu].
  destruct (IsAllowed u _) eqn:Hallowed; simpl; [|discriminate].
  intros Heq. inversion Heq; subst. auto.
Qed.

Lemma getShareData_Some (r : Request) (prefix : string) (w w1 : World)
    (path : string) :
  getShareData e r prefix w = (w1, Some path) ->
  w1 = w /\ exists relPath user,
    getResourceData e r apiSharePrefix w = (w, Some (relPath, user)) /\
    Share (Perm user) = true /\ path = GoFilepath.Join (Scope user) relPath.
Proof.
  unfold getShareData.
  destruct (getResourceData e r apiSharePrefix w) as [w0 [[relPath user]|]] eqn:Hres;
    [|discriminate].
  pose proof (getResourceData_Some _ _ _ _ _ _ Hres) as [-> _].
  destruct (Share (Perm user)) eqn:Hshare; simpl; [|discriminate].
  intros Heq. inversion Heq; subst. split; [reflexivity|]. eauto.
Qed.

End Basics.

Create Rewrite HintDb frame.
#[export] Hint Rewrite @fs_WriteHeader @store_WriteHeader @log_WriteHeader
  @fs_Write @store_Write @log_Write @fs_httpErr @store_httpErr @log_httpErr
  @Status_WriteHeader @Status_Write @Status_httpErr
  @Written_WriteHeader @Written_Write @Written_httpErr
  @Header_WriteHeader @Header_Write @Header_httpErr : frame.

Section Resource.
Context {FS ST : Type} `{!AferoFs FS} `{!ShareStore ST} `{!TypesPkg FS}.
Variable e : Env.
Local Abbreviation World := (World FS ST).

Import GoStrings GoUrl.

Local Ltac not_root :=
  repeat match goal with
         | H : ?s <> ?t |- context [String.eqb ?s ?t] =>
             rewrite (proj2 (String.eqb_neq s t) H)
         end.

(** The copy branch of the function handed to the [Runner] touches
    nothing and reports no error. *)
Lemma patch_action_copy (src dst : string) (w : World) :
  patch_action "copy" src dst w = (w, None).
Proof. reflexivity. Qed.

(** X24. A rename selected by default (the action is neither [copy] nor
    [rename]) by a user without the rename capability is refused. *)
Lemma patch_default_rename_refused (r : Request) (w w1 : World)
    (src dst : string) (user : User) :
  Status (resp w) = None ->
  getResourceData e r apiResourcePrefix w = (w1, Some (src, user)) ->
  QueryUnescape (Values_Get (URL_Query r) "destination") = inl dst ->
  Values_Get (URL_Query r) "action" <> "copy" ->
  Values_Get (URL_Query r) "action" <> "rename" ->
  Rename (Perm user) = false ->
  refused_untouched StatusForbidden w (resourcePatchHandler e r w).
Proof.
  intros Hfresh Hres Hdst Hcopy Hrename Hperm.
  destruct (getResourceData_Some e _ _ _ _ _ _ Hres) as [-> _].
  unfold resourcePatchHandler. rewrite Hres, Hdst.
  destruct (String.eqb dst "/" || String.eqb src "/");
    [now apply httpErr_fresh|].
  not_root. rewrite Hperm. simpl. now apply httpErr_fresh.
Qed.

(** X23. A copy by a user without the create capability is refused. *)
Lemma patch_copy_refused (r : Request) (w w1 : World)
    (src dst : string) (user : User) :
  Status (resp w) = None ->
  getResourceData e r apiResourcePrefix w = (w1, Some (src, user)) ->
  QueryUnescape (Values_Get (URL_Query r) "destination") = inl dst ->
  Values_Get (URL_Query r) "action" = "copy" ->
  Create (Perm user) = false ->
  refused_untouched StatusForbidden w (resourcePatchHandler e r w).
Proof.
  intros Hfresh Hres Hdst Hcopy Hperm.
  destruct (getResourceData_Some e _ _ _ _ _ _ Hres) as [-> _].
  unfold resourcePatchHandler. rewrite Hres, Hdst, Hcopy.
  destruct (String.eqb dst "/" || String.eqb src "/");
    [now apply httpErr_fresh|].
  simpl. rewrite Hperm. simpl. now apply httpErr_fresh.
Qed.

(** C2 (as the code has it). A PATCH request that names the action
    [rename] explicitly reaches the [Runner] and renames on the
    filesystem although the user's rename capability is off: the case
    ["rename"] of the [switch] is empty and Go does not fall through to
    the check under [default]. *)
Theorem explicit_rename_skips_capability_check (r : Request) (w w1 : World)
    (src dst : string) (user : User) :
  getResourceData e r apiResourcePrefix w = (w1, Some (src, user)) ->
  QueryUnescape (Values_Get (URL_Query r) "destination") = inl dst ->
  src <> "/" -> dst <> "/" ->
  Values_Get (URL_Query r) "action" = "rename" ->
  Rename (Perm user) = false ->
  log (resourcePatchHandler e r w)
  = (log w ++ [EvRun "action" src dst; EvHook "before" "action" src dst;
               EvFs (CallRename src dst); EvHook "after" "action" src dst])%list /\
  fs (resourcePatchHandler e r w) = fst (Fs_Rename src dst (fs w)).
Proof.
  intros Hres Hdst Hsrc Hdst' Haction Hperm.
  destruct (getResourceData_Some e _ _ _ _ _ _ Hres) as [-> _].
  unfold resourcePatchHandler. rewrite Hres, Hdst, Haction.
  not_root. simpl.
  unfold Runner_Run, patch_action, user_Fs_Rename. simpl.
  destruct (Fs_Rename src dst (fs w)) as [f err].
  autorewrite with frame. simpl.
  rewrite <- !app_assoc. simpl. auto.
Qed.

(** C4. A DELETE whose resolved path is the scope root, and a PATCH
    whose resolved source or unescaped destination is the scope root,
    answer Forbidden whatever the user's permissions are, and reach
    neither the [Runner] nor the filesystem. *)
Theorem root_is_forbidden (r : Request) (w w1 : World) (path : string) (user : User) :
  Status (resp w) = None ->
  getResourceData e r apiResourcePrefix w = (w1, Some (path, user)) ->
  (path = "/" ->
   refused_untouched StatusForbidden w (resourceDeleteHandler e r w)) /\
  (forall dst : string,
      QueryUnescape (Values_Get (URL_Query r) "destination") = inl dst ->
      path = "/" \/ dst = "/" ->
      refused_untouched StatusForbidden w (resourcePatchHandler e r w)).
Proof.
  intros Hfresh Hres.
  destruct (getResourceData_Some e _ _ _ _ _ _ Hres) as [-> _].
  split.
  - intros ->. unfold resourceDeleteHandler. rewrite Hres. simpl.
    now apply httpErr_fresh.
  - intros dst Hdst Hroot. unfold resourcePatchHandler. rewrite Hres, Hdst.
    assert (String.eqb dst "/" || String.eqb path "/" = true) as ->.
    { destruct Hroot as [-> | ->]; simpl; [apply orb_true_r | reflexivity]. }
    now apply httpErr_fresh.
Qed.

(** C8. An authorized PATCH with [action=copy] on paths other than the
    root hands the [Runner] a function that touches nothing and returns
    [nil]: the filesystem and the store stay as they were, the only
    events are the call of the [Runner] and its hooks, and the response
    is a success when no hook fails.  The operation name handed to the
    [Runner] is ["action"], for a rename as for a copy. *)
Theorem copy_is_a_successful_no_op (r : Request) (w w1 : World)
    (src dst : string) (user : User) :
  Status (resp w) = None ->
  getResourceData e r apiResourcePrefix w = (w1, Some (src, user)) ->
  QueryUnescape (Values_Get (URL_Query r) "destination") = inl dst ->
  src <> "/" -> dst <> "/" ->
  (Values_Get (URL_Query r) "action" = "copy" ->
   Create (Perm user) = true ->
   (forall w0 : World, patch_action "copy" src dst w0 = (w0, None)) /\
   fs (resourcePatchHandler e r w) = fs w /\
   store (resourcePatchHandler e r w) = store w /\
   log (resourcePatchHandler e r w)
   = (log w ++ [EvRun "action" src dst; EvHook "before" "action" src dst;
                EvHook "after" "action" src dst])%list /\
   (Runner_hook e "before" "action" src dst user None = None ->
    Runner_hook e "after" "action" src dst user None = None ->
    Status (resp (resourcePatchHandler e r w)) = Some StatusOK)) /\
  (Values_Get (URL_Query r) "action" <> "copy" ->
   Values_Get (URL_Query r) "action" = "rename" \/ Rename (Perm user) = true ->
   log (resourcePatchHandler e r w)
   = (log w ++ [EvRun "action" src dst; EvHook "before" "action" src dst;
                EvFs (CallRename src dst);
                EvHook "after" "action" src dst])%list).
Proof.
  intros Hfresh Hres Hdst Hsrc Hdst'.
  destruct (getResourceData_Some e _ _ _ _ _ _ Hres) as [-> _].
  split.
  - intros Haction Hperm. split; [intros w0; apply patch_action_copy|].
    unfold resourcePatchHandler. rewrite Hres, Hdst, Haction.
    not_root. simpl. rewrite Hperm. simpl.
    unfold Runner_Run, patch_action. simpl.
    autorewrite with frame. simpl.
    repeat split.
    + rewrite <- !app_assoc. reflexivity.
    + intros -> ->. rewrite Hfresh. reflexivity.
  - intros Haction Hallowed. unfold resourcePatchHandler. rewrite Hres, Hdst.
    not_root. simpl.
    assert ((if String.eqb (Values_Get (URL_Query r) "action") "rename"
             then Some (Values_Get (URL_Query r) "action")
             else if negb (Rename (Perm user)) then None else Some "rename")
            = Some "rename") as ->.
    { destruct Hallowed as [-> | ->]; simpl; [reflexivity|].
      destruct (String.eqb _ "rename") eqn:Heq; [|reflexivity].
      apply String.eqb_eq in Heq. now rewrite Heq. }
    unfold Runner_Run, patch_action, user_Fs_Rename. simpl.
    destruct (Fs_Rename src dst (fs w)) as [f err].
    autorewrite with frame. simpl.
    rewrite <- !app_assoc. reflexivity.
Qed.

End Resource.

Section Write.
Context {FS ST : Type} `{!AferoFs FS} `{!ShareStore ST} `{!TypesPkg FS}.
Variable e : Env.
Local Abbreviation World := (World FS ST).

Import GoStrings GoUrl.


Lemma upload_flags_truncate :
  Z.testbit upload_flags 9 = true /\ Z.testbit upload_flags 6 = true.
Proof. split; reflexivity. Qed.

(** [upload] when every step succeeds: the file is opened (and emptied),
    the body copied into it, its info read, the tag set, the file
    closed. *)
Lemma upload_ok (r : Request) (path : string) (w : World)
    (fs1 fs2 : FS) (info : os_FileInfo) :
  Fs_OpenFile path upload_flags perm_0775 (fs w) = (fs1, None) ->
  File_Copy path (Body r) fs1 = (fs2, None) ->
  File_Stat path fs2 = inl info ->
  exists w' : World,
    upload r path w = (w', None) /\
    fs w' = File_Close path fs2 /\
    store w' = store w /\
    Status (resp w') = Status (resp w) /\
    Written (resp w') = Written (resp w) /\
    Header (resp w') = <["ETag" := [etag_of info]]> (Header (resp w)) /\
    log w' = (log w ++ [EvFs (CallOpenFile path upload_flags perm_0775);
                        EvFs (CallCopy path (Body r));
                        EvFs (CallFileStat path);
                        EvFs (CallClose path)])%list.
Proof.
  intros Hopen Hcopy Hstat.
  unfold upload, user_Fs_OpenFile. fold upload_flags. rewrite Hopen.
  unfold file_Copy. simpl. rewrite Hcopy.
  unfold file_Stat. simpl. rewrite Hstat.
  eexists. split; [reflexivity|]. simpl.
  rewrite <- !app_assoc. simpl. repeat split; reflexivity.
Qed.

(** Whatever happens next, [upload] starts by opening the file with the
    truncating flags. *)
Lemma upload_opens (r : Request) (path : string) (w : World) :
  exists tail : list Event,
    log (fst (upload r path w))
    = (log w ++ EvFs (CallOpenFile path upload_flags perm_0775) :: tail)%list.
Proof.
  unfold upload, user_Fs_OpenFile. fold upload_flags.
  destruct (Fs_OpenFile path upload_flags perm_0775 (fs w)) as [fs1 [err|]].
  - exists []. reflexivity.
  - unfold file_Copy. simpl.
    destruct (File_Copy path (Body r) fs1) as [fs2 [err|]].
    + eexists. simpl. rewrite <- !app_assoc. reflexivity.
    + unfold file_Stat. simpl.
      destruct (File_Stat path fs2) as [info|err];
        eexists; simpl; rewrite <- !app_assoc; reflexivity.
Qed.

(** C5. A file write (no trailing separator) on a path that exists, by
    a user holding the capability of the method ([create] for POST,
    [modify] for PUT): a POST whose [override] parameter is not ["true"]
    answers Conflict and calls nothing but [Stat]; a POST with
    [override=true] and every PUT run [upload] through the [Runner],
    which opens the file with the truncating flags; when the steps of
    the write succeed the file holds what the copy of the body left in
    the emptied file, the tag of its resulting modification time and
    size is the [ETag] header, and the response is a success when no
    hook fails. *)
Theorem write_on_existing_path (r : Request) (w w1 : World) (path : string)
    (user : User) (info : os_FileInfo) :
  Status (resp w) = None ->
  getResourceData e r apiResourcePrefix w = (w1, Some (path, user)) ->
  HasSuffix (URL_Path r) "/" = false ->
  Fs_Stat path (fs w) = inl info ->
  (Method r = MethodPost -> Create (Perm user) = true ->
   Values_Get (URL_Query r) "override" <> "true" ->
   Status (resp (resourcePostPutHandler e r w)) = Some StatusConflict /\
   fs (resourcePostPutHandler e r w) = fs w /\
   log (resourcePostPutHandler e r w) = (log w ++ [EvFs (CallStat path)])%list) /\
  (Method r = MethodPost /\ Create (Perm user) = true /\
     Values_Get (URL_Query r) "override" = "true"
   \/ Method r = MethodPut /\ Modify (Perm user) = true ->
   (exists tail : list Event,
      log (resourcePostPutHandler e r w)
      = (log w ++ EvRun "upload" path EmptyString
               :: EvHook "before" "upload" path EmptyString
               :: EvFs (CallOpenFile path upload_flags perm_0775) :: tail)%list) /\
   (forall (fs1 fs2 : FS) (info2 : os_FileInfo),
      Fs_OpenFile path upload_flags perm_0775 (fs w) = (fs1, None) ->
      File_Copy path (Body r) fs1 = (fs2, None) ->
      File_Stat path fs2 = inl info2 ->
      fs (resourcePostPutHandler e r w) = File_Close path fs2 /\
      Header (resp (resourcePostPutHandler e r w)) !! "ETag"
      = Some [etag_of info2] /\
      (Runner_hook e "before" "upload" path EmptyString user None = None ->
       Runner_hook e "after" "upload" path EmptyString user None = None ->
       Status (resp (resourcePostPutHandler e r w)) = Some StatusOK))).
Proof.
  intros Hfresh Hres Hfile Hstat.
  destruct (getResourceData_Some e _ _ _ _ _ _ Hres) as [-> _].
  split.
  - intros Hpost Hcreate Hoverride.
    unfold resourcePostPutHandler. rewrite Hres, Hpost, Hcreate, Hfile.
    rewrite (proj2 (String.eqb_neq _ _) Hoverride). simpl.
    unfold user_Fs_Stat. rewrite Hstat, andb_false_r.
    autorewrite with frame. simpl. rewrite Hfresh. auto.
  - intros Hwrite.
    assert (resourcePostPutHandler e r w
            = let '(w2, err) :=
                Runner_Run e (upload r path) "upload" path EmptyString user w in
              match err with
              | Some _ => httpErr (httpFsErr err) err w2
              | None => httpErr StatusOK None w2
              end) as ->.
    { unfold resourcePostPutHandler. rewrite Hres, Hfile.
      destruct Hwrite as [(-> & -> & ->) | (-> & ->)]; simpl;
        rewrite ?andb_false_r; reflexivity. }
    unfold Runner_Run. split.
    + destruct (upload_opens r path
                  (emit (EvHook "before" "upload" path EmptyString)
                     (emit (EvRun "upload" path EmptyString) w)))
        as [tail Htail].
      destruct (upload r path _) as [w2 err]. simpl in Htail.
      exists (tail ++ [EvHook "after" "upload" path EmptyString])%list.
      match goal with
      | |- context [match ?x with Some _ => httpErr _ _ _ | None => _ end] =>
          destruct x
      end; autorewrite with frame; simpl; rewrite Htail;
        rewrite <- !app_assoc; reflexivity.
    + intros fs1 fs2 info2 Hopen Hcopy Hinfo.
      destruct (upload_ok r path
                  (emit (EvHook "before" "upload" path EmptyString)
                     (emit (EvRun "upload" path EmptyString) w))
                  fs1 fs2 info2 Hopen Hcopy Hinfo)
        as (w2 & -> & Hfs & _ & Hstatus & _ & Hheader & _).
      simpl in Hstatus.
      destruct (Runner_hook e "before" "upload" path EmptyString user None) eqn:Hpre;
        [|destruct (Runner_hook e "after" "upload" path EmptyString user None) eqn:Hpost];
        autorewrite with frame; simpl;
        unfold httpErr, Write, WriteHeader; simpl; rewrite Hstatus, Hfresh; simpl;
        rewrite Hheader, lookup_insert_eq;
        (split; [exact Hfs|split; [reflexivity|]]);
        intros; congruence.
Qed.

End Write.

Section Read.
Context {FS ST : Type} `{!AferoFs FS} `{!ShareStore ST} `{!TypesPkg FS}.
Variable e : Env.
Local Abbreviation World := (World FS ST).

Import GoStrings GoUrl.


(** C10. A read of a file that names a checksum algorithm: when
    [Checksum] reports [ErrInvalidOption] (the algorithm is not
    supported) the response is the client error Bad Request and carries
    nothing else; when [Checksum] succeeds the response is the file with
    an empty embedded content. *)
Theorem checksum_response (r : Request) (w w1 : World) (path : string)
    (user : User) (file file' : File) (err : error) :
  Status (resp w) = None ->
  getResourceData e r apiResourcePrefix w = (w1, Some (path, user)) ->
  NewFileInfo user path (fs w) = inl file ->
  IsDir file = false ->
  Values_Get (URL_Query r) "checksum" <> EmptyString ->
  File_Checksum (classified user file (fs w))
                (Values_Get (URL_Query r) "checksum") (fs w) = (file', err) ->
  (err = Some ErrInvalidOption ->
   Status (resp (resourceGetHandler e r w)) = Some StatusBadRequest /\
   Written (resp (resourceGetHandler e r w))
   = (Written (resp w) ++ [StatusLine StatusBadRequest])%list) /\
  (err = None ->
   Status (resp (resourceGetHandler e r w)) = Some StatusOK /\
   Written (resp (resourceGetHandler e r w))
   = (Written (resp w) ++ [JSONFile (set_Content file' EmptyString)])%list /\
   Content (set_Content file' EmptyString) = EmptyString).
Proof.
  intros Hfresh Hres Hnew Hfile Hchecksum Hsum.
  destruct (getResourceData_Some e _ _ _ _ _ _ Hres) as [-> _].
  assert (resourceGetHandler e r w
          = match err with
            | Some ErrInvalidOption =>
                httpErr StatusBadRequest None
                  (emit (EvFs (CallChecksum
                                 (FilePath (classified user file (fs w)))
                                 (Values_Get (URL_Query r) "checksum")))
                     (emit (EvFs (CallNewFileInfo path)) w))
            | Some err' =>
                httpErr StatusInternalServerError (Some err')
                  (emit (EvFs (CallChecksum
                                 (FilePath (classified user file (fs w)))
                                 (Values_Get (URL_Query r) "checksum")))
                     (emit (EvFs (CallNewFileInfo path)) w))
            | None =>
                renderJSON (JSONFile (set_Content file' EmptyString))
                  (emit (EvFs (CallChecksum
                                 (FilePath (classified user file (fs w)))
                                 (Values_Get (URL_Query r) "checksum")))
                     (emit (EvFs (CallNewFileInfo path)) w))
            end) as ->.
  { unfold resourceGetHandler, types_NewFileInfo. rewrite Hres, Hnew, Hfile.
    rewrite (proj2 (String.eqb_neq _ _) Hchecksum). simpl.
    unfold file_Checksum. simpl. fold (classified user file (fs w)).
    rewrite Hsum. destruct err as [[]|]; reflexivity. }
  split; intros ->.
  - unfold httpErr, Write, WriteHeader. simpl. rewrite Hfresh. auto.
  - unfold renderJSON, Write, WriteHeader. simpl. rewrite Hfresh. auto.
Qed.


(** What [handleSortOrder] returns and what it leaves behind. *)
Lemma handleSortOrder_result (r : Request) (scope : string) (w : World) :
  let sort := Values_Get (URL_Query r) "sort" in
  let order := Values_Get (URL_Query r) "order" in
  exists w' : World,
    handleSortOrder r scope w
    = (w', (chosen sort (Request_Cookie r "sort") "name",
            chosen order (Request_Cookie r "order") "asc", None)) /\
    SetCookies (resp w')
    = (SetCookies (resp w)
       ++ (if valid_sort sort then [preference "sort" sort scope r] else [])
       ++ (if valid_order order then [preference "order" order scope r] else []))%list /\
    Status (resp w') = Status (resp w) /\
    Written (resp w') = Written (resp w) /\
    Header (resp w') = Header (resp w) /\
    fs w' = fs w /\ store w' = store w /\ log w' = log w.
Proof.
  intros sort order. unfold handleSortOrder, chosen, valid_sort, valid_order.
  fold sort. fold order.
  destruct (String.eqb sort EmptyString) eqn:Hs0.
  - apply String.eqb_eq in Hs0. rewrite Hs0. simpl.
    destruct (String.eqb order EmptyString) eqn:Ho0.
    + apply String.eqb_eq in Ho0. rewrite Ho0. simpl.
      eexists. split; [reflexivity|]. rewrite app_nil_r. auto 10.
    + destruct (String.eqb order "asc" || String.eqb order "desc");
        eexists; (split; [reflexivity|]); simpl; rewrite ?app_nil_r; auto 10.
  - destruct (String.eqb sort "name" || String.eqb sort "size");
      (destruct (String.eqb order EmptyString) eqn:Ho0;
       [apply String.eqb_eq in Ho0; rewrite Ho0; simpl
       |destruct (String.eqb order "asc" || String.eqb order "desc")]);
      eexists; (split; [reflexivity|]); simpl;
      rewrite <- ?app_assoc, ?app_nil_r; auto 10.
Qed.

(** C7 (as the code has it). [handleSortOrder] never fails.  An empty
    [sort] ([order]) parameter falls back to the stored token, else to
    [name] ([asc]); any other value, valid or not, comes back unchanged
    and is the sort key (order) of the directory listing that is sorted
    and answered.  A token is persisted exactly for the valid values, with
    a maximal age of 31536000 seconds and the scope as path; nothing else
    changes in the world. *)
Theorem handleSortOrder_spec (r : Request) (scope : string) (w : World) :
  let sort := chosen (Values_Get (URL_Query r) "sort")
                     (Request_Cookie r "sort") "name" in
  let order := chosen (Values_Get (URL_Query r) "order")
                      (Request_Cookie r "order") "asc" in
  (exists w' : World,
      handleSortOrder r scope w = (w', (sort, order, None)) /\
      SetCookies (resp w')
      = (SetCookies (resp w)
         ++ (if valid_sort (Values_Get (URL_Query r) "sort")
             then [preference "sort" (Values_Get (URL_Query r) "sort") scope r]
             else [])
         ++ (if valid_order (Values_Get (URL_Query r) "order")
             then [preference "order" (Values_Get (URL_Query r) "order") scope r]
             else []))%list /\
      Status (resp w') = Status (resp w) /\
      Written (resp w') = Written (resp w) /\
      Header (resp w') = Header (resp w) /\
      fs w' = fs w /\ store w' = store w /\ log w' = log w) /\
  (forall (w1 : World) (path : string) (user : User) (file : File),
      getResourceData e r apiResourcePrefix w = (w1, Some (path, user)) ->
      NewFileInfo user path (fs w) = inl file ->
      IsDir file = true ->
      Written (resp (resourceGetHandler e r w))
      = (Written (resp w)
         ++ [JSONFile
               (set_Listing file
                  (Listing_ApplySort
                     (set_Sort_Order (FileListing file) sort order)))])%list).
Proof.
  intros sort order. split; [apply handleSortOrder_result|].
  intros w1 path user file Hres Hnew Hdir.
  destruct (getResourceData_Some e _ _ _ _ _ _ Hres) as [-> _].
  unfold resourceGetHandler, types_NewFileInfo. rewrite Hres, Hnew, Hdir.
  destruct (handleSortOrder_result r "/" (emit (EvFs (CallNewFileInfo path)) w))
    as (w' & -> & _ & _ & Hwritten & _).
  unfold renderJSON. rewrite Written_Write, Hwritten. reflexivity.
Qed.

End Read.

Section ShareLinks.
Context {FS ST : Type} `{!AferoFs FS} `{!ShareStore ST} `{!TypesPkg FS}.
Variable e : Env.
Local Abbreviation World := (World FS ST).

Import GoStrings GoUrl GoInt GoStrconv GoBase64.

Lemma wrap64_in_range (z : Z) : in_int64 z -> wrap64 z = z.
Proof.
  unfold in_int64, min_int64, max_int64, wrap64.
  change (2 ^ 63) with 9223372036854775808.
  change (2 ^ 64) with 18446744073709551616.
  intros Hz. rewrite Z.mod_small by lia. lia.
Qed.

(** The [switch] on the unit multiplies the amount by the length of the
    unit, as an [int64]. *)
Lemma expiry_duration_unit (unit : string) (num : Z) :
  expiry_duration unit num = wrap64 (unit_of unit * num).
Proof.
  unfold expiry_duration, unit_of, mul64.
  destruct (String.eqb unit "seconds"); [reflexivity|].
  destruct (String.eqb unit "minutes"); [reflexivity|].
  destruct (String.eqb unit "days"); [|reflexivity].
  f_equal; lia.
Qed.

(** X21. With no expiry asked for and a permanent link found, the link is
    answered as a URL and nothing is saved. *)
Lemma permanent_link_reused (r : Request) (w w1 : World) (path : string)
    (s : ShareLink) :
  getShareData e r apiSharePrefix w = (w1, Some path) ->
  Values_Get (URL_Query r) "expires" = EmptyString ->
  Share_GetPermanent path (store w) = inl s ->
  Written (resp (sharePostHandler e r w))
  = (Written (resp w) ++ [Text (BaseURL e +:+ "/share/" +:+ Hash s)])%list /\
  store (sharePostHandler e r w) = store w /\
  log (sharePostHandler e r w) = (log w ++ [EvStore (CallGetPermanent path)])%list.
Proof.
  intros Hshare Hexpire Hperm.
  destruct (getShareData_Some e _ _ _ _ _ Hshare) as [-> _].
  unfold sharePostHandler. rewrite Hshare, Hexpire. simpl.
  unfold Store_Share_GetPermanent. rewrite Hperm.
  autorewrite with frame. simpl. auto.
Qed.

(** C3 (as the code has it). With no expiry asked for, whenever the
    lookup of the permanent link fails, with a storage error as with
    [ErrNotExist], [sharePostHandler] goes on as if the path had no
    permanent link: it saves a new permanent link for the path, whatever
    the store holds. *)
Theorem failed_lookup_duplicates_permanent_link (r : Request) (w w1 : World)
    (path bytes : string) (err : Err) :
  getShareData e r apiSharePrefix w = (w1, Some path) ->
  Values_Get (URL_Query r) "expires" = EmptyString ->
  Share_GetPermanent path (store w) = inr err ->
  entropy e (draws w) = inl bytes ->
  let s := {| Path := path; Hash := EncodeToString bytes; Expires := false;
              ExpireDate := zeroTime |} in
  log (sharePostHandler e r w)
  = (log w ++ [EvStore (CallGetPermanent path); EvStore (CallSave s)])%list /\
  store (sharePostHandler e r w) = fst (Share_Save s (store w)).
Proof.
  intros Hshare Hexpire Hperm Hbytes s.
  destruct (getShareData_Some e _ _ _ _ _ Hshare) as [-> _].
  unfold sharePostHandler. rewrite Hshare, Hexpire. simpl.
  unfold Store_Share_GetPermanent. rewrite Hperm. simpl.
  rewrite Hbytes. unfold Store_Share_Save. simpl. fold s.
  destruct (Share_Save s (store w)) as [st' [err'|]];
    autorewrite with frame; unfold renderJSON; autorewrite with frame; simpl;
    rewrite <- app_assoc; auto.
Qed.

(** C6 (as the code has it). An [expires] parameter that is not an
    integer is answered with Internal Server Error, not with a client
    error, and nothing is saved. *)
Theorem malformed_expiry_is_internal_error (r : Request) (w w1 : World)
    (path : string) (err : Err) :
  Status (resp w) = None ->
  getShareData e r apiSharePrefix w = (w1, Some path) ->
  Values_Get (URL_Query r) "expires" <> EmptyString ->
  Atoi (Values_Get (URL_Query r) "expires") = inr err ->
  Status (resp (sharePostHandler e r w)) = Some StatusInternalServerError /\
  Status (resp (sharePostHandler e r w)) <> Some StatusBadRequest /\
  store (sharePostHandler e r w) = store w.
Proof.
  intros Hfresh Hshare Hexpire Hatoi.
  destruct (getShareData_Some e _ _ _ _ _ Hshare) as [-> _].
  unfold sharePostHandler. rewrite Hshare.
  rewrite (proj2 (String.eqb_neq _ _) Hexpire). simpl. rewrite Hatoi.
  destruct (entropy e (draws w)) as [bytes|err'];
    autorewrite with frame; simpl; rewrite Hfresh; repeat split; discriminate.
Qed.

(** C9 (as the code has it). The link a create request saves and
    answers with: its [Expires] flag is set when the [expires] parameter
    is non-empty and clear when it is empty; with an integer amount its
    [ExpireDate] is the reading of the clock plus the [int64] product of
    the amount and the length of the unit, which is the exact product
    whenever that fits in 64 bits. *)
Theorem created_link_expiry (r : Request) (w w1 : World) (path bytes : string) :
  Status (resp w) = None ->
  getShareData e r apiSharePrefix w = (w1, Some path) ->
  entropy e (draws w) = inl bytes ->
  let expire := Values_Get (URL_Query r) "expires" in
  let unit := Values_Get (URL_Query r) "unit" in
  (forall (num : Z) (st' : ST),
      expire <> EmptyString ->
      Atoi expire = inl num ->
      let s := {| Path := path; Hash := EncodeToString bytes; Expires := true;
                  ExpireDate := clock e (ticks w) + wrap64 (unit_of unit * num) |} in
      Share_Save s (store w) = (st', None) ->
      Status (resp (sharePostHandler e r w)) = Some StatusOK /\
      Written (resp (sharePostHandler e r w))
      = (Written (resp w) ++ [JSONLink s])%list /\
      store (sharePostHandler e r w) = st' /\
      (in_int64 (unit_of unit * num) ->
       ExpireDate s = clock e (ticks w) + num * unit_of unit)) /\
  (forall (err : Err) (st' : ST),
      expire = EmptyString ->
      Share_GetPermanent path (store w) = inr err ->
      let s := {| Path := path; Hash := EncodeToString bytes; Expires := false;
                  ExpireDate := zeroTime |} in
      Share_Save s (store w) = (st', None) ->
      Status (resp (sharePostHandler e r w)) = Some StatusOK /\
      Written (resp (sharePostHandler e r w))
      = (Written (resp w) ++ [JSONLink s])%list /\
      store (sharePostHandler e r w) = st').
Proof.
  intros Hfresh Hshare Hbytes expire unit.
  destruct (getShareData_Some e _ _ _ _ _ Hshare) as [-> _].
  split.
  - intros num st' Hexpire Hatoi s Hsave.
    unfold sharePostHandler. rewrite Hshare. fold expire. fold unit.
    rewrite (proj2 (String.eqb_neq _ _) Hexpire). simpl.
    rewrite Hbytes, Hatoi. simpl.
    unfold Store_Share_Save, Time_Add, set_ExpireDate. simpl.
    rewrite expiry_duration_unit. fold s. rewrite Hsave.
    unfold renderJSON, Write, WriteHeader. simpl. rewrite Hfresh. simpl.
    repeat split. intros Hrange. rewrite wrap64_in_range by exact Hrange. lia.
  - intros err st' Hexpire Hperm s Hsave.
    unfold sharePostHandler. rewrite Hshare. fold expire. rewrite Hexpire. simpl.
    unfold Store_Share_GetPermanent. rewrite Hperm. simpl.
    rewrite Hbytes. unfold Store_Share_Save. simpl. fold s. rewrite Hsave.
    unfold renderJSON, Write, WriteHeader. simpl. rewrite Hfresh. simpl.
    repeat split.
Qed.

(** Once the loop is past the first cell, nothing it does reaches that
    cell: a removal at an index [i >= 1] shifts the cells from [i] on. *)
Lemma sweep_keeps_head (indices : list nat) :
  forall (backing : list ShareLink) (s : GoSlice.slice ShareLink) (w : World)
         (b : ShareLink),
    Forall (fun i => (1 <= i)%nat) indices ->
    GoSlice.array s = backing ->
    backing !! 0%nat = Some b ->
    (1 <= GoSlice.len s <= length backing)%nat ->
    match sweep e indices backing true s w with
    | Returned (_, s') => exists tl, GoSlice.to_list s' = b :: tl
    | Panicked _ => True
    end.
Proof.
  induction indices as [|i indices IH]; intros backing s w b Hindices Harray Hhead Hlen.
  - simpl. unfold GoSlice.to_list. rewrite Harray.
    destruct backing as [|x backing]; [discriminate|].
    injection Hhead as ->.
    destruct (GoSlice.len s) as [|n]; [lia|]. simpl. eauto.
  - inversion Hindices as [|? ? Hi Hrest]; subst. simpl.
    destruct (GoSlice.array s !! i) as [link|]; [|exact I].
    assert (forall w0 : World,
               match (let '(w1, _) := Store_Share_Delete (Hash link) w0 in
                      match GoSlice.upto s i, GoSlice.from s (i + 1) with
                      | Some front, Some back =>
                          let '(s0, in_place) := GoSlice.append front back in
                          sweep e indices
                            (if true && in_place then GoSlice.array s0
                             else GoSlice.array s)
                            (true && in_place) s0 w1
                      | _, _ => Panicked (w1, s)
                      end) with
               | Returned (_, s') => exists tl, GoSlice.to_list s' = b :: tl
               | Panicked _ => True
               end) as Hremove.
    { intros w0. destruct (Store_Share_Delete (Hash link) w0) as [w1 ?].
      unfold GoSlice.upto, GoSlice.from, GoSlice.cap.
      destruct (i <=? length (GoSlice.array s))%nat eqn:Hcap; [|exact I].
      destruct (i + 1 <=? GoSlice.len s)%nat eqn:Hlow; [|exact I].
      apply Nat.leb_le in Hcap, Hlow.
      unfold GoSlice.append, GoSlice.cap. simpl.
      assert (length (take (GoSlice.len s - (i + 1))
                        (drop (i + 1) (GoSlice.array s)))
              = (GoSlice.len s - (i + 1))%nat) as Hback.
      { rewrite length_take, length_drop. lia. }
      rewrite Hback.
      assert ((i + (GoSlice.len s - (i + 1)) <=? length (GoSlice.array s))%nat = true)
        as -> by (apply Nat.leb_le; lia).
      simpl. apply IH; simpl.
      - exact Hrest.
      - reflexivity.
      - rewrite lookup_app_l by (rewrite length_take; lia).
        rewrite lookup_take_lt by lia. exact Hhead.
      - rewrite !length_app, length_take, Hback, length_drop. lia. }
    destruct (Expires link).
    + destruct (ExpireDate link <? clock e (ticks w)).
      * apply Hremove.
      * now apply IH.
    + now apply IH.
Qed.

(** The loop does not write to the response. *)
Lemma sweep_resp (indices : list nat) :
  forall (backing : list ShareLink) (aliased : bool)
         (s : GoSlice.slice ShareLink) (w : World),
    resp (fst (world_of (sweep e indices backing aliased s w))) = resp w.
Proof.
  induction indices as [|i indices IH]; intros backing aliased s w; simpl;
    [reflexivity|].
  destruct (backing !! i) as [link|]; [|reflexivity].
  destruct (Expires link); [|apply IH]. simpl.
  destruct (ExpireDate link <? clock e (ticks w)); [|now rewrite IH].
  unfold Store_Share_Delete. simpl.
  destruct (Share_Delete (Hash link) (store w)) as [st ?].
  destruct (GoSlice.upto s i); [|reflexivity].
  destruct (GoSlice.from s (i + 1)); [|reflexivity].
  destruct (GoSlice.append _ _) as [s1 in_place]. now rewrite IH.
Qed.

(** C1 (as the code has it). The loop of [shareGetHandler] removes from
    the slice it ranges over.  When the first stored link of the path has
    expired, its removal slides the second link into the cell the loop has
    just left: the second link is never examined, and whenever the handler
    answers, the second link is listed, expired or not. *)
Theorem adjacent_expired_link_survives (r : Request) (w w1 : World) (path : string)
    (a b : ShareLink) (rest : list ShareLink) :
  getShareData e r apiSharePrefix w = (w1, Some path) ->
  Share_GetByPath path (store w) = inl (a :: b :: rest) ->
  Expires a = true ->
  ExpireDate a < clock e (ticks w) ->
  match shareGetHandler e r w with
  | Returned w' =>
      exists tl : list ShareLink,
        Written (resp w') = (Written (resp w) ++ [JSONLinks (b :: tl)])%list
  | Panicked _ => True
  end.
Proof.
  intros Hshare Hget Hexpires Hdate.
  destruct (getShareData_Some e _ _ _ _ _ Hshare) as [-> _].
  unfold shareGetHandler. rewrite Hshare.
  unfold Store_Share_GetByPath. rewrite Hget.
  change (seq 0 (GoSlice.len (GoSlice.of_list (a :: b :: rest))))
    with (0%nat :: seq 1 (S (length rest))).
  remember (seq 1 (S (length rest))) as indices eqn:Hindices.
  simpl. rewrite Hexpires.
  apply Z.ltb_lt in Hdate. rewrite Hdate.
  unfold Store_Share_Delete. simpl.
  destruct (Share_Delete (Hash a) (store w)) as [st ?].
  match goal with
  | |- context [sweep e indices _ _ _ ?w0] => set (w2 := w0)
  end.
  rewrite firstn_all.
  unfold GoSlice.append, GoSlice.cap.
  cbn [GoSlice.len GoSlice.array length Nat.add take app].
  assert ((S (length rest) <=? S (S (length rest)))%nat = true) as ->
      by (apply Nat.leb_le; lia).
  cbn [GoSlice.array].
  pose proof (sweep_keeps_head indices
                (b :: rest ++ drop (S (length rest)) (a :: b :: rest))
                {| GoSlice.array := b :: rest ++ drop (S (length rest)) (a :: b :: rest);
                   GoSlice.len := S (length rest) |} w2 b) as Hkeep.
  pose proof (sweep_resp indices
                (b :: rest ++ drop (S (length rest)) (a :: b :: rest)) true
                {| GoSlice.array := b :: rest ++ drop (S (length rest)) (a :: b :: rest);
                   GoSlice.len := S (length rest) |} w2) as Hresp.
  destruct (sweep e indices _ true _ w2) as [[w3 s3]|[w3 s3]]; [|exact I].
  simpl in Hresp.
  destruct Hkeep as [tl Htl].
  - subst indices. apply Forall_forall. intros i Hi. apply elem_of_seq in Hi. lia.
  - reflexivity.
  - reflexivity.
  - cbn [GoSlice.len length]. rewrite length_app, length_drop. simpl. lia.
  - exists tl. unfold renderJSON. rewrite Written_Write, Htl, Hresp. reflexivity.
Qed.

End ShareLinks.

(** ** Permanent links on the list store *)

Section Permanent.
Context {FS : Type} `{!AferoFs FS} `{!TypesPkg FS}.
Variable e : Env.
Local Abbreviation World := (World FS Mem.MemStore).

Import Mem GoUrl.

Lemma filter_upsert_length (P : ShareLink -> bool) (s : ShareLink)
    (l : list ShareLink) :
  (length (List.filter P (upsert s l))
   <= length (List.filter P l) + (if P s then 1 else 0))%nat.
Proof.
  induction l as [|x l IH]; simpl.
  - destruct (P s); simpl; lia.
  - destruct (String.eqb (Hash x) (Hash s)); simpl.
    + destruct (P s), (P x); simpl; lia.
    + destruct (P x); simpl; lia.
Qed.

Lemma find_none_filter_nil (P : ShareLink -> bool) (l : list ShareLink) :
  List.find P l = None -> List.filter P l = [].
Proof.
  induction l as [|x l IH]; simpl; [reflexivity|].
  destruct (P x); [discriminate | exact IH].
Qed.

(** Saving a link of [path] keeps the invariant when the link expires or
    when [path] has no permanent link yet. *)
Lemma save_keeps_one_permanent (s : ShareLink) (st : MemStore) :
  one_permanent_per_path st ->
  Expires s = true \/ permanent_links (Path s) st = [] ->
  one_permanent_per_path (fst (save s st)).
Proof.
  intros Hone Hs path. unfold save.
  destruct (faults st OpSave); simpl; [apply Hone|].
  unfold permanent_links. simpl.
  pose proof (filter_upsert_length
                (fun l => String.eqb (Path l) path && negb (Expires l)) s (links st))
    as Hlen.
  simpl in Hlen. specialize (Hone path). unfold permanent_links in Hone.
  destruct Hs as [Hexpires | Hnone].
  - rewrite Hexpires, andb_false_r in Hlen. lia.
  - destruct (String.eqb (Path s) path) eqn:Hpath.
    + apply String.eqb_eq in Hpath. subst path.
      unfold permanent_links in Hnone. rewrite Hnone in Hlen. simpl in Hlen.
      destruct (negb (Expires s)); lia.
    + simpl in Hlen. lia.
Qed.

Lemma getShareData_store (r : Request) (prefix : string) (w : World) :
  store (fst (getShareData e r prefix w)) = store w.
Proof.
  unfold getShareData, getResourceData, getUser.
  destruct (Users_Get e (UserID r)) as [user|status]; simpl;
    [|now autorewrite with frame].
  destruct (IsAllowed user _); simpl; [|now autorewrite with frame].
  destruct (Share (Perm user)); simpl; [reflexivity|now autorewrite with frame].
Qed.

(** X22. As long as the lookup of the permanent link does not fail with
    a storage error, a create request leaves at most one permanent link
    per path. *)
Lemma healthy_lookup_keeps_one_permanent (r : Request) (w : World) :
  faults (store w) OpGetPermanent = None ->
  one_permanent_per_path (store w) ->
  one_permanent_per_path (store (sharePostHandler e r w)).
Proof.
  intros Hhealthy Hone. unfold sharePostHandler.
  pose proof (getShareData_store r apiSharePrefix w) as Hstore.
  destruct (getShareData e r apiSharePrefix w) as [w1 [path|]] eqn:Hshare;
    simpl in Hstore; [|now rewrite Hstore].
  apply getShareData_Some in Hshare as [-> _]. clear Hstore.
  set (expire := Values_Get (URL_Query r) "expires").
  unfold Store_Share_GetPermanent, rand_Read, Store_Share_Save. simpl.
  destruct (String.eqb expire EmptyString) eqn:Hexpire; simpl.
  - unfold getPermanent. rewrite Hhealthy.
    destruct (List.find _ (links (store w))) as [found|] eqn:Hfind; simpl.
    + now autorewrite with frame.
    + apply find_none_filter_nil in Hfind.
      destruct (entropy e (draws w)) as [bytes|err]; simpl;
        [|now autorewrite with frame].
      match goal with
      | |- context [save ?s (store w)] =>
          pose proof (save_keeps_one_permanent s (store w) Hone (or_intror Hfind))
            as Hsave;
          destruct (save s (store w)) as [st' [err|]]
      end; now autorewrite with frame.
  - destruct (entropy e (draws w)) as [bytes|err]; simpl;
      [|now autorewrite with frame].
    destruct (GoStrconv.Atoi expire) as [num|err]; simpl;
      [|now autorewrite with frame].
    match goal with
    | |- context [save ?s (store w)] =>
        pose proof (save_keeps_one_permanent s (store w) Hone (or_introl eq_refl))
          as Hsave;
        destruct (save s (store w)) as [st' [err|]]
    end; now autorewrite with frame.
Qed.

End Permanent.

(** ** The handlers on the in-memory collaborators *)

Section Concrete.
Import Mem Inputs GoInt.

(** With one fresh and one expired link the listing is right in both
    orders: the expired link is deleted and left out, and the next
    listing does not hold it either. *)
Example one_fresh_one_expired :
  forall stored : list ShareLink,
    In stored [[fresh; stale1]; [stale1; fresh]] ->
    let first := shareGetHandler (env 100) list_links_of_a
                   (world files (holding stored)) in
    let second := shareGetHandler (env 100) list_links_of_a
                    (world files (store (world_of first))) in
    Written (resp (world_of first)) = [JSONLinks [fresh]] /\
    links (store (world_of first)) = [fresh] /\
    Written (resp (world_of second)) = [JSONLinks [fresh]].
Proof. intros stored [<- | [<- | []]]; vm_compute; repeat split. Qed.

(** With two expired links and nothing after them, the loop reads the
    stale copy the removal left in the last cell, deletes the second link
    and then slices beyond the length: the handler panics before it
    answers. *)
Example two_expired_links_panic :
  let crashed := shareGetHandler (env 100) list_links_of_a
                   (world files (holding [stale1; stale2])) in
  returned crashed = false /\
  Written (resp (world_of crashed)) = [] /\
  log (world_of crashed)
  = [EvStore (CallGetByPath "/srv/a"); EvStore (CallDelete "h1");
     EvStore (CallDelete "h2")].
Proof. vm_compute. repeat split. Qed.

(** C7, counterexample. The value [foo] of the [sort] parameter comes
    back from [handleSortOrder] as the sort key and is the sort key of
    the listing in the response; the default [name] is not used. *)
Lemma invalid_sort_key_is_used :
  let '(_, (sort, _, _)) := handleSortOrder list_d_by_foo "/" start in
  sort = "foo" /\ sort <> "name" /\
  exists file : File,
    Written (resp (resourceGetHandler (env 100) list_d_by_foo start))
    = [JSONFile file] /\
    Sort (FileListing file) = "foo".
Proof.
  vm_compute. split; [reflexivity|]. split; [discriminate|].
  eexists. split; reflexivity.
Qed.

(** C9, counterexample. The amount 9223372036854775807 is a valid
    integer; in hours its product with the length of the unit leaves the
    64 bits of a [time.Duration] and wraps to minus one hour: the link
    expires an hour before the request. *)
Lemma huge_expiry_wraps_around :
  GoStrconv.Atoi "9223372036854775807" = inl 9223372036854775807 /\
  Written (resp (sharePostHandler (env 100) share_a_max_hours start))
  = [JSONLink (issued true (100 - Hour))] /\
  100 - Hour <> 100 + 9223372036854775807 * Hour.
Proof. vm_compute. repeat split. discriminate. Qed.

End Concrete.

(** ** The theorems at work on the examples *)

Section Witnesses.
Import Mem Inputs GoInt GoUrl GoStrconv.

Local Ltac run := vm_compute; reflexivity.

(** The store holds [h1], [h2], [h3] for the path, the first two expired
    at the instant 100: the listing deletes [h1] only, and the expired
    [h2] is listed and stays in the store. *)
Lemma adjacent_expired_link_survives_witness :
  (Expires stale1 = true /\ ExpireDate stale1 < 100) /\
  (Expires stale2 = true /\ ExpireDate stale2 < 100) /\
  returned (shareGetHandler (env 100) list_links_of_a
              (world files (holding [stale1; stale2; fresh]))) = true /\
  (exists tl : list ShareLink,
      Written (resp (world_of (shareGetHandler (env 100) list_links_of_a
                                 (world files (holding [stale1; stale2; fresh])))))
      = [JSONLinks (stale2 :: tl)]) /\
  links (store (world_of (shareGetHandler (env 100) list_links_of_a
                            (world files (holding [stale1; stale2; fresh])))))
  = [stale2; fresh] /\
  log (world_of (shareGetHandler (env 100) list_links_of_a
                   (world files (holding [stale1; stale2; fresh]))))
  = [EvStore (CallGetByPath "/srv/a"); EvStore (CallDelete "h1")].
Proof.
  assert (getShareData (env 100) list_links_of_a apiSharePrefix
            (world files (holding [stale1; stale2; fresh]))
          = (world files (holding [stale1; stale2; fresh]), Some "/srv/a"))
    as Hshare by run.
  pose proof (adjacent_expired_link_survives (env 100) list_links_of_a
                (world files (holding [stale1; stale2; fresh])) _ "/srv/a"
                stale1 stale2 [fresh] Hshare eq_refl eq_refl eq_refl) as Hlisted.
  split; [split; reflexivity|]. split; [split; reflexivity|].
  assert (returned (shareGetHandler (env 100) list_links_of_a
                      (world files (holding [stale1; stale2; fresh]))) = true)
    as Hreturned by run.
  split; [exact Hreturned|]. split; [|split; run].
  destruct (shareGetHandler (env 100) list_links_of_a
              (world files (holding [stale1; stale2; fresh]))) as [w'|w'];
    [exact Hlisted | discriminate Hreturned].
Defined.

(** The store holds the permanent link [h0] and its lookup is down: the
    request saves a second permanent link for the same path. *)
Lemma failed_lookup_duplicates_permanent_link_witness :
  Share_GetPermanent "/srv/a" (lookup_down [permanent])
  = inr (ErrOther "storage failure") /\
  permanent_links "/srv/a" (lookup_down [permanent]) = [permanent] /\
  log (sharePostHandler (env 100) share_a (world files (lookup_down [permanent])))
  = [EvStore (CallGetPermanent "/srv/a");
     EvStore (CallSave (issued false zeroTime))] /\
  permanent_links "/srv/a"
    (store (sharePostHandler (env 100) share_a (world files (lookup_down [permanent]))))
  = [permanent; issued false zeroTime] /\
  Status (resp (sharePostHandler (env 100) share_a
                  (world files (lookup_down [permanent])))) = Some StatusOK.
Proof.
  assert (getShareData (env 100) share_a apiSharePrefix
            (world files (lookup_down [permanent]))
          = (world files (lookup_down [permanent]), Some "/srv/a")) as Hshare by run.
  assert (Values_Get (URL_Query share_a) "expires" = EmptyString) as Hexpire by run.
  assert (Share_GetPermanent "/srv/a"
            (store (world files (lookup_down [permanent])))
          = inr (ErrOther "storage failure")) as Hdown by run.
  assert (entropy (env 100) (draws (world files (lookup_down [permanent])))
          = inl (String (ascii_of_nat 0) (String (ascii_of_nat 0)
                   (String (ascii_of_nat 1) (String (ascii_of_nat 2)
                      (String (ascii_of_nat 3)
                         (String (ascii_of_nat 4) EmptyString)))))))
    as Hbytes by run.
  destruct (failed_lookup_duplicates_permanent_link (env 100) share_a
              (world files (lookup_down [permanent])) _ "/srv/a" _
              (ErrOther "storage failure") Hshare Hexpire Hdown Hbytes)
    as [Hlog Hstore].
  split; [reflexivity|]. split; [reflexivity|].
  split; [rewrite Hlog; run|]. split; [rewrite Hstore; run | run].
Defined.

(** Listing the directory [/d] with [sort=foo]: the listing answered has
    the sort key [foo], and no token is persisted. *)
Lemma handleSortOrder_spec_witness :
  chosen "foo" None "name" = "foo" /\
  valid_sort "foo" = false /\
  (exists file : File,
      Written (resp (resourceGetHandler (env 0) list_d_by_foo start))
      = [JSONFile file] /\
      Sort (FileListing file) = "foo" /\ Order (FileListing file) = "asc") /\
  SetCookies (resp (resourceGetHandler (env 0) list_d_by_foo start)) = [].
Proof.
  assert (getResourceData (env 0) list_d_by_foo apiResourcePrefix start
          = (start, Some ("/d", everything))) as Hres by run.
  assert (exists file, NewFileInfo everything "/d" (fs start) = inl file
                       /\ IsDir file = true) as (file & Hnew & Hdir).
  { eexists. split; run. }
  pose proof (proj2 (handleSortOrder_spec (env 0) list_d_by_foo "/" start)
                start "/d" everything file Hres Hnew Hdir) as Hwritten.
  split; [reflexivity|]. split; [reflexivity|]. split; [|run].
  eexists. split; [exact Hwritten|].
  vm_compute in Hnew. injection Hnew as <-. split; run.
Defined.

(** A user holding every capability deletes the root, and moves [/a] to
    the destination [%2F]. *)
Lemma root_is_forbidden_witness :
  getResourceData (env 0) delete_root apiResourcePrefix start = (start, Some ("/", everything)) /\
  refused_untouched StatusForbidden start
    (resourceDeleteHandler (env 0) delete_root start) /\
  getResourceData (env 0) move_to_root apiResourcePrefix start = (start, Some ("/a", everything)) /\
  QueryUnescape "%2F" = inl "/" /\
  refused_untouched StatusForbidden start
    (resourcePatchHandler (env 0) move_to_root start).
Proof.
  assert (getResourceData (env 0) delete_root apiResourcePrefix start
          = (start, Some ("/", everything))) as Hdelete by run.
  assert (getResourceData (env 0) move_to_root apiResourcePrefix start
          = (start, Some ("/a", everything))) as Hmove by run.
  split; [exact Hdelete|]. split.
  - apply (proj1 (root_is_forbidden (env 0) delete_root start start "/" everything
                    eq_refl Hdelete)).
    reflexivity.
  - split; [exact Hmove|]. split; [reflexivity|].
    apply (proj2 (root_is_forbidden (env 0) move_to_root start start "/a" everything
                    eq_refl Hmove) "/").
    + run.
    + right. reflexivity.
Defined.

(** A user without the rename capability renames [/a] to [/b] with
    [action=rename]: the file is moved. *)
Lemma explicit_rename_skips_capability_check_witness :
  Rename (Perm no_rename) = false /\
  log (resourcePatchHandler (env 0) rename_explicitly start)
  = [EvRun "action" "/a" "/b"; EvHook "before" "action" "/a" "/b";
     EvFs (CallRename "/a" "/b"); EvHook "after" "action" "/a" "/b"] /\
  fs (resourcePatchHandler (env 0) rename_explicitly start)
  = fst (rename "/a" "/b" files) /\
  data <$> nodes (fs (resourcePatchHandler (env 0) rename_explicitly start)) !! "/b"
  = Some "old" /\
  nodes (fs (resourcePatchHandler (env 0) rename_explicitly start)) !! "/a" = None /\
  Status (resp (resourcePatchHandler (env 0) rename_explicitly start))
  = Some StatusOK.
Proof.
  assert (getResourceData (env 0) rename_explicitly apiResourcePrefix start
          = (start, Some ("/a", no_rename))) as Hres by run.
  assert (QueryUnescape (Values_Get (URL_Query rename_explicitly) "destination")
          = inl "/b") as Hdst by run.
  assert (Values_Get (URL_Query rename_explicitly) "action" = "rename")
    as Haction by run.
  split; [reflexivity|].
  destruct (explicit_rename_skips_capability_check (env 0) rename_explicitly
              start start "/a" "/b" no_rename Hres Hdst
              ltac:(discriminate) ltac:(discriminate) Haction eq_refl)
    as [Hlog Hfs].
  split; [exact Hlog|]. split; [exact Hfs|].
  repeat split; run.
Defined.

(** Writes on the existing file [/a]: a plain POST, a PUT and a POST with
    [override=true]. *)
Lemma write_on_existing_path_witness :
  Fs_Stat "/a" files = inl {| ModTime := 7; Size := 3 |} /\
  (Status (resp (resourcePostPutHandler (env 0) post_a start)) = Some StatusConflict /\
   fs (resourcePostPutHandler (env 0) post_a start) = files /\
   log (resourcePostPutHandler (env 0) post_a start) = [EvFs (CallStat "/a")]) /\
  (data <$> nodes (fs (resourcePostPutHandler (env 0) put_a start)) !! "/a"
   = Some "fresh" /\
   Header (resp (resourcePostPutHandler (env 0) put_a start)) !! "ETag"
   = Some [etag_of {| ModTime := 9; Size := 5 |}] /\
   Status (resp (resourcePostPutHandler (env 0) put_a start)) = Some StatusOK) /\
  (Header (resp (resourcePostPutHandler (env 0) post_a_override start)) !! "ETag"
   = Some [etag_of {| ModTime := 9; Size := 5 |}]).
Proof.
  assert (forall r, In r [post_a; put_a; post_a_override] ->
                    getResourceData (env 0) r apiResourcePrefix start
                    = (start, Some ("/a", everything))) as Hres.
  { intros r [<- | [<- | [<- | []]]]; run. }
  assert (Fs_Stat "/a" files = inl {| ModTime := 7; Size := 3 |}) as Hstat by run.
  split; [exact Hstat|]. split; [|split].
  - apply (proj1 (write_on_existing_path (env 0) post_a start start "/a" everything
                    _ eq_refl (Hres post_a ltac:(simpl; auto)) eq_refl Hstat));
      [reflexivity | reflexivity | discriminate].
  - destruct (proj2 (write_on_existing_path (env 0) put_a start start "/a" everything
                       _ eq_refl (Hres put_a ltac:(simpl; auto)) eq_refl Hstat)
                (or_intror (conj eq_refl eq_refl))) as [_ Hput].
    destruct (Hput (fst (openFile "/a" upload_flags perm_0775 files))
                   (fst (copy "/a" "fresh"
                           (fst (openFile "/a" upload_flags perm_0775 files))))
                   {| ModTime := 9; Size := 5 |}
                   ltac:(run) ltac:(run) ltac:(run))
      as (Hfs & Htag & Hstatus).
    split; [run|]. split; [exact Htag|].
    apply Hstatus; reflexivity.
  - assert (Values_Get (URL_Query post_a_override) "override" = "true")
      as Hoverride by run.
    destruct (proj2 (write_on_existing_path (env 0) post_a_override start start "/a"
                       everything _ eq_refl
                       (Hres post_a_override ltac:(simpl; auto)) eq_refl Hstat)
                (or_introl (conj eq_refl (conj eq_refl Hoverride)))) as [_ Hpost].
    apply (Hpost (fst (openFile "/a" upload_flags perm_0775 files))
                 (fst (copy "/a" "fresh"
                         (fst (openFile "/a" upload_flags perm_0775 files))))
                 {| ModTime := 9; Size := 5 |}
                 ltac:(run) ltac:(run) ltac:(run)).
Defined.

(** A create request with [expires=abc]. *)
Lemma malformed_expiry_is_internal_error_witness :
  Atoi "abc" = inr NumErrSyntax /\
  Status (resp (sharePostHandler (env 100) share_a_abc start))
  = Some StatusInternalServerError /\
  Status (resp (sharePostHandler (env 100) share_a_abc start))
  <> Some StatusBadRequest /\
  store (sharePostHandler (env 100) share_a_abc start) = no_links.
Proof.
  assert (getShareData (env 100) share_a_abc apiSharePrefix start
          = (start, Some "/srv/a")) as Hshare by run.
  assert (Values_Get (URL_Query share_a_abc) "expires" = "abc") as Hexpire by run.
  split; [reflexivity|].
  apply (malformed_expiry_is_internal_error (env 100) share_a_abc start start
           "/srv/a" NumErrSyntax eq_refl Hshare).
  - rewrite Hexpire. discriminate.
  - rewrite Hexpire. reflexivity.
Defined.

(** A copy of [/a] to [/b]: nothing appears at [/b]; and a rename
    selected by default goes to the [Runner] under the same name. *)
Lemma copy_is_a_successful_no_op_witness :
  Create (Perm everything) = true /\
  (fs (resourcePatchHandler (env 0) copy_a_to_b start) = files /\
   nodes (fs (resourcePatchHandler (env 0) copy_a_to_b start)) !! "/b" = None /\
   log (resourcePatchHandler (env 0) copy_a_to_b start)
   = [EvRun "action" "/a" "/b"; EvHook "before" "action" "/a" "/b";
      EvHook "after" "action" "/a" "/b"] /\
   Status (resp (resourcePatchHandler (env 0) copy_a_to_b start)) = Some StatusOK) /\
  log (resourcePatchHandler (env 0) rename_by_default start)
  = [EvRun "action" "/a" "/b"; EvHook "before" "action" "/a" "/b";
     EvFs (CallRename "/a" "/b"); EvHook "after" "action" "/a" "/b"].
Proof.
  assert (forall r, In r [copy_a_to_b; rename_by_default] ->
                    getResourceData (env 0) r apiResourcePrefix start
                    = (start, Some ("/a", everything)) /\
                    QueryUnescape (Values_Get (URL_Query r) "destination")
                    = inl "/b") as Hres.
  { intros r [<- | [<- | []]]; split; run. }
  assert (Values_Get (URL_Query copy_a_to_b) "action" = "copy") as Hcopy by run.
  assert (Values_Get (URL_Query rename_by_default) "action" = EmptyString)
    as Hdefault by run.
  split; [reflexivity|]. split.
  - destruct (Hres copy_a_to_b ltac:(simpl; auto)) as [Hdata Hdst].
    destruct (proj1 (copy_is_a_successful_no_op (env 0) copy_a_to_b start start
                       "/a" "/b" everything eq_refl Hdata Hdst
                       ltac:(discriminate) ltac:(discriminate))
                Hcopy eq_refl) as (_ & Hfs & _ & Hlog & Hstatus).
    split; [exact Hfs|]. split; [run|]. split; [exact Hlog|].
    apply Hstatus; reflexivity.
  - destruct (Hres rename_by_default ltac:(simpl; auto)) as [Hdata Hdst].
    apply (proj2 (copy_is_a_successful_no_op (env 0) rename_by_default start start
                    "/a" "/b" everything eq_refl Hdata Hdst
                    ltac:(discriminate) ltac:(discriminate))).
    + rewrite Hdefault. discriminate.
    + right. reflexivity.
Defined.

(** A link for ten minutes at the instant 100, and a permanent link on a
    store that holds none. *)
Lemma created_link_expiry_witness :
  Atoi "10" = inl 10 /\
  in_int64 (unit_of "minutes" * 10) /\
  (Status (resp (sharePostHandler (env 100) share_a_10_minutes start))
   = Some StatusOK /\
   Written (resp (sharePostHandler (env 100) share_a_10_minutes start))
   = [JSONLink (issued true (100 + 10 * Minute))] /\
   links (store (sharePostHandler (env 100) share_a_10_minutes start))
   = [issued true (100 + 10 * Minute)]) /\
  (Written (resp (sharePostHandler (env 100) share_a start))
   = [JSONLink (issued false zeroTime)] /\
   links (store (sharePostHandler (env 100) share_a start))
   = [issued false zeroTime]).
Proof.
  assert (forall r, In r [share_a_10_minutes; share_a] ->
                    getShareData (env 100) r apiSharePrefix start
                    = (start, Some "/srv/a")) as Hshare.
  { intros r [<- | [<- | []]]; run. }
  assert (Values_Get (URL_Query share_a_10_minutes) "expires" = "10")
    as Hexpire by run.
  assert (Values_Get (URL_Query share_a_10_minutes) "unit" = "minutes")
    as Hunit by run.
  assert (in_int64 (unit_of "minutes" * 10)) as Hrange.
  { unfold in_int64. vm_compute. split; discriminate. }
  split; [reflexivity|]. split; [exact Hrange|]. split.
  - pose proof (proj1 (created_link_expiry (env 100) share_a_10_minutes start start
                         "/srv/a" _ eq_refl
                         (Hshare share_a_10_minutes ltac:(simpl; auto)) eq_refl))
      as Hlink.
    rewrite Hexpire, Hunit in Hlink.
    destruct (Hlink 10 (holding [issued true (100 + 10 * Minute)])
                ltac:(discriminate) eq_refl ltac:(run))
      as (Hstatus & Hwritten & Hstore & Hdate).
    split; [exact Hstatus|]. split.
    + rewrite Hwritten. run.
    + rewrite Hstore. reflexivity.
  - pose proof (proj2 (created_link_expiry (env 100) share_a start start
                         "/srv/a" _ eq_refl
                         (Hshare share_a ltac:(simpl; auto)) eq_refl))
      as Hlink.
    destruct (Hlink ErrNotExist (holding [issued false zeroTime])
                ltac:(run) ltac:(run) ltac:(run))
      as (_ & Hwritten & Hstore).
    split.
    + rewrite Hwritten. run.
    + rewrite Hstore. reflexivity.
Defined.

(** The checksums [unsupported] and [sha1] of the file [/a]. *)
Lemma checksum_response_witness :
  NewFileInfo everything "/a" files = inl (file_a []) /\
  (Status (resp (resourceGetHandler (env 0) unsupported_of_a start))
   = Some StatusBadRequest /\
   Written (resp (resourceGetHandler (env 0) unsupported_of_a start))
   = [StatusLine StatusBadRequest]) /\
  (Status (resp (resourceGetHandler (env 0) sha1_of_a start)) = Some StatusOK /\
   Written (resp (resourceGetHandler (env 0) sha1_of_a start))
   = [JSONFile (set_Content (file_a [("sha1", "sha1:3")]) EmptyString)]).
Proof.
  assert (forall r, In r [unsupported_of_a; sha1_of_a] ->
                    getResourceData (env 0) r apiResourcePrefix start
                    = (start, Some ("/a", everything))) as Hres.
  { intros r [<- | [<- | []]]; run. }
  assert (Values_Get (URL_Query unsupported_of_a) "checksum" = "unsupported")
    as Hunsupported by run.
  assert (Values_Get (URL_Query sha1_of_a) "checksum" = "sha1") as Hsha1 by run.
  assert (NewFileInfo everything "/a" files = inl (file_a [])) as Hnew by run.
  split; [exact Hnew|]. split.
  - apply (proj1 (checksum_response (env 0) unsupported_of_a start start "/a"
                    everything (file_a []) (file_a []) (Some ErrInvalidOption)
                    eq_refl (Hres unsupported_of_a ltac:(simpl; auto)) Hnew eq_refl
                    ltac:(rewrite Hunsupported; discriminate)
                    ltac:(rewrite Hunsupported; run))).
    reflexivity.
  - destruct (proj2 (checksum_response (env 0) sha1_of_a start start "/a"
                       everything (file_a []) (file_a [("sha1", "sha1:3")]) None
                       eq_refl (Hres sha1_of_a ltac:(simpl; auto)) Hnew eq_refl
                       ltac:(rewrite Hsha1; discriminate)
                       ltac:(rewrite Hsha1; run)) eq_refl)
      as (Hstatus & Hwritten & _).
    split; [exact Hstatus | exact Hwritten].
Defined.

End Witnesses.

(** * Further properties of the handlers *)

(** ** Strings *)

Section Strings.
Import GoStrings.

Lemma app_string_nil (t : string) : EmptyString +:+ t = t.
Proof. reflexivity. Qed.

Lemma app_string_cons (c : ascii) (s t : string) :
  String c s +:+ t = String c (s +:+ t).
Proof. reflexivity. Qed.

Lemma substring_0_length (t : string) : String.substring 0 (String.length t) t = t.
Proof. induction t as [|c t IH]; simpl; [reflexivity | now rewrite IH]. Qed.

Lemma substring_0_app (s t : string) :
  String.substring 0 (String.length s) (s +:+ t) = s.
Proof.
  induction s as [|c s IH].
  - rewrite app_string_nil. now destruct t.
  - rewrite app_string_cons. simpl. now rewrite IH.
Qed.

Lemma substring_length_app (s t : string) :
  String.substring (String.length s) (String.length t) (s +:+ t) = t.
Proof.
  induction s as [|c s IH].
  - rewrite app_string_nil. apply substring_0_length.
  - rewrite app_string_cons. simpl. exact IH.
Qed.

Lemma length_app_string (s t : string) :
  String.length (s +:+ t) = (String.length s + String.length t)%nat.
Proof.
  induction s as [|c s IH]; [reflexivity|].
  rewrite app_string_cons. simpl. now rewrite IH.
Qed.

Lemma HasPrefix_app (p s : string) : HasPrefix (p +:+ s) p = true.
Proof.
  induction p as [|c p IH]; [now destruct s|].
  rewrite app_string_cons. simpl. now rewrite Ascii.eqb_refl, IH.
Qed.

Lemma TrimPrefix_app (p s : string) : TrimPrefix (p +:+ s) p = s.
Proof.
  unfold TrimPrefix. rewrite HasPrefix_app, length_app_string.
  replace (String.length p + String.length s - String.length p)%nat
    with (String.length s) by lia.
  apply substring_length_app.
Qed.

Lemma HasSuffix_app (s t : string) : HasSuffix (s +:+ t) t = true.
Proof.
  unfold HasSuffix. rewrite length_app_string.
  replace (String.length s + String.length t - String.length t)%nat
    with (String.length s) by lia.
  rewrite substring_length_app, String.eqb_refl, andb_true_r.
  apply Nat.leb_le. lia.
Qed.

Lemma TrimSuffix_app (s t : string) : TrimSuffix (s +:+ t) t = s.
Proof.
  unfold TrimSuffix. rewrite HasSuffix_app, length_app_string.
  replace (String.length s + String.length t - String.length t)%nat
    with (String.length s) by lia.
  apply substring_0_app.
Qed.

Lemma TrimSuffix_without (s t : string) : HasSuffix s t = false -> TrimSuffix s t = s.
Proof. unfold TrimSuffix. now intros ->. Qed.

Lemma TrimPrefix_without (s p : string) : HasPrefix s p = false -> TrimPrefix s p = s.
Proof. unfold TrimPrefix. now intros ->. Qed.

Lemma app_string_assoc (s t u : string) : (s +:+ t) +:+ u = s +:+ t +:+ u.
Proof.
  induction s as [|c s IH]; [reflexivity|].
  rewrite !app_string_cons. now rewrite IH.
Qed.

End Strings.

(** ** Resolution and authorization *)

Section Authorization.
Context {FS ST : Type} `{!AferoFs FS} `{!ShareStore ST} `{!TypesPkg FS}.
Variable e : Env.
Local Abbreviation World := (World FS ST).

Import GoStrings GoUrl.

(** [getResourceData] for a user that resolves: the rules decide on the
    resolved path. *)
Lemma getResourceData_resolved (r : Request) (prefix : string) (w : World)
    (user : User) :
  Users_Get e (UserID r) = inl user ->
  getResourceData e r prefix w
  = if IsAllowed user (resolved_path r prefix)
    then (w, Some (resolved_path r prefix, user))
    else (httpErr StatusForbidden None w, None).
Proof.
  intros Huser. unfold getResourceData, getUser. rewrite Huser.
  fold (resolved_path r prefix).
  now destruct (IsAllowed user (resolved_path r prefix)).
Qed.

(** Without the share capability [getShareData] refuses, on any path. *)
Lemma getShareData_refused (r : Request) (prefix : string) (w : World)
    (user : User) :
  Users_Get e (UserID r) = inl user ->
  IsAllowed user (resolved_path r apiSharePrefix) = false
  \/ Share (Perm user) = false ->
  getShareData e r prefix w = (httpErr StatusForbidden None w, None).
Proof.
  intros Huser Hwhy. unfold getShareData.
  rewrite (getResourceData_resolved r apiSharePrefix w user Huser).
  destruct (IsAllowed user (resolved_path r apiSharePrefix)); [|reflexivity].
  destruct Hwhy as [Hrule | Hshare]; [discriminate|]. now rewrite Hshare.
Qed.

(** X1. A path the user's rules deny is refused by every handler that
    resolves a path: Forbidden, and neither the filesystem, nor the store,
    nor any collaborator is reached. *)
Theorem rules_deny_every_handler (r : Request) (w : World) (user : User) :
  Status (resp w) = None ->
  Users_Get e (UserID r) = inl user ->
  (IsAllowed user (resolved_path r apiResourcePrefix) = false ->
   refused_untouched StatusForbidden w (resourceGetHandler e r w) /\
   refused_untouched StatusForbidden w (resourceDeleteHandler e r w) /\
   refused_untouched StatusForbidden w (resourcePostPutHandler e r w) /\
   refused_untouched StatusForbidden w (resourcePatchHandler e r w)) /\
  (IsAllowed user (resolved_path r apiSharePrefix) = false ->
   returned (shareGetHandler e r w) = true /\
   refused_untouched StatusForbidden w (world_of (shareGetHandler e r w)) /\
   refused_untouched StatusForbidden w (sharePostHandler e r w)).
Proof.
  intros Hfresh Huser. split; intros Hdenied.
  - unfold resourceGetHandler, resourceDeleteHandler, resourcePostPutHandler,
      resourcePatchHandler.
    rewrite (getResourceData_resolved r apiResourcePrefix w user Huser), Hdenied.
    repeat split; now apply httpErr_fresh.
  - unfold shareGetHandler, sharePostHandler.
    rewrite (getShareData_refused r apiSharePrefix w user Huser (or_introl Hdenied)).
    simpl. repeat split; now apply httpErr_fresh.
Qed.

(** X2. Without the share capability the three share handlers answer
    Forbidden on any path or token, and the store is not reached. *)
Theorem share_capability_required (r : Request) (w : World) (user : User) :
  Status (resp w) = None ->
  Users_Get e (UserID r) = inl user ->
  Share (Perm user) = false ->
  returned (shareGetHandler e r w) = true /\
  refused_untouched StatusForbidden w (world_of (shareGetHandler e r w)) /\
  refused_untouched StatusForbidden w (sharePostHandler e r w) /\
  refused_untouched StatusForbidden w (shareDeleteHandler e r w).
Proof.
  intros Hfresh Huser Hshare.
  unfold shareGetHandler, sharePostHandler, shareDeleteHandler, getUser.
  rewrite (getShareData_refused r apiSharePrefix w user Huser (or_intror Hshare)).
  rewrite Huser, Hshare. simpl. repeat split; now apply httpErr_fresh.
Qed.

(** X3. The path a request resolves to is never empty, and one trailing
    separator makes no difference: the prefix followed by [p], with or
    without a separator after it, resolves to [p], or to the root when
    [p] is empty. *)
Theorem trailing_separator_is_dropped (r : Request) (prefix p : string)
    (w : World) (user : User) :
  Users_Get e (UserID r) = inl user ->
  (forall (w1 : World) (path : string) (user1 : User),
      getResourceData e r prefix w = (w1, Some (path, user1)) ->
      path <> EmptyString) /\
  (URL_Path r = prefix +:+ p \/ URL_Path r = prefix +:+ p +:+ "/" ->
   HasSuffix p "/" = false ->
   IsAllowed user (if String.eqb p EmptyString then "/" else p) = true ->
   getResourceData e r prefix w
   = (w, Some (if String.eqb p EmptyString then "/" else p, user))).
Proof.
  intros Huser. rewrite (getResourceData_resolved r prefix w user Huser). split.
  - intros w1 path user1.
    destruct (IsAllowed user (resolved_path r prefix)); [|discriminate].
    intros Heq. injection Heq as _ <- _. unfold resolved_path.
    destruct (String.eqb _ EmptyString) eqn:Hempty; [discriminate|].
    now apply String.eqb_neq.
  - intros Hurl Hp Hallowed.
    assert (resolved_path r prefix = if String.eqb p EmptyString then "/" else p)
      as ->.
    { unfold resolved_path.
      destruct Hurl as [-> | ->]; rewrite TrimPrefix_app.
      - now rewrite (TrimSuffix_without p "/" Hp).
      - now rewrite TrimSuffix_app. }
    now rewrite Hallowed.
Qed.

End Authorization.

(** ** Deleting, writing, reading and moving *)

Section ResourceOperations.
Context {FS ST : Type} `{!AferoFs FS} `{!ShareStore ST} `{!TypesPkg FS}.
Variable e : Env.
Local Abbreviation World := (World FS ST).

Import GoStrings GoUrl.

Local Ltac finish :=
  match goal with
  | |- context [match ?x with Some _ => httpErr _ _ _ | None => _ end] => destruct x
  end.

(** X4. A DELETE by a user without the delete capability is refused:
    Forbidden, and nothing is removed or called. *)
Theorem delete_requires_capability (r : Request) (w w1 : World) (path : string)
    (user : User) :
  Status (resp w) = None ->
  getResourceData e r apiResourcePrefix w = (w1, Some (path, user)) ->
  Delete (Perm user) = false ->
  refused_untouched StatusForbidden w (resourceDeleteHandler e r w).
Proof.
  intros Hfresh Hres Hperm.
  destruct (getResourceData_Some e _ _ _ _ _ _ Hres) as [-> _].
  unfold resourceDeleteHandler. rewrite Hres, Hperm, orb_true_r.
  now apply httpErr_fresh.
Qed.

(** X5. An authorized DELETE of a path other than the root removes the
    path with [RemoveAll], once, through the [Runner] under the name
    ["delete"] with an empty destination.  When the removal fails the
    response carries the status of its error and is never a success; when
    it succeeds and no hook fails the response is 200 with an empty
    body. *)
Theorem delete_runs_RemoveAll (r : Request) (w w1 : World) (path : string)
    (user : User) :
  Status (resp w) = None ->
  getResourceData e r apiResourcePrefix w = (w1, Some (path, user)) ->
  path <> "/" ->
  Delete (Perm user) = true ->
  fs (resourceDeleteHandler e r w) = fst (Fs_RemoveAll path (fs w)) /\
  store (resourceDeleteHandler e r w) = store w /\
  log (resourceDeleteHandler e r w)
  = (log w ++ [EvRun "delete" path EmptyString;
               EvHook "before" "delete" path EmptyString;
               EvFs (CallRemoveAll path);
               EvHook "after" "delete" path EmptyString])%list /\
  (forall err : Err,
      snd (Fs_RemoveAll path (fs w)) = Some err ->
      Status (resp (resourceDeleteHandler e r w)) = Some (httpFsErr (Some err)) /\
      httpFsErr (Some err) <> StatusOK) /\
  (snd (Fs_RemoveAll path (fs w)) = None ->
   Runner_hook e "before" "delete" path EmptyString user None = None ->
   Runner_hook e "after" "delete" path EmptyString user None = None ->
   Status (resp (resourceDeleteHandler e r w)) = Some StatusOK /\
   Written (resp (resourceDeleteHandler e r w)) = Written (resp w)).
Proof.
  intros Hfresh Hres Hpath Hperm.
  destruct (getResourceData_Some e _ _ _ _ _ _ Hres) as [-> _].
  unfold resourceDeleteHandler. rewrite Hres, Hperm.
  rewrite (proj2 (String.eqb_neq _ _) Hpath). simpl.
  unfold Runner_Run, user_Fs_RemoveAll. simpl.
  destruct (Fs_RemoveAll path (fs w)) as [f err]. simpl.
  split; [|split; [|split; [|split]]].
  - finish; now autorewrite with frame.
  - finish; now autorewrite with frame.
  - finish; autorewrite with frame; simpl; now rewrite <- !app_assoc.
  - intros err' ->. autorewrite with frame. simpl. rewrite Hfresh.
    split; [reflexivity|]. destruct err'; discriminate.
  - intros -> -> ->. autorewrite with frame. simpl. now rewrite Hfresh.
Qed.

(** X6. A write is refused before anything else is looked at when the
    capability of its method is missing: POST needs [create], PUT needs
    [modify], for a file as for a directory. *)
Theorem write_requires_capability (r : Request) (w w1 : World) (path : string)
    (user : User) :
  Status (resp w) = None ->
  getResourceData e r apiResourcePrefix w = (w1, Some (path, user)) ->
  Method r = MethodPost /\ Create (Perm user) = false
  \/ Method r = MethodPut /\ Modify (Perm user) = false ->
  refused_untouched StatusForbidden w (resourcePostPutHandler e r w).
Proof.
  intros Hfresh Hres Hwhy.
  destruct (getResourceData_Some e _ _ _ _ _ _ Hres) as [-> _].
  unfold resourcePostPutHandler. rewrite Hres.
  destruct Hwhy as [[-> ->] | [-> ->]]; simpl.
  - now apply httpErr_fresh.
  - rewrite andb_false_r. now apply httpErr_fresh.
Qed.

(** X7. A write whose URL path ends with a separator is about a
    directory: a PUT is answered Method Not Allowed and touches nothing;
    a POST calls [MkdirAll] with the mode 0775 directly, not through the
    [Runner], so no hook fires, and the response carries the status of
    its outcome. *)
Theorem directory_requests (r : Request) (w w1 : World) (path : string)
    (user : User) :
  Status (resp w) = None ->
  getResourceData e r apiResourcePrefix w = (w1, Some (path, user)) ->
  HasSuffix (URL_Path r) "/" = true ->
  (Method r = MethodPut -> Modify (Perm user) = true ->
   refused_untouched StatusMethodNotAllowed w (resourcePostPutHandler e r w)) /\
  (Method r = MethodPost -> Create (Perm user) = true ->
   fs (resourcePostPutHandler e r w) = fst (Fs_MkdirAll path perm_0775 (fs w)) /\
   log (resourcePostPutHandler e r w)
   = (log w ++ [EvFs (CallMkdirAll path perm_0775)])%list /\
   Status (resp (resourcePostPutHandler e r w))
   = Some (httpFsErr (snd (Fs_MkdirAll path perm_0775 (fs w))))).
Proof.
  intros Hfresh Hres Hdir.
  destruct (getResourceData_Some e _ _ _ _ _ _ Hres) as [-> _].
  unfold resourcePostPutHandler. rewrite Hres, Hdir. split.
  - intros -> ->. simpl. rewrite andb_false_r. now apply httpErr_fresh.
  - intros -> ->. simpl. rewrite andb_false_r. unfold user_Fs_MkdirAll.
    destruct (Fs_MkdirAll path perm_0775 (fs w)) as [f err].
    autorewrite with frame. simpl. now rewrite Hfresh.
Qed.

(** X8. [upload] closes the file it opened on every way out, and only
    then: when the open fails nothing else is called; when it succeeds the
    last call is the one [Close], whatever the copy and the stat did.  A
    failed upload leaves the response as it was: the tag is set on
    success only. *)
Theorem upload_closes_what_it_opens (r : Request) (path : string) (w : World) :
  (forall (fs1 : FS) (err : Err),
      Fs_OpenFile path upload_flags perm_0775 (fs w) = (fs1, Some err) ->
      snd (upload r path w) = Some err /\
      fs (fst (upload r path w)) = fs1 /\
      log (fst (upload r path w))
      = (log w ++ [EvFs (CallOpenFile path upload_flags perm_0775)])%list) /\
  (forall fs1 : FS,
      Fs_OpenFile path upload_flags perm_0775 (fs w) = (fs1, None) ->
      exists middle : list Event,
        log (fst (upload r path w))
        = (log w ++ EvFs (CallOpenFile path upload_flags perm_0775) :: middle
                 ++ [EvFs (CallClose path)])%list /\
        ~ In (EvFs (CallClose path)) middle) /\
  (snd (upload r path w) <> None -> resp (fst (upload r path w)) = resp w).
Proof.
  unfold upload, user_Fs_OpenFile. fold upload_flags.
  destruct (Fs_OpenFile path upload_flags perm_0775 (fs w)) as [fs1 [err|]].
  - split; [|split].
    + intros fs0 err0 Heq. injection Heq as <- <-. simpl. auto.
    + intros fs0 Heq. discriminate.
    + reflexivity.
  - unfold file_Copy. simpl.
    destruct (File_Copy path (Body r) fs1) as [fs2 [err|]].
    + split; [intros ? ? Heq; discriminate|]. split; [|reflexivity].
      intros _ _. exists [EvFs (CallCopy path (Body r))]. simpl.
      rewrite <- !app_assoc. split; [reflexivity|].
      intros [Heq | []]. discriminate.
    + unfold file_Stat. simpl.
      destruct (File_Stat path fs2) as [info|err]; simpl.
      * split; [intros ? ? Heq; discriminate|]. split; [|congruence].
        intros _ _.
        exists [EvFs (CallCopy path (Body r)); EvFs (CallFileStat path)].
        rewrite <- !app_assoc. split; [reflexivity|].
        intros [Heq | [Heq | []]]; discriminate.
      * split; [intros ? ? Heq; discriminate|]. split; [|reflexivity].
        intros _ _.
        exists [EvFs (CallCopy path (Body r)); EvFs (CallFileStat path)].
        rewrite <- !app_assoc. split; [reflexivity|].
        intros [Heq | [Heq | []]]; discriminate.
Qed.

(** X9. A POST of a file without [override=true] goes on to the upload
    whenever [Stat] fails on the target, with any error: after the [Stat]
    the [Runner] is called under the name ["upload"] and the file is
    opened with the truncating flags. *)
Theorem post_on_absent_path_uploads (r : Request) (w w1 : World) (path : string)
    (user : User) (err : Err) :
  getResourceData e r apiResourcePrefix w = (w1, Some (path, user)) ->
  Method r = MethodPost ->
  Create (Perm user) = true ->
  HasSuffix (URL_Path r) "/" = false ->
  Values_Get (URL_Query r) "override" <> "true" ->
  Fs_Stat path (fs w) = inr err ->
  exists tail : list Event,
    log (resourcePostPutHandler e r w)
    = (log w ++ EvFs (CallStat path)
             :: EvRun "upload" path EmptyString
             :: EvHook "before" "upload" path EmptyString
             :: EvFs (CallOpenFile path upload_flags perm_0775) :: tail)%list.
Proof.
  intros Hres Hpost Hcreate Hfile Hoverride Hstat.
  destruct (getResourceData_Some e _ _ _ _ _ _ Hres) as [-> _].
  unfold resourcePostPutHandler. rewrite Hres, Hpost, Hcreate, Hfile.
  rewrite (proj2 (String.eqb_neq _ _) Hoverride). simpl.
  rewrite andb_false_r. unfold user_Fs_Stat. rewrite Hstat.
  unfold Runner_Run.
  destruct (upload_opens r path
              (emit (EvHook "before" "upload" path EmptyString)
                 (emit (EvRun "upload" path EmptyString)
                    (emit (EvFs (CallStat path)) w))))
    as [tail Htail].
  destruct (upload r path _) as [w2 err2]. simpl in Htail.
  exists (tail ++ [EvHook "after" "upload" path EmptyString])%list.
  finish; autorewrite with frame; simpl; rewrite Htail;
    rewrite <- !app_assoc; reflexivity.
Qed.

End ResourceOperations.

Section Reading.
Context {FS ST : Type} `{!AferoFs FS} `{!ShareStore ST} `{!TypesPkg FS}.
Variable e : Env.
Local Abbreviation World := (World FS ST).

Import GoStrings GoUrl.

(** X10. When [NewFileInfo] fails, a read answers the status of the
    error (Not Found for a missing file, Forbidden for a permission
    error, never a success) and nothing but the status line; nothing else
    is called. *)
Theorem read_reports_filesystem_error (r : Request) (w w1 : World) (path : string)
    (user : User) (err : Err) :
  Status (resp w) = None ->
  getResourceData e r apiResourcePrefix w = (w1, Some (path, user)) ->
  NewFileInfo user path (fs w) = inr err ->
  Status (resp (resourceGetHandler e r w)) = Some (httpFsErr (Some err)) /\
  httpFsErr (Some err) <> StatusOK /\
  (err = OsErrNotExist -> httpFsErr (Some err) = StatusNotFound) /\
  (err = OsErrPermission -> httpFsErr (Some err) = StatusForbidden) /\
  Written (resp (resourceGetHandler e r w))
  = (Written (resp w) ++ [StatusLine (httpFsErr (Some err))])%list /\
  fs (resourceGetHandler e r w) = fs w /\
  log (resourceGetHandler e r w) = (log w ++ [EvFs (CallNewFileInfo path)])%list.
Proof.
  intros Hfresh Hres Hnew.
  destruct (getResourceData_Some e _ _ _ _ _ _ Hres) as [-> _].
  unfold resourceGetHandler, types_NewFileInfo. rewrite Hres, Hnew.
  autorewrite with frame. simpl. rewrite Hfresh.
  repeat split; try (intros ->; reflexivity). destruct err; discriminate.
Qed.


(** X12. The preference tokens round-trip: when a listing is asked with
    a valid sort key and a valid order, the cookies it sets, sent back on
    a later request without parameters, select the same key and order,
    and that later request sets no cookie. *)
Theorem sort_preference_round_trip (r1 r2 : Request) (scope1 scope2 : string)
    (w1 w2 : World) :
  valid_sort (Values_Get (URL_Query r1) "sort") = true ->
  valid_order (Values_Get (URL_Query r1) "order") = true ->
  SetCookies (resp w1) = [] ->
  Values_Get (URL_Query r2) "sort" = EmptyString ->
  Values_Get (URL_Query r2) "order" = EmptyString ->
  Cookies r2 = sent_back (SetCookies (resp (fst (handleSortOrder r1 scope1 w1)))) ->
  handleSortOrder r2 scope2 w2
  = (w2, (Values_Get (URL_Query r1) "sort", Values_Get (URL_Query r1) "order", None)).
Proof.
  intros Hsort Horder Hnone Hs2 Ho2 Hcookies.
  destruct (handleSortOrder_result r1 scope1 w1) as (w' & Heq & Hset & _).
  rewrite Heq in Hcookies. simpl in Hcookies.
  rewrite Hset, Hnone, Hsort, Horder in Hcookies. simpl in Hcookies.
  unfold handleSortOrder, Request_Cookie.
  rewrite Hs2, Ho2, Hcookies. reflexivity.
Qed.

(** The first character of a string decides what [QueryUnescape] does. *)
Lemma QueryUnescape_cons (c : ascii) (rest : string) :
  QueryUnescape (String c rest)
  = if Ascii.eqb c "%" then
      match rest with
      | String a (String b rest') =>
          if ishex a && ishex b then
            match QueryUnescape rest' with
            | inl r => inl (String (ascii_of_N (16 * unhex a + unhex b)) r)
            | inr err => inr err
            end
          else inr (EscapeError (String "%" (String a (String b EmptyString))))
      | _ => inr (EscapeError (String "%" rest))
      end
    else
      match QueryUnescape rest with
      | inl r => inl (String (if Ascii.eqb c "+" then " "%char else c) r)
      | inr err => inr err
      end.
Proof.
  destruct c as [[] [] [] [] [] [] [] []]; try reflexivity;
    destruct rest as [|a [|b rest']]; reflexivity.
Qed.

(** [QueryUnescape] fails with an [EscapeError] only. *)
Lemma QueryUnescape_error (n : nat) :
  forall (s : string) (err : Err),
    (String.length s <= n)%nat ->
    QueryUnescape s = inr err -> exists t : string, err = EscapeError t.
Proof.
  induction n as [|n IH]; intros s err Hlen Herr.
  - destruct s; [discriminate | simpl in Hlen; lia].
  - destruct s as [|c rest]; [discriminate|].
    rewrite QueryUnescape_cons in Herr. simpl in Hlen.
    destruct (Ascii.eqb c "%").
    + destruct rest as [|a [|b rest']];
        try (injection Herr as <-; eauto; fail).
      destruct (ishex a && ishex b); [|injection Herr as <-; eauto].
      destruct (QueryUnescape rest') as [u|err'] eqn:Hrest; [discriminate|].
      injection Herr as <-. apply (IH rest'); [simpl in Hlen; lia | exact Hrest].
    + destruct (QueryUnescape rest) as [u|err'] eqn:Hrest; [discriminate|].
      injection Herr as <-. apply (IH rest); [lia | exact Hrest].
Qed.

(** X13. A PATCH whose destination does not unescape (a [%] that is not
    followed by two hexadecimal digits) is answered Internal Server Error
    before the root and the capabilities are looked at, and nothing is
    called. *)
Theorem malformed_destination_is_internal_error (r : Request) (w w1 : World)
    (src : string) (user : User) (err : Err) :
  Status (resp w) = None ->
  getResourceData e r apiResourcePrefix w = (w1, Some (src, user)) ->
  QueryUnescape (Values_Get (URL_Query r) "destination") = inr err ->
  refused_untouched StatusInternalServerError w (resourcePatchHandler e r w).
Proof.
  intros Hfresh Hres Hdst.
  destruct (getResourceData_Some e _ _ _ _ _ _ Hres) as [-> _].
  unfold resourcePatchHandler. rewrite Hres, Hdst.
  destruct (QueryUnescape_error _ _ _ (Nat.le_refl _) Hdst) as [t ->]. simpl.
  now apply httpErr_fresh.
Qed.

End Reading.

(** ** Share links: listing errors, deletion by token, creation failures *)

Section ShareOperations.
Context {FS ST : Type} `{!AferoFs FS} `{!ShareStore ST} `{!TypesPkg FS}.
Variable e : Env.
Local Abbreviation World := (World FS ST).

Import GoStrings GoUrl GoBase64 GoStrconv.

(** X14. Listing the links of a path the store knows nothing about
    ([ErrNotExist]) is a success with an empty list; any other failure of
    the lookup is an Internal Server Error.  In both cases the store is
    only read. *)
Theorem listing_when_lookup_fails (r : Request) (w w1 : World) (path : string)
    (err : Err) :
  Status (resp w) = None ->
  getShareData e r apiSharePrefix w = (w1, Some path) ->
  Share_GetByPath path (store w) = inr err ->
  returned (shareGetHandler e r w) = true /\
  store (world_of (shareGetHandler e r w)) = store w /\
  log (world_of (shareGetHandler e r w))
  = (log w ++ [EvStore (CallGetByPath path)])%list /\
  (err = ErrNotExist ->
   Status (resp (world_of (shareGetHandler e r w))) = Some StatusOK /\
   Written (resp (world_of (shareGetHandler e r w)))
   = (Written (resp w) ++ [JSONLinks []])%list) /\
  (err <> ErrNotExist ->
   Status (resp (world_of (shareGetHandler e r w)))
   = Some StatusInternalServerError /\
   Written (resp (world_of (shareGetHandler e r w)))
   = (Written (resp w) ++ [StatusLine StatusInternalServerError])%list).
Proof.
  intros Hfresh Hshare Hget.
  destruct (getShareData_Some e _ _ _ _ _ Hshare) as [-> _].
  unfold shareGetHandler. rewrite Hshare.
  unfold Store_Share_GetByPath. rewrite Hget.
  destruct err; simpl; unfold renderJSON; autorewrite with frame; simpl;
    rewrite Hfresh; repeat split; try congruence; intros; congruence.
Qed.

(** A string of at least one character ends like its tail. *)
Lemma HasSuffix_cons (c : ascii) (h : string) :
  h <> EmptyString -> HasSuffix (String c h) "/" = HasSuffix h "/".
Proof.
  intros Hh. destruct h as [|d h]; [congruence|].
  unfold HasSuffix. simpl. now rewrite !Nat.sub_0_r.
Qed.

(** X15. [shareDeleteHandler] deletes by the token that follows the
    prefix, one separator before it and one after it set aside: with an
    empty token the handler does nothing at all, not even answer; with a
    token it calls [Delete] on it once, answers nothing more when the
    deletion succeeds, and Internal Server Error when it fails. *)
Theorem unshare_by_token (r : Request) (w : World) (user : User) :
  Status (resp w) = None ->
  Users_Get e (UserID r) = inl user ->
  Share (Perm user) = true ->
  (token_of r = EmptyString -> shareDeleteHandler e r w = w) /\
  (token_of r <> EmptyString ->
   store (shareDeleteHandler e r w) = fst (Share_Delete (token_of r) (store w)) /\
   fs (shareDeleteHandler e r w) = fs w /\
   log (shareDeleteHandler e r w)
   = (log w ++ [EvStore (CallDelete (token_of r))])%list /\
   (snd (Share_Delete (token_of r) (store w)) = None ->
    resp (shareDeleteHandler e r w) = resp w) /\
   (snd (Share_Delete (token_of r) (store w)) <> None ->
    Status (resp (shareDeleteHandler e r w)) = Some StatusInternalServerError)) /\
  (forall h : string,
      URL_Path r = apiSharePrefix +:+ "/" +:+ h
      \/ URL_Path r = apiSharePrefix +:+ "/" +:+ h +:+ "/" ->
      HasSuffix h "/" = false ->
      token_of r = h).
Proof.
  intros Hfresh Huser Hshare.
  unfold shareDeleteHandler, getUser. rewrite Huser, Hshare. simpl.
  fold (token_of r). split; [|split].
  - now intros ->.
  - intros Htoken. rewrite (proj2 (String.eqb_neq _ _) Htoken).
    unfold Store_Share_Delete.
    destruct (Share_Delete (token_of r) (store w)) as [st [err|]];
      autorewrite with frame; simpl; rewrite ?Hfresh; repeat split; congruence.
  - intros h Hurl Hh. unfold token_of.
    destruct Hurl as [-> | ->]; rewrite TrimPrefix_app.
    + destruct h as [|c h]; [reflexivity|].
      change ("/" +:+ String c h) with (String "/" (String c h)).
      rewrite TrimSuffix_without by (now rewrite HasSuffix_cons).
      apply (TrimPrefix_app "/").
    + rewrite <- app_string_assoc, TrimSuffix_app. apply (TrimPrefix_app "/").
Qed.

(** X16. A create request that does not reuse a permanent link fails
    with Internal Server Error and nothing but the status line when the
    random source fails, in which case nothing is saved, and when the
    store cannot save. *)
Theorem create_failures (r : Request) (w w1 : World) (path : string) :
  Status (resp w) = None ->
  getShareData e r apiSharePrefix w = (w1, Some path) ->
  Values_Get (URL_Query r) "expires" <> EmptyString
  \/ (exists err : Err, Share_GetPermanent path (store w) = inr err) ->
  (forall err : Err,
      entropy e (draws w) = inr err ->
      Status (resp (sharePostHandler e r w)) = Some StatusInternalServerError /\
      Written (resp (sharePostHandler e r w))
      = (Written (resp w) ++ [StatusLine StatusInternalServerError])%list /\
      store (sharePostHandler e r w) = store w /\
      forall s : ShareLink,
        In (EvStore (CallSave s)) (log (sharePostHandler e r w)) ->
        In (EvStore (CallSave s)) (log w)) /\
  ((forall s : ShareLink, snd (Share_Save s (store w)) <> None) ->
   Status (resp (sharePostHandler e r w)) = Some StatusInternalServerError /\
   Written (resp (sharePostHandler e r w))
   = (Written (resp w) ++ [StatusLine StatusInternalServerError])%list).
Proof.
  intros Hfresh Hshare Hnew.
  destruct (getShareData_Some e _ _ _ _ _ Hshare) as [-> _].
  unfold sharePostHandler. rewrite Hshare.
  destruct (String.eqb (Values_Get (URL_Query r) "expires") EmptyString) eqn:Hexpire.
  - destruct Hnew as [Hnew | [err0 Hnew]];
      [apply String.eqb_eq in Hexpire; congruence|].
    unfold Store_Share_GetPermanent, rand_Read, Store_Share_Save.
    rewrite Hnew. simpl. split.
    + intros err ->. autorewrite with frame. simpl. rewrite Hfresh.
      repeat split. intros s Hin.
      apply in_app_or in Hin as [Hin | [Hin | []]]; [exact Hin | discriminate].
    + intros Hdown. destruct (entropy e (draws w)) as [bytes|err];
        [|autorewrite with frame; simpl; now rewrite Hfresh].
      match goal with
      | |- context [Share_Save ?s (store w)] =>
          specialize (Hdown s); destruct (Share_Save s (store w)) as [st' [err|]]
      end; [|simpl in Hdown; congruence].
      autorewrite with frame. simpl. now rewrite Hfresh.
  - unfold rand_Read, Store_Share_Save. simpl. split.
    + intros err ->. autorewrite with frame. simpl. rewrite Hfresh.
      repeat split. auto.
    + intros Hdown. destruct (entropy e (draws w)) as [bytes|err];
        [|autorewrite with frame; simpl; now rewrite Hfresh].
      destruct (Atoi (Values_Get (URL_Query r) "expires")) as [num|err]; simpl;
        [|autorewrite with frame; simpl; now rewrite Hfresh].
      match goal with
      | |- context [Share_Save ?s (store w)] =>
          specialize (Hdown s); destruct (Share_Save s (store w)) as [st' [err|]]
      end; [|simpl in Hdown; congruence].
      autorewrite with frame. simpl. now rewrite Hfresh.
Qed.

End ShareOperations.

(** ** The token of a created link *)

Section Token.
Context {FS ST : Type} `{!AferoFs FS} `{!ShareStore ST} `{!TypesPkg FS}.
Variable e : Env.
Local Abbreviation World := (World FS ST).

Import GoStrings GoUrl GoBase64 GoStrconv.

Lemma enc_url_safe (n : N) : (n < 64)%N -> url_safe (enc n) = true.
Proof.
  intros Hn.
  assert (forallb (fun k => url_safe (enc (N.of_nat k))) (seq 0 64) = true)
    as Hall by (vm_compute; reflexivity).
  rewrite forallb_forall in Hall.
  specialize (Hall (N.to_nat n)). rewrite N2Nat.id in Hall.
  apply Hall, in_seq. lia.
Qed.

(** Six bytes encode to eight characters of the alphabet: no padding. *)
Lemma EncodeToString_six (bytes : string) :
  String.length bytes = 6%nat ->
  String.length (EncodeToString bytes) = 8%nat /\
  forallb url_safe (list_ascii_of_string (EncodeToString bytes)) = true.
Proof.
  intros Hlen.
  destruct bytes as [|a [|b [|c [|d [|f [|g [|]]]]]]]; try discriminate.
  cbn [EncodeToString String.length list_ascii_of_string forallb].
  split; [reflexivity|].
  rewrite !enc_url_safe by (apply N.mod_lt; discriminate). reflexivity.
Qed.

Lemma getShareData_None (r : Request) (prefix : string) (w w1 : World) :
  getShareData e r prefix w = (w1, None) ->
  exists status : Z,
    Written (resp w1) = (Written (resp w) ++ [StatusLine status])%list.
Proof.
  unfold getShareData, getResourceData, getUser.
  destruct (Users_Get e (UserID r)) as [user|status]; simpl.
  - destruct (IsAllowed user _); simpl.
    + destruct (Share (Perm user)); simpl; [discriminate|].
      intros Heq. injection Heq as <-. eexists. apply Written_httpErr.
    + intros Heq. injection Heq as <-. eexists. apply Written_httpErr.
  - intros Heq. injection Heq as <-. eexists. apply Written_httpErr.
Qed.

(** A link in the answer of [sharePostHandler] carries the encoding of
    what the random source gave. *)
Lemma answered_link_hash (r : Request) (w : World) (s : ShareLink) :
  Written (resp (sharePostHandler e r w))
  = (Written (resp w) ++ [JSONLink s])%list ->
  exists bytes : string,
    entropy e (draws w) = inl bytes /\ Hash s = EncodeToString bytes.
Proof.
  unfold sharePostHandler.
  destruct (getShareData e r apiSharePrefix w) as [w1 [path|]] eqn:Hshare.
  2:{ destruct (getShareData_None _ _ _ _ Hshare) as [status ->].
      intros Heq. apply app_inv_head in Heq. discriminate. }
  destruct (getShareData_Some e _ _ _ _ _ Hshare) as [-> _].
  unfold Store_Share_GetPermanent, rand_Read, Store_Share_Save.
  destruct (String.eqb (Values_Get (URL_Query r) "expires") EmptyString); simpl.
  - destruct (Share_GetPermanent path (store w)) as [found|err]; simpl.
    + autorewrite with frame. simpl. intros Heq.
      apply app_inv_head in Heq. discriminate.
    + destruct (entropy e (draws w)) as [bytes|err'].
      * match goal with
        | |- context [Share_Save ?s0 (store w)] =>
            destruct (Share_Save s0 (store w)) as [st' [err'|]]
        end; unfold renderJSON; autorewrite with frame; simpl; intros Heq;
          apply app_inv_head in Heq; [discriminate|].
        injection Heq as <-. eauto.
      * autorewrite with frame. simpl. intros Heq.
        apply app_inv_head in Heq. discriminate.
  - destruct (entropy e (draws w)) as [bytes|err'].
    + destruct (Atoi (Values_Get (URL_Query r) "expires")) as [num|err']; simpl.
      * match goal with
        | |- context [Share_Save ?s0 (store w)] =>
            destruct (Share_Save s0 (store w)) as [st' [err'|]]
        end; unfold renderJSON; autorewrite with frame; simpl; intros Heq;
          apply app_inv_head in Heq; [discriminate|].
        injection Heq as <-. eauto.
      * autorewrite with frame. simpl. intros Heq.
        apply app_inv_head in Heq. discriminate.
    + autorewrite with frame. simpl. intros Heq.
      apply app_inv_head in Heq. discriminate.
Qed.

(** X17. The token of every link [sharePostHandler] answers is the
    URL-safe base64 of the bytes of the random source: when the source
    fills the six bytes asked for, the token has eight characters, all of
    the URL-safe alphabet, without padding. *)
Theorem created_token_shape (r : Request) (w : World) (s : ShareLink) :
  (forall bytes : string,
      entropy e (draws w) = inl bytes -> String.length bytes = 6%nat) ->
  Written (resp (sharePostHandler e r w))
  = (Written (resp w) ++ [JSONLink s])%list ->
  String.length (Hash s) = 8%nat /\
  forallb url_safe (list_ascii_of_string (Hash s)) = true.
Proof.
  intros Hsix Hanswer.
  destruct (answered_link_hash r w s Hanswer) as (bytes & Hbytes & ->).
  apply EncodeToString_six, Hsix, Hbytes.
Qed.

End Token.

(** ** What the listing loop deletes and lists *)

Section Listing.
Context {FS ST : Type} `{!AferoFs FS} `{!ShareStore ST} `{!TypesPkg FS}.
Variable e : Env.
Local Abbreviation World := (World FS ST).

Import GoStrings GoUrl.

(** [append] fills the cells of its result from the cells of the slice
    and from the elements appended. *)
Lemma append_cells (s : GoSlice.slice ShareLink) (back stored : list ShareLink) :
  GoSlice.array s ⊆ stored -> back ⊆ stored ->
  GoSlice.array (fst (GoSlice.append s back)) ⊆ stored.
Proof.
  intros Hs Hback. unfold GoSlice.append.
  destruct (_ <=? _)%nat; simpl; intros x Hx;
    repeat (apply elem_of_app in Hx as [Hx | Hx]).
  - apply Hs. now apply (subseteq_take (GoSlice.len s)).
  - now apply Hback.
  - apply Hs. eapply subseteq_drop, Hx.
  - apply Hs. now apply (subseteq_take (GoSlice.len s)).
  - now apply Hback.
Qed.

(** Whatever the loop does, and also when it panics: the calls it makes
    are deletions of stored links that had expired when they were read,
    the cells of the slice hold stored links, and the filesystem is left
    alone. *)
Lemma sweep_sound (stored : list ShareLink) (indices : list nat) :
  forall (backing : list ShareLink) (aliased : bool)
         (s : GoSlice.slice ShareLink) (w : World),
    backing ⊆ stored ->
    GoSlice.array s ⊆ stored ->
    exists evs : list Event,
      log (fst (world_of (sweep e indices backing aliased s w)))
      = (log w ++ evs)%list /\
      Forall (deletes_expired e stored) evs /\
      GoSlice.array (snd (world_of (sweep e indices backing aliased s w))) ⊆ stored /\
      fs (fst (world_of (sweep e indices backing aliased s w))) = fs w.
Proof.
  induction indices as [|i indices IH]; intros backing aliased s w Hbacking Hs.
  - exists []. simpl. rewrite app_nil_r. auto.
  - simpl. destruct (backing !! i) as [link|] eqn:Hlink.
    2:{ exists []. simpl. rewrite app_nil_r. auto. }
    assert (link ∈ stored) as Hstored
        by (apply Hbacking; eapply list_elem_of_lookup_2; eassumption).
    destruct (Expires link) eqn:Hexpires; [|now apply IH]. simpl.
    destruct (ExpireDate link <? clock e (ticks w)) eqn:Hdate.
    2:{ destruct (IH backing aliased s
                    {| resp := resp w; fs := fs w; store := store w; log := log w;
                       ticks := S (ticks w); draws := draws w |} Hbacking Hs)
          as (evs & Hlog & Hevs & Harray & Hfs).
        exists evs. auto. }
    assert (deletes_expired e stored (EvStore (CallDelete (Hash link)))) as Hdel.
    { exists link. split; [now apply list_elem_of_In|]. split; [reflexivity|].
      split; [exact Hexpires|]. exists (ticks w). now apply Z.ltb_lt. }
    unfold Store_Share_Delete. simpl.
    destruct (Share_Delete (Hash link) (store w)) as [st err].
    unfold GoSlice.upto, GoSlice.from.
    destruct (i <=? GoSlice.cap s)%nat;
      [|exists [EvStore (CallDelete (Hash link))]; simpl; auto].
    destruct (i + 1 <=? GoSlice.len s)%nat;
      [|exists [EvStore (CallDelete (Hash link))]; simpl; auto].
    match goal with
    | |- context [GoSlice.append ?front ?back] =>
        assert (GoSlice.array (fst (GoSlice.append front back)) ⊆ stored) as Hnew;
        [|destruct (GoSlice.append front back) as [s1 in_place]]
    end.
    { apply append_cells; simpl; [exact Hs|].
      intros x Hx. apply Hs.
      apply (subseteq_drop (i + 1)), (subseteq_take (GoSlice.len s - (i + 1))), Hx. }
    simpl in Hnew. simpl.
    match goal with
    | |- context [sweep e indices ?b ?a s1 ?w2] =>
        destruct (IH b a s1 w2) as (evs & Hlog & Hevs & Harray & Hfs);
        [destruct (aliased && in_place); assumption | exact Hnew |]
    end.
    exists (EvStore (CallDelete (Hash link)) :: evs).
    rewrite Hlog. simpl. rewrite <- app_assoc. auto.
Qed.

(** X18. The listing is sound, also when it panics: after the lookup the
    only calls it makes are deletions of stored links of the path that
    had expired when the loop read them, it never touches the
    filesystem, and every link it answers is one of the stored links. *)
Theorem listing_is_sound (r : Request) (w w1 : World) (path : string)
    (stored : list ShareLink) :
  getShareData e r apiSharePrefix w = (w1, Some path) ->
  Share_GetByPath path (store w) = inl stored ->
  exists evs : list Event,
    log (world_of (shareGetHandler e r w))
    = (log w ++ EvStore (CallGetByPath path) :: evs)%list /\
    Forall (deletes_expired e stored) evs /\
    fs (world_of (shareGetHandler e r w)) = fs w /\
    (returned (shareGetHandler e r w) = true ->
     exists listed : list ShareLink,
       Written (resp (world_of (shareGetHandler e r w)))
       = (Written (resp w) ++ [JSONLinks listed])%list /\
       forall l : ShareLink, In l listed -> In l stored).
Proof.
  intros Hshare Hget.
  destruct (getShareData_Some e _ _ _ _ _ Hshare) as [-> _].
  unfold shareGetHandler. rewrite Hshare.
  unfold Store_Share_GetByPath. rewrite Hget.
  set (s0 := GoSlice.of_list stored).
  set (w0 := emit (EvStore (CallGetByPath path)) w).
  destruct (sweep_sound stored (seq 0 (GoSlice.len s0)) (GoSlice.array s0) true s0 w0)
    as (evs & Hlog & Hevs & Harray & Hfs); [reflexivity | reflexivity |].
  pose proof (sweep_resp e (seq 0 (GoSlice.len s0)) (GoSlice.array s0) true s0 w0)
    as Hresp.
  exists evs.
  destruct (sweep e (seq 0 (GoSlice.len s0)) (GoSlice.array s0) true s0 w0)
    as [[w2 s2]|[w2 s2]]; simpl in *.
  - unfold renderJSON. autorewrite with frame. rewrite Hlog, Hresp.
    rewrite <- app_assoc. repeat split; auto.
    intros _. exists (GoSlice.to_list s2). split; [reflexivity|].
    intros l Hl. apply list_elem_of_In, Harray.
    apply list_elem_of_In in Hl. unfold GoSlice.to_list in Hl.
    now apply (subseteq_take (GoSlice.len s2)).
  - rewrite Hlog, <- app_assoc. repeat split; auto. discriminate.
Qed.

End Listing.

Section ExactListing.
Context {FS ST : Type} `{!AferoFs FS} `{!ShareStore ST} `{!TypesPkg FS}.
Variable e : Env.
Local Abbreviation World := (World FS ST).

Import GoStrings GoUrl.

(** The loop passes over fresh links without doing anything but reading
    the clock. *)
Lemma sweep_fresh_prefix (before after : list nat) :
  forall (backing : list ShareLink) (aliased : bool)
         (s : GoSlice.slice ShareLink) (w : World),
    (forall i : nat, In i before ->
                     exists l : ShareLink, backing !! i = Some l /\ fresh_link e l) ->
    exists w' : World,
      sweep e (before ++ after) backing aliased s w = sweep e after backing aliased s w' /\
      resp w' = resp w /\ fs w' = fs w /\ store w' = store w /\ log w' = log w.
Proof.
  induction before as [|i before IH]; intros backing aliased s w Hfresh.
  - exists w. auto.
  - destruct (Hfresh i (or_introl eq_refl)) as (l & Hl & Hfresh_l).
    assert (forall j, In j before ->
                      exists l0, backing !! j = Some l0 /\ fresh_link e l0) as Hrest
        by (intros j Hj; apply Hfresh; now right).
    simpl. rewrite Hl.
    destruct (Expires l) eqn:Hexpires; [|now apply IH]. simpl.
    destruct Hfresh_l as [Hnever | Hlater]; [congruence|].
    assert ((ExpireDate l <? clock e (ticks w)) = false) as ->
        by (apply Z.ltb_ge, Hlater).
    destruct (IH backing aliased s
                {| resp := resp w; fs := fs w; store := store w; log := log w;
                   ticks := S (ticks w); draws := draws w |} Hrest)
      as (w' & Heq & Hw').
    exists w'. auto.
Qed.

(** The turn of the loop on an expired link at index [i] of a slice that
    still lives in the array ranged over: the link is deleted and the
    cells after it move one place down. *)
Lemma sweep_expired_step (i : nat) (rest : list nat) (s : GoSlice.slice ShareLink)
    (w : World) (x : ShareLink) :
  GoSlice.array s !! i = Some x ->
  expired_link e x ->
  (i + 1 <= GoSlice.len s <= length (GoSlice.array s))%nat ->
  exists w' : World,
    sweep e (i :: rest) (GoSlice.array s) true s w
    = sweep e rest
        (take i (GoSlice.array s)
         ++ take (GoSlice.len s - (i + 1)) (drop (i + 1) (GoSlice.array s))
         ++ drop (GoSlice.len s - 1) (GoSlice.array s))
        true
        {| GoSlice.array :=
             take i (GoSlice.array s)
             ++ take (GoSlice.len s - (i + 1)) (drop (i + 1) (GoSlice.array s))
             ++ drop (GoSlice.len s - 1) (GoSlice.array s);
           GoSlice.len := GoSlice.len s - 1 |} w' /\
    resp w' = resp w /\ fs w' = fs w /\
    store w' = fst (Share_Delete (Hash x) (store w)) /\
    log w' = (log w ++ [EvStore (CallDelete (Hash x))])%list.
Proof.
  intros Hx [Hexpires Hdate] Hlen. simpl. rewrite Hx, Hexpires. simpl.
  assert ((ExpireDate x <? clock e (ticks w)) = true) as ->
      by (apply Z.ltb_lt, Hdate).
  unfold Store_Share_Delete. simpl.
  destruct (Share_Delete (Hash x) (store w)) as [st err].
  unfold GoSlice.upto, GoSlice.from, GoSlice.append, GoSlice.cap. simpl.
  assert ((i <=? length (GoSlice.array s))%nat = true) as ->
      by (apply Nat.leb_le; lia).
  assert ((i + 1 <=? GoSlice.len s)%nat = true) as -> by (apply Nat.leb_le; lia).
  assert (length (take (GoSlice.len s - (i + 1)) (drop (i + 1) (GoSlice.array s)))
          = (GoSlice.len s - (i + 1))%nat) as Hback
      by (rewrite length_take, length_drop; lia).
  rewrite Hback. cbn [GoSlice.len GoSlice.array].
  assert ((i + (GoSlice.len s - (i + 1)) <=? length (GoSlice.array s))%nat = true)
    as -> by (apply Nat.leb_le; lia).
  cbn [andb].
  replace (i + (GoSlice.len s - (i + 1)))%nat with (GoSlice.len s - 1)%nat by lia.
  eexists. split; [reflexivity|]. simpl. auto.
Qed.

(** X19. When none of the stored links of a path has expired, the
    listing answers exactly the stored links, in their order, and deletes
    nothing. *)
Theorem listing_without_expired_links (r : Request) (w w1 : World) (path : string)
    (stored : list ShareLink) :
  Status (resp w) = None ->
  getShareData e r apiSharePrefix w = (w1, Some path) ->
  Share_GetByPath path (store w) = inl stored ->
  Forall (fresh_link e) stored ->
  returned (shareGetHandler e r w) = true /\
  Status (resp (world_of (shareGetHandler e r w))) = Some StatusOK /\
  Written (resp (world_of (shareGetHandler e r w)))
  = (Written (resp w) ++ [JSONLinks stored])%list /\
  store (world_of (shareGetHandler e r w)) = store w /\
  log (world_of (shareGetHandler e r w))
  = (log w ++ [EvStore (CallGetByPath path)])%list.
Proof.
  intros Hstatus Hshare Hget Hfresh.
  destruct (getShareData_Some e _ _ _ _ _ Hshare) as [-> _].
  unfold shareGetHandler. rewrite Hshare.
  unfold Store_Share_GetByPath. rewrite Hget.
  destruct (sweep_fresh_prefix (seq 0 (length stored)) [] stored true
              (GoSlice.of_list stored) (emit (EvStore (CallGetByPath path)) w))
    as (w' & Heq & Hresp & _ & Hstore & Hlog).
  { intros i Hi. apply in_seq in Hi.
    destruct (lookup_lt_is_Some_2 stored i ltac:(lia)) as [l Hl].
    exists l. split; [exact Hl|].
    rewrite Forall_forall in Hfresh. eapply Hfresh, list_elem_of_lookup_2, Hl. }
  rewrite app_nil_r in Heq. simpl GoSlice.len. simpl GoSlice.array.
  rewrite Heq. simpl. unfold renderJSON, GoSlice.to_list. simpl.
  rewrite firstn_all. autorewrite with frame.
  rewrite Hresp, Hstore, Hlog. simpl. rewrite Hstatus. auto.
Qed.

(** X20. When exactly one of the stored links of a path has expired, the
    listing deletes that link, once, and answers the others in their
    order, wherever the expired link stands. *)
Theorem listing_with_one_expired_link (r : Request) (w w1 : World) (path : string)
    (before after : list ShareLink) (x : ShareLink) :
  Status (resp w) = None ->
  getShareData e r apiSharePrefix w = (w1, Some path) ->
  Share_GetByPath path (store w) = inl (before ++ x :: after)%list ->
  Forall (fresh_link e) before ->
  Forall (fresh_link e) after ->
  expired_link e x ->
  returned (shareGetHandler e r w) = true /\
  Status (resp (world_of (shareGetHandler e r w))) = Some StatusOK /\
  Written (resp (world_of (shareGetHandler e r w)))
  = (Written (resp w) ++ [JSONLinks (before ++ after)])%list /\
  store (world_of (shareGetHandler e r w)) = fst (Share_Delete (Hash x) (store w)) /\
  log (world_of (shareGetHandler e r w))
  = (log w ++ [EvStore (CallGetByPath path); EvStore (CallDelete (Hash x))])%list.
Proof.
  intros Hstatus Hshare Hget Hbefore Hafter Hx.
  destruct (getShareData_Some e _ _ _ _ _ Hshare) as [-> _].
  unfold shareGetHandler. rewrite Hshare.
  unfold Store_Share_GetByPath. rewrite Hget.
  set (stored := (before ++ x :: after)%list).
  set (i := length before).
  assert (length stored = (i + S (length after))%nat) as Hn
      by (unfold stored, i; rewrite length_app; reflexivity).
  simpl GoSlice.len. simpl GoSlice.array. rewrite Hn.
  rewrite seq_app. simpl seq.
  destruct (sweep_fresh_prefix (seq 0 i) (i :: seq (S i) (length after)) stored true
              (GoSlice.of_list stored) (emit (EvStore (CallGetByPath path)) w))
    as (wa & -> & Hresp_a & _ & Hstore_a & Hlog_a).
  { intros j Hj. apply in_seq in Hj.
    destruct (lookup_lt_is_Some_2 before j ltac:(unfold i in Hj; lia)) as [l Hl].
    exists l. split.
    - unfold stored. rewrite lookup_app_l by (unfold i in Hj; lia). exact Hl.
    - rewrite Forall_forall in Hbefore. eapply Hbefore, list_elem_of_lookup_2, Hl. }
  destruct (sweep_expired_step i (seq (S i) (length after)) (GoSlice.of_list stored)
              wa x) as (wb & Hstep & Hresp_b & _ & Hstore_b & Hlog_b).
  { simpl. unfold stored, i. now rewrite list_lookup_middle. }
  { exact Hx. }
  { simpl. lia. }
  simpl GoSlice.array in Hstep. rewrite Hstep. clear Hstep.
  simpl GoSlice.len. simpl GoSlice.array.
  assert (take i stored = before) as ->
      by (unfold stored, i; apply take_app_length).
  assert (take (length stored - (i + 1)) (drop (i + 1) stored) = after) as ->.
  { unfold stored, i. rewrite cons_middle, app_assoc, drop_app_length'
      by (rewrite length_app; simpl; lia).
    rewrite firstn_all2; [reflexivity|].
    rewrite !length_app. simpl. lia. }
  set (tail := drop (length stored - 1) stored).
  destruct (sweep_fresh_prefix (seq (S i) (length after)) []
              (before ++ after ++ tail)%list true
              {| GoSlice.array := (before ++ after ++ tail)%list;
                 GoSlice.len := (length stored - 1)%nat |} wb)
    as (wc & Heq & Hresp_c & _ & Hstore_c & Hlog_c).
  { intros j Hj. apply in_seq in Hj.
    assert (exists l, ((before ++ after ++ tail)%list) !! j = Some l /\ l ∈ after)
      as (l & Hl & Hin).
    { rewrite lookup_app_r by (fold i; lia). fold i.
      destruct (decide (j - i < length after)%nat) as [Hlt | Hge].
      - destruct (lookup_lt_is_Some_2 after (j - i) Hlt) as [l Hl].
        exists l. rewrite lookup_app_l by exact Hlt.
        split; [exact Hl | eapply list_elem_of_lookup_2, Hl].
      - assert (j - i = length after)%nat as Hk by lia.
        rewrite lookup_app_r by lia.
        unfold tail. rewrite lookup_drop.
        replace (length stored - 1 + (j - i - length after))%nat
          with (i + length after)%nat by lia.
        unfold stored. rewrite lookup_app_r by (fold i; lia). fold i.
        replace (i + length after - i)%nat with (S (length after - 1)) by lia.
        simpl.
        destruct (lookup_lt_is_Some_2 after (length after - 1) ltac:(lia)) as [l Hl].
        exists l. split; [exact Hl | eapply list_elem_of_lookup_2, Hl]. }
    exists l. split; [exact Hl|].
    rewrite Forall_forall in Hafter. now apply Hafter. }
  rewrite app_nil_r in Heq. rewrite Heq. simpl.
  unfold renderJSON, GoSlice.to_list. simpl.
  assert (take (length stored - 1) (before ++ after ++ tail)%list
          = (before ++ after)%list) as ->.
  { rewrite app_assoc. apply take_app_length'. rewrite length_app. fold i. lia. }
  autorewrite with frame.
  rewrite Hresp_c, Hresp_b, Hresp_a, Hstore_c, Hstore_b, Hstore_a,
    Hlog_c, Hlog_b, Hlog_a.
  simpl. rewrite Hstatus, <- app_assoc. auto.
Qed.

End ExactListing.

(** ** The further theorems at work on the examples *)

Section MoreWitnesses.
Import Mem Inputs MoreInputs GoInt GoUrl GoStrconv GoStrings.

Local Ltac run := vm_compute; reflexivity.

(** The user whose rules deny [/secret] reads, deletes, writes, moves and
    shares below it. *)
Lemma rules_deny_every_handler_witness :
  IsAllowed ruled "/secret/plan" = false /\
  (refused_untouched StatusForbidden start
     (resourceGetHandler (env_with 0 false) get_secret start) /\
   refused_untouched StatusForbidden start
     (resourceDeleteHandler (env_with 0 false) get_secret start) /\
   refused_untouched StatusForbidden start
     (resourcePostPutHandler (env_with 0 false) get_secret start) /\
   refused_untouched StatusForbidden start
     (resourcePatchHandler (env_with 0 false) get_secret start)) /\
  refused_untouched StatusForbidden start
    (sharePostHandler (env_with 0 false) share_secret start).
Proof.
  assert (Users_Get (env_with 0 false) (UserID get_secret) = inl ruled) as Huser by run.
  assert (Users_Get (env_with 0 false) (UserID share_secret) = inl ruled)
    as Huser' by run.
  assert (IsAllowed ruled (resolved_path get_secret apiResourcePrefix) = false)
    as Hdenied by run.
  assert (IsAllowed ruled (resolved_path share_secret apiSharePrefix) = false)
    as Hdenied' by run.
  split; [run|]. split.
  - exact (proj1 (rules_deny_every_handler (env_with 0 false) get_secret start ruled
                    eq_refl Huser) Hdenied).
  - apply (proj2 (rules_deny_every_handler (env_with 0 false) share_secret start ruled
                    eq_refl Huser') Hdenied').
Defined.

(** A user without the share capability lists, creates and deletes. *)
Lemma share_capability_required_witness :
  Share (Perm nothing) = false /\
  refused_untouched StatusForbidden start
    (world_of (shareGetHandler (env 0) list_links_denied start)) /\
  refused_untouched StatusForbidden start
    (sharePostHandler (env 0) list_links_denied start) /\
  refused_untouched StatusForbidden start
    (shareDeleteHandler (env 0) list_links_denied start).
Proof.
  assert (Users_Get (env 0) (UserID list_links_denied) = inl nothing) as Huser by run.
  split; [reflexivity|].
  apply (share_capability_required (env 0) list_links_denied start nothing
           eq_refl Huser eq_refl).
Defined.

(** [/api/resources/a/] resolves as [/api/resources/a] does. *)
Lemma trailing_separator_is_dropped_witness :
  getResourceData (env 0) get_a_slash apiResourcePrefix start
  = (start, Some ("/a", everything)) /\
  getResourceData (env 0) get_a apiResourcePrefix start
  = (start, Some ("/a", everything)).
Proof.
  assert (forall r, In r [get_a_slash; get_a] ->
                    Users_Get (env 0) (UserID r) = inl everything) as Huser.
  { intros r [<- | [<- | []]]; run. }
  assert (HasSuffix "/a" "/" = false) as Hp by run.
  assert (IsAllowed everything (if String.eqb "/a" EmptyString then "/" else "/a")
          = true) as Hallowed by run.
  split.
  - apply (proj2 (trailing_separator_is_dropped (env 0) get_a_slash apiResourcePrefix
                    "/a" start everything (Huser _ ltac:(simpl; auto))));
      [right; run | exact Hp | exact Hallowed].
  - apply (proj2 (trailing_separator_is_dropped (env 0) get_a apiResourcePrefix
                    "/a" start everything (Huser _ ltac:(simpl; auto))));
      [left; run | exact Hp | exact Hallowed].
Defined.

(** A user without the delete capability deletes [/a]. *)
Lemma delete_requires_capability_witness :
  Delete (Perm nothing) = false /\
  refused_untouched StatusForbidden start
    (resourceDeleteHandler (env 0) delete_a_denied start).
Proof.
  assert (getResourceData (env 0) delete_a_denied apiResourcePrefix start
          = (start, Some ("/a", nothing))) as Hres by run.
  split; [reflexivity|].
  apply (delete_requires_capability (env 0) delete_a_denied start start "/a" nothing
           eq_refl Hres eq_refl).
Defined.

(** A user holding every capability deletes [/a]: the file is gone. *)
Lemma delete_runs_RemoveAll_witness :
  nodes (fs (resourceDeleteHandler (env 0) delete_a start)) !! "/a" = None /\
  log (resourceDeleteHandler (env 0) delete_a start)
  = [EvRun "delete" "/a" EmptyString; EvHook "before" "delete" "/a" EmptyString;
     EvFs (CallRemoveAll "/a"); EvHook "after" "delete" "/a" EmptyString] /\
  Status (resp (resourceDeleteHandler (env 0) delete_a start)) = Some StatusOK /\
  Written (resp (resourceDeleteHandler (env 0) delete_a start)) = [].
Proof.
  assert (getResourceData (env 0) delete_a apiResourcePrefix start
          = (start, Some ("/a", everything))) as Hres by run.
  destruct (delete_runs_RemoveAll (env 0) delete_a start start "/a" everything
              eq_refl Hres ltac:(discriminate) eq_refl)
    as (Hfs & _ & Hlog & _ & Hok).
  split; [rewrite Hfs; run|]. split; [exact Hlog|].
  apply Hok; reflexivity.
Defined.

(** A user without capabilities posts and puts [/a]. *)
Lemma write_requires_capability_witness :
  refused_untouched StatusForbidden start
    (resourcePostPutHandler (env 0) post_a_denied start) /\
  refused_untouched StatusForbidden start
    (resourcePostPutHandler (env 0) put_a_denied start).
Proof.
  assert (forall r, In r [post_a_denied; put_a_denied] ->
                    getResourceData (env 0) r apiResourcePrefix start
                    = (start, Some ("/a", nothing))) as Hres.
  { intros r [<- | [<- | []]]; run. }
  split.
  - apply (write_requires_capability (env 0) post_a_denied start start "/a" nothing
             eq_refl (Hres _ ltac:(simpl; auto))).
    left. split; reflexivity.
  - apply (write_requires_capability (env 0) put_a_denied start start "/a" nothing
             eq_refl (Hres _ ltac:(simpl; auto))).
    right. split; reflexivity.
Defined.

(** A PUT and a POST on [/api/resources/new/]. *)
Lemma directory_requests_witness :
  refused_untouched StatusMethodNotAllowed start
    (resourcePostPutHandler (env 0) put_dir start) /\
  isDir <$> nodes (fs (resourcePostPutHandler (env 0) post_dir start)) !! "/new"
  = Some true /\
  log (resourcePostPutHandler (env 0) post_dir start)
  = [EvFs (CallMkdirAll "/new" perm_0775)] /\
  Status (resp (resourcePostPutHandler (env 0) post_dir start)) = Some StatusOK.
Proof.
  assert (forall r, In r [put_dir; post_dir] ->
                    getResourceData (env 0) r apiResourcePrefix start
                    = (start, Some ("/new", everything))
                    /\ HasSuffix (URL_Path r) "/" = true) as Hres.
  { intros r [<- | [<- | []]]; split; run. }
  split.
  - destruct (Hres put_dir ltac:(simpl; auto)) as [Hdata Hdir].
    apply (proj1 (directory_requests (env 0) put_dir start start "/new" everything
                    eq_refl Hdata Hdir)); reflexivity.
  - destruct (Hres post_dir ltac:(simpl; auto)) as [Hdata Hdir].
    destruct (proj2 (directory_requests (env 0) post_dir start start "/new" everything
                       eq_refl Hdata Hdir) eq_refl eq_refl)
      as (Hfs & Hlog & Hstatus).
    split; [rewrite Hfs; run|]. split; [exact Hlog|]. rewrite Hstatus. run.
Defined.

(** [upload] on the directory [/d], which cannot be opened as a file, and
    on the file [/a]. *)
Lemma upload_closes_what_it_opens_witness :
  (snd (upload put_a "/d" start) = Some (ErrOther "is a directory") /\
   log (fst (upload put_a "/d" start))
   = [EvFs (CallOpenFile "/d" upload_flags perm_0775)]) /\
  exists middle : list Event,
    log (fst (upload put_a "/a" start))
    = (EvFs (CallOpenFile "/a" upload_flags perm_0775)
         :: middle ++ [EvFs (CallClose "/a")])%list /\
    ~ In (EvFs (CallClose "/a")) middle.
Proof.
  split.
  - assert (Fs_OpenFile "/d" upload_flags perm_0775 (fs start)
            = (files, Some (ErrOther "is a directory"))) as Hopen by run.
    destruct (proj1 (upload_closes_what_it_opens put_a "/d" start) _ _ Hopen)
      as (Herr & _ & Hlog).
    split; [exact Herr | exact Hlog].
  - assert (exists fs1, Fs_OpenFile "/a" upload_flags perm_0775 (fs start)
                        = (fs1, None)) as [fs1 Hopen] by (eexists; run).
    exact (proj1 (proj2 (upload_closes_what_it_opens put_a "/a" start)) fs1 Hopen).
Defined.

(** A POST on [/new], which does not exist. *)
Lemma post_on_absent_path_uploads_witness :
  Fs_Stat "/new" files = inr OsErrNotExist /\
  (exists tail : list Event,
      log (resourcePostPutHandler (env 0) post_new start)
      = EvFs (CallStat "/new")
          :: EvRun "upload" "/new" EmptyString
          :: EvHook "before" "upload" "/new" EmptyString
          :: EvFs (CallOpenFile "/new" upload_flags perm_0775) :: tail) /\
  data <$> nodes (fs (resourcePostPutHandler (env 0) post_new start)) !! "/new"
  = Some "hello".
Proof.
  assert (getResourceData (env 0) post_new apiResourcePrefix start
          = (start, Some ("/new", everything))) as Hres by run.
  assert (Fs_Stat "/new" (fs start) = inr OsErrNotExist) as Hstat by run.
  split; [exact Hstat|]. split; [|run].
  apply (post_on_absent_path_uploads (env 0) post_new start start "/new" everything
           OsErrNotExist Hres eq_refl eq_refl); [run | | exact Hstat].
  assert (Values_Get (URL_Query post_new) "override" = EmptyString) as -> by run.
  discriminate.
Defined.

(** A read of [/nope], which does not exist. *)
Lemma read_reports_filesystem_error_witness :
  Status (resp (resourceGetHandler (env 0) get_missing start)) = Some StatusNotFound /\
  Written (resp (resourceGetHandler (env 0) get_missing start))
  = [StatusLine StatusNotFound].
Proof.
  assert (getResourceData (env 0) get_missing apiResourcePrefix start
          = (start, Some ("/nope", everything))) as Hres by run.
  assert (NewFileInfo everything "/nope" (fs start) = inr OsErrNotExist) as Hnew by run.
  destruct (read_reports_filesystem_error (env 0) get_missing start start "/nope"
              everything OsErrNotExist eq_refl Hres Hnew)
    as (Hstatus & _ & _ & _ & Hwritten & _).
  split; [exact Hstatus | exact Hwritten].
Defined.


(** A listing by size, descending, and the next request of the same
    browser. *)
Lemma sort_preference_round_trip_witness :
  handleSortOrder list_again "/" start = (start, ("size", "desc", None)).
Proof.
  assert (Cookies list_again
          = sent_back (SetCookies (resp (fst (handleSortOrder list_by_size_desc "/"
                                                start))))) as Hcookies by run.
  assert (Values_Get (URL_Query list_by_size_desc) "sort" = "size") as Hsort by run.
  assert (Values_Get (URL_Query list_by_size_desc) "order" = "desc") as Horder by run.
  pose proof (sort_preference_round_trip list_by_size_desc list_again "/" "/"
                start start) as Hround.
  rewrite Hsort, Horder in Hround.
  apply Hround; [reflexivity | reflexivity | reflexivity | run | run | exact Hcookies].
Defined.

(** A move to the destination [%zz]. *)
Lemma malformed_destination_is_internal_error_witness :
  QueryUnescape "%zz" = inr (EscapeError "%zz") /\
  refused_untouched StatusInternalServerError start
    (resourcePatchHandler (env 0) move_badly start).
Proof.
  assert (getResourceData (env 0) move_badly apiResourcePrefix start
          = (start, Some ("/a", everything))) as Hres by run.
  assert (QueryUnescape (Values_Get (URL_Query move_badly) "destination")
          = inr (EscapeError "%zz")) as Hdst by run.
  split; [reflexivity|].
  apply (malformed_destination_is_internal_error (env 0) move_badly start start "/a"
           everything (EscapeError "%zz") eq_refl Hres Hdst).
Defined.

(** A listing of the links of [/a] on a store that holds none, and on
    a store that is down. *)
Lemma listing_when_lookup_fails_witness :
  Written (resp (world_of (shareGetHandler (env 100) list_links_of_a start)))
  = [JSONLinks []] /\
  Status (resp (world_of (shareGetHandler (env 100) list_links_of_a
                           (world files (all_down [fresh])))))
  = Some StatusInternalServerError.
Proof.
  assert (forall st, getShareData (env 100) list_links_of_a apiSharePrefix
                       (world files st)
                     = (world files st, Some "/srv/a")) as Hres
      by (intros st; run).
  split.
  - assert (Share_GetByPath "/srv/a" (store start) = inr ErrNotExist) as Hlookup by run.
    destruct (listing_when_lookup_fails (env 100) list_links_of_a start start "/srv/a"
                ErrNotExist eq_refl (Hres no_links) Hlookup)
      as (_ & _ & _ & Hnone & _).
    exact (proj2 (Hnone eq_refl)).
  - assert (Share_GetByPath "/srv/a" (store (world files (all_down [fresh])))
            = inr (ErrOther "storage failure")) as Hlookup by run.
    destruct (listing_when_lookup_fails (env 100) list_links_of_a
                (world files (all_down [fresh])) (world files (all_down [fresh]))
                "/srv/a" (ErrOther "storage failure") eq_refl
                (Hres (all_down [fresh])) Hlookup)
      as (_ & _ & _ & _ & Hdown).
    exact (proj1 (Hdown ltac:(discriminate))).
Defined.

(** The link [h1] is deleted through [/api/share/h1/]; a request on
    [/api/share/] deletes nothing. *)
Lemma unshare_by_token_witness :
  token_of unshare_h1 = "h1" /\
  links (store (shareDeleteHandler (env 100) unshare_h1
                  (world files (holding [stale1; fresh])))) = [fresh] /\
  shareDeleteHandler (env 100) unshare_nothing
    (world files (holding [stale1; fresh]))
  = world files (holding [stale1; fresh]).
Proof.
  assert (forall r, In r [unshare_h1; unshare_nothing] ->
                    Users_Get (env 100) (UserID r) = inl everything) as Huser.
  { intros r [<- | [<- | []]]; run. }
  pose proof (unshare_by_token (env 100) unshare_h1
                (world files (holding [stale1; fresh])) everything
                eq_refl (Huser _ ltac:(simpl; auto)) eq_refl)
    as (_ & Hdelete & Htoken).
  pose proof (unshare_by_token (env 100) unshare_nothing
                (world files (holding [stale1; fresh])) everything
                eq_refl (Huser _ ltac:(simpl; auto)) eq_refl)
    as (Hempty & _ & _).
  assert (token_of unshare_h1 = "h1") as Hh1.
  { apply Htoken; [right|]; run. }
  split; [exact Hh1|]. split.
  - destruct Hdelete as (Hstore & _).
    + rewrite Hh1. discriminate.
    + rewrite Hstore, Hh1. run.
  - apply Hempty. run.
Defined.

(** A creation when the random source fails, and when the store cannot
    save. *)
Lemma create_failures_witness :
  Status (resp (sharePostHandler (env_with 100 true) share_a start))
  = Some StatusInternalServerError /\
  store (sharePostHandler (env_with 100 true) share_a start) = no_links /\
  Status (resp (sharePostHandler (env 100) share_a (world files (save_down []))))
  = Some StatusInternalServerError.
Proof.
  split; [|split].
  - assert (getShareData (env_with 100 true) share_a apiSharePrefix start
            = (start, Some "/srv/a")) as Hres by run.
    assert (Share_GetPermanent "/srv/a" (store start) = inr ErrNotExist)
      as Hlookup by run.
    apply (proj1 (create_failures (env_with 100 true) share_a start start "/srv/a"
                    eq_refl Hres (or_intror (ex_intro _ _ Hlookup)))
             (ErrOther "no entropy")).
    run.
  - assert (getShareData (env_with 100 true) share_a apiSharePrefix start
            = (start, Some "/srv/a")) as Hres by run.
    assert (Share_GetPermanent "/srv/a" (store start) = inr ErrNotExist)
      as Hlookup by run.
    apply (proj1 (create_failures (env_with 100 true) share_a start start "/srv/a"
                    eq_refl Hres (or_intror (ex_intro _ _ Hlookup)))
             (ErrOther "no entropy")).
    run.
  - assert (getShareData (env 100) share_a apiSharePrefix
              (world files (save_down []))
            = (world files (save_down []), Some "/srv/a")) as Hres by run.
    assert (Share_GetPermanent "/srv/a" (store (world files (save_down [])))
            = inr ErrNotExist) as Hlookup by run.
    apply (proj2 (create_failures (env 100) share_a (world files (save_down []))
                    (world files (save_down [])) "/srv/a"
                    eq_refl Hres (or_intror (ex_intro _ _ Hlookup)))).
    intros s. vm_compute. discriminate.
Defined.

(** The token of the link the first creation issues. *)
Lemma created_token_shape_witness :
  Written (resp (sharePostHandler (env 100) share_a start))
  = [JSONLink (issued false zeroTime)] /\
  String.length (Hash (issued false zeroTime)) = 8%nat /\
  forallb url_safe (list_ascii_of_string (Hash (issued false zeroTime))) = true.
Proof.
  assert (Written (resp (sharePostHandler (env 100) share_a start))
          = (Written (resp start) ++ [JSONLink (issued false zeroTime)])%list)
    as Hwritten by run.
  split; [exact Hwritten|].
  apply (created_token_shape (env 100) share_a start (issued false zeroTime));
    [|exact Hwritten].
  intros bytes Hbytes. vm_compute in Hbytes. injection Hbytes as <-. reflexivity.
Defined.

(** A listing over two expired links and a fresh one, which panics: what
    was deleted before it had expired. *)
Lemma listing_is_sound_witness :
  exists evs : list Event,
    log (world_of (shareGetHandler (env 100) list_links_of_a
                     (world files (holding [stale1; stale2; fresh]))))
    = EvStore (CallGetByPath "/srv/a") :: evs /\
    Forall (deletes_expired (env 100) [stale1; stale2; fresh]) evs.
Proof.
  assert (getShareData (env 100) list_links_of_a apiSharePrefix
            (world files (holding [stale1; stale2; fresh]))
          = (world files (holding [stale1; stale2; fresh]), Some "/srv/a"))
    as Hres by run.
  assert (Share_GetByPath "/srv/a"
            (store (world files (holding [stale1; stale2; fresh])))
          = inl [stale1; stale2; fresh]) as Hlookup by run.
  destruct (listing_is_sound (env 100) list_links_of_a
              (world files (holding [stale1; stale2; fresh]))
              (world files (holding [stale1; stale2; fresh])) "/srv/a"
              [stale1; stale2; fresh] Hres Hlookup)
    as (evs & Hlog & Hevs & _).
  exists evs. split; [exact Hlog | exact Hevs].
Defined.

(** A listing over a fresh and a permanent link. *)
Lemma listing_without_expired_links_witness :
  Written (resp (world_of (shareGetHandler (env 100) list_links_of_a
                             (world files (holding [fresh; fresh2])))))
  = [JSONLinks [fresh; fresh2]] /\
  store (world_of (shareGetHandler (env 100) list_links_of_a
                     (world files (holding [fresh; fresh2]))))
  = holding [fresh; fresh2].
Proof.
  assert (getShareData (env 100) list_links_of_a apiSharePrefix
            (world files (holding [fresh; fresh2]))
          = (world files (holding [fresh; fresh2]), Some "/srv/a")) as Hres by run.
  assert (Share_GetByPath "/srv/a" (store (world files (holding [fresh; fresh2])))
          = inl [fresh; fresh2]) as Hlookup by run.
  assert (Forall (fresh_link (env 100)) [fresh; fresh2]) as Hfresh.
  { constructor; [|constructor; [|constructor]].
    - right. intros k. vm_compute. discriminate.
    - left. reflexivity. }
  destruct (listing_without_expired_links (env 100) list_links_of_a
              (world files (holding [fresh; fresh2]))
              (world files (holding [fresh; fresh2])) "/srv/a"
              [fresh; fresh2] eq_refl Hres Hlookup Hfresh)
    as (_ & _ & Hwritten & Hstore & _).
  split; [exact Hwritten | exact Hstore].
Defined.

(** A listing over an expired link between two others. *)
Lemma listing_with_one_expired_link_witness :
  Written (resp (world_of (shareGetHandler (env 100) list_links_of_a
                             (world files (holding [fresh; stale1; fresh2])))))
  = [JSONLinks [fresh; fresh2]] /\
  links (store (world_of (shareGetHandler (env 100) list_links_of_a
                            (world files (holding [fresh; stale1; fresh2])))))
  = [fresh; fresh2].
Proof.
  assert (getShareData (env 100) list_links_of_a apiSharePrefix
            (world files (holding [fresh; stale1; fresh2]))
          = (world files (holding [fresh; stale1; fresh2]), Some "/srv/a"))
    as Hres by run.
  assert (Share_GetByPath "/srv/a"
            (store (world files (holding [fresh; stale1; fresh2])))
          = inl ([fresh] ++ stale1 :: [fresh2])%list) as Hlookup by run.
  assert (Forall (fresh_link (env 100)) [fresh]) as Hbefore.
  { constructor; [|constructor].
    right. intros k. vm_compute. discriminate. }
  assert (Forall (fresh_link (env 100)) [fresh2]) as Hafter.
  { constructor; [|constructor]. left. reflexivity. }
  assert (expired_link (env 100) stale1) as Hstale.
  { split; [reflexivity|]. intros k. reflexivity. }
  destruct (listing_with_one_expired_link (env 100) list_links_of_a
              (world files (holding [fresh; stale1; fresh2]))
              (world files (holding [fresh; stale1; fresh2])) "/srv/a"
              [fresh] [fresh2] stale1 eq_refl Hres Hlookup Hbefore Hafter Hstale)
    as (_ & _ & Hwritten & Hstore & _).
  split; [exact Hwritten|]. rewrite Hstore. run.
Defined.

(** A second creation of a permanent link of [/a] answers the one the
    store holds. *)
Lemma permanent_link_reused_witness :
  Written (resp (sharePostHandler (env 100) share_a
                   (world files (holding [permanent]))))
  = [Text "http://host/share/h0"] /\
  store (sharePostHandler (env 100) share_a (world files (holding [permanent])))
  = holding [permanent].
Proof.
  assert (getShareData (env 100) share_a apiSharePrefix
            (world files (holding [permanent]))
          = (world files (holding [permanent]), Some "/srv/a")) as Hres by run.
  assert (Values_Get (URL_Query share_a) "expires" = EmptyString) as Hexpires by run.
  assert (Share_GetPermanent "/srv/a" (store (world files (holding [permanent])))
          = inl permanent) as Hlookup by run.
  destruct (permanent_link_reused (env 100) share_a
              (world files (holding [permanent]))
              (world files (holding [permanent])) "/srv/a" permanent
              Hres Hexpires Hlookup)
    as (Hwritten & Hstore & _).
  split; [exact Hwritten | exact Hstore].
Defined.

(** Creations on a store that holds one permanent link of [/a]. *)
Lemma healthy_lookup_keeps_one_permanent_witness :
  one_permanent_per_path
    (store (sharePostHandler (env 100) share_a (world files (holding [permanent]))))
  /\ one_permanent_per_path
       (store (sharePostHandler (env 100) share_a_10_minutes
                 (world files (holding [permanent])))).
Proof.
  assert (one_permanent_per_path (store (world files (holding [permanent]))))
    as Hone.
  { intros path. unfold permanent_links. simpl.
    destruct (_ && _); simpl; lia. }
  split.
  - apply (healthy_lookup_keeps_one_permanent (env 100) share_a
             (world files (holding [permanent])) eq_refl Hone).
  - apply (healthy_lookup_keeps_one_permanent (env 100) share_a_10_minutes
             (world files (holding [permanent])) eq_refl Hone).
Defined.

(** A user without the create capability copies [/a] to [/b]. *)
Lemma patch_copy_refused_witness :
  refused_untouched StatusForbidden start
    (resourcePatchHandler (env 0) copy_denied start).
Proof.
  assert (getResourceData (env 0) copy_denied apiResourcePrefix start
          = (start, Some ("/a", nothing))) as Hres by run.
  assert (QueryUnescape (Values_Get (URL_Query copy_denied) "destination")
          = inl "/b") as Hdst by run.
  assert (Values_Get (URL_Query copy_denied) "action" = "copy") as Haction by run.
  apply (patch_copy_refused (env 0) copy_denied start start "/a" "/b" nothing
           eq_refl Hres Hdst Haction eq_refl).
Defined.

(** A user without the rename capability moves [/a] to [/b] and names no
    action. *)
Lemma patch_default_rename_refused_witness :
  refused_untouched StatusForbidden start
    (resourcePatchHandler (env 0) move_denied start).
Proof.
  assert (getResourceData (env 0) move_denied apiResourcePrefix start
          = (start, Some ("/a", nothing))) as Hres by run.
  assert (QueryUnescape (Values_Get (URL_Query move_denied) "destination")
          = inl "/b") as Hdst by run.
  assert (Values_Get (URL_Query move_denied) "action" = EmptyString) as Haction by run.
  apply (patch_default_rename_refused (env 0) move_denied start start "/a" "/b"
           nothing eq_refl Hres Hdst); [| | reflexivity];
    rewrite Haction; discriminate.
Defined.

End MoreWitnesses.
